(** * Transcription-to-artifact pipeline of [gui_transcribe.py]

    A shallow embedding of the prompt library, the caption timestamp
    formatter, the artifact writer, the summarizer and the pipeline
    orchestrator, with the properties of the specification stated and
    proved over it.

    Conventions of the embedding:
    - a Python [str] is a [string]; one [ascii] is one code point below 256;
    - a Python [int] is a [Z];
    - a Python [float] is a binary64 number, a [spec_float] of the Standard
      Library with precision 53 and maximal exponent 1024;
    - a raised exception is the [Raise] case of [result];
    - the file system, the environment, the clock and the log of calls to
      the two remote collaborators are the fields of an explicit [world]. *)

From Stdlib Require Import ZArith Ascii String List Bool Lia.
From Stdlib Require Import DecimalString DecimalFacts DecimalPos DecimalN DecimalZ.
From Stdlib Require Import SpecFloat.
From stdpp Require Import base option list gmap strings.

Local Open Scope Z_scope.
Local Open Scope string_scope.

(** ** Exceptions and results *)

Inductive exn :=
  | RuntimeError (msg : string)
  | ValueError (msg : string)
  | OverflowError (msg : string)
  | JSONDecodeError
  | AttributeError (msg : string)
  | OSError (msg : string)
  | CollaboratorError (msg : string).

Inductive result (A : Type) :=
  | Ok (a : A)
  | Raise (e : exn).
Arguments Ok {A} a.
Arguments Raise {A} e.

Definition is_ok {A} (r : result A) : bool :=
  match r with Ok _ => true | Raise _ => false end.

(** ** Python strings *)

Module PyStr.

(** [str.isspace] on the code points below 256: TAB, LF, VT, FF, CR, the
    four separators FS, GS, RS, US, the space, NEL and the no-break
    space. *)
Definition is_space (c : ascii) : bool :=
  let n := nat_of_ascii c in
  ((9 <=? n)%nat && (n <=? 13)%nat)
  || ((28 <=? n)%nat && (n <=? 32)%nat)
  || (n =? 133)%nat || (n =? 160)%nat.

Fixpoint lstrip (s : string) : string :=
  match s with
  | EmptyString => EmptyString
  | String c r => if is_space c then lstrip r else s
  end.

Fixpoint rstrip (s : string) : string :=
  match s with
  | EmptyString => EmptyString
  | String c r =>
      match rstrip r with
      | EmptyString => if is_space c then EmptyString else String c EmptyString
      | r' => String c r'
      end
  end.

(** [s.strip()] *)
Definition strip (s : string) : string := rstrip (lstrip s).

(** Truth value of a string: [not s] is [is_empty s]. *)
Definition is_empty (s : string) : bool :=
  match s with EmptyString => true | _ => false end.

(** ["\n".join(lines)] *)
Fixpoint join (sep : string) (lines : list string) : string :=
  match lines with
  | [] => EmptyString
  | [x] => x
  | x :: rest => x ++ sep ++ join sep rest
  end.

(** [tok in s] *)
Fixpoint contains (tok s : string) : bool :=
  String.prefix tok s
  || match s with
     | EmptyString => false
     | String _ r => contains tok r
     end.

(** [s.replace(tok, new)] for a non-empty [tok]: the occurrences of [tok]
    are taken from the left and do not overlap.  [skip] counts the
    characters of a matched occurrence that are still to be passed. *)
Fixpoint replace_from (skip : nat) (tok new s : string) : string :=
  match s with
  | EmptyString => EmptyString
  | String c r =>
      match skip with
      | S k => replace_from k tok new r
      | O =>
          if String.prefix tok s
          then new ++ replace_from (Nat.pred (String.length tok)) tok new r
          else String c (replace_from O tok new r)
      end
  end.

Definition replace (tok new s : string) : string := replace_from O tok new s.

End PyStr.

Definition nl : string := String (ascii_of_nat 10) EmptyString.

#[global] Instance result_ret : MRet result := fun _ a => Ok a.
#[global] Instance result_bind : MBind result := fun _ _ f r =>
  match r with
  | Ok a => f a
  | Raise e => Raise e
  end.

(** ** Python integers as text *)

Module PyInt.

(** [str(z)] *)
Definition to_str (z : Z) : string := NilEmpty.string_of_int (Z.to_int z).

Fixpoint zeros (n : nat) : string :=
  match n with
  | O => EmptyString
  | S k => String "0" (zeros k)
  end.

(** [format(z, "0w")], the [{z:0w}] of an f-string: the sign comes first
    and zeros fill the text up to [width] characters; a longer number is
    left as it is. *)
Definition format_zero_padded (width : nat) (z : Z) : string :=
  let sign := if (z <? 0)%Z then "-" else "" in
  let digits := NilEmpty.string_of_uint (N.to_uint (Z.abs_N z)) in
  sign ++ zeros (width - String.length sign - String.length digits)%nat ++ digits.

(** [divmod(a, b)]: floor division, the remainder has the sign of [b]. *)
Definition divmod (a b : Z) : Z * Z := (a / b, a mod b).

End PyInt.

(** ** Python floats: binary64 *)

Module PyFloat.

Definition prec : Z := 53.
Definition emax : Z := 1024.

(** [float(z)] of an integer that binary64 holds exactly or rounds. *)
Definition of_int (z : Z) : spec_float := binary_normalize prec emax z 0 false.

(** [x * y] *)
Definition mul (x y : spec_float) : spec_float := SFmul prec emax x y.

(** [x <= y] *)
Definition leb (x y : spec_float) : bool := SFleb x y.

Definition is_finite (x : spec_float) : bool :=
  match x with
  | S754_zero _ | S754_finite _ _ _ => true
  | _ => false
  end.

(** The integer nearest to [m / 2^k], ties to the even one ([0 < k]). *)
Definition round_half_even (m k : Z) : Z :=
  let q := m / 2 ^ k in
  let r := m mod 2 ^ k in
  match (2 * r ?= 2 ^ k)%Z with
  | Lt => q
  | Gt => q + 1
  | Eq => if Z.even q then q else q + 1
  end.

(** [round(x)] with one argument: the nearest integer, ties to even;
    it raises on an infinity and on a NaN. *)
Definition round (x : spec_float) : result Z :=
  match x with
  | S754_zero _ => Ok 0
  | S754_finite s m e =>
      let magnitude :=
        if (0 <=? e)%Z then Z.pos m * 2 ^ e else round_half_even (Z.pos m) (- e) in
      Ok (if s then - magnitude else magnitude)
  | S754_infinity _ => Raise (OverflowError "cannot convert float infinity to integer")
  | S754_nan => Raise (ValueError "cannot convert float NaN to integer")
  end.

End PyFloat.

(** ** Timestamp formatter *)

Definition seconds_to_srt_timestamp (seconds : spec_float) : result string :=
  millis ← PyFloat.round (PyFloat.mul seconds (PyFloat.of_int 1000));
  let '(hours, remainder) := PyInt.divmod millis 3600000 in
  let '(minutes, remainder) := PyInt.divmod remainder 60000 in
  let '(secs, millis) := PyInt.divmod remainder 1000 in
  Ok (PyInt.format_zero_padded 2 hours ++ ":" ++
      PyInt.format_zero_padded 2 minutes ++ ":" ++
      PyInt.format_zero_padded 2 secs ++ "," ++
      PyInt.format_zero_padded 3 millis).


(** ** Transcription records

    The dictionary that [model_dump()] gives for a verbose transcription.
    A field is [None] when its key is missing from the dictionary, so that
    the [.get(key, default)] of the writer has something to decide. *)

Record Segment := {
  seg_start : option spec_float;
  seg_end : option spec_float;
  seg_text : option string
}.

(** The value under ["segments"]: no such key, [None], or a list. *)
Inductive segments_field :=
  | SegMissing
  | SegNull
  | SegList (l : list Segment).

Record Transcription := {
  tr_text : option string;
  tr_segments : segments_field
}.

(** ** JSON documents *)

#[warnings="-register-all"] Inductive json :=
  | JNull
  | JNum (x : spec_float)
  | JStr (s : string)
  | JList (l : list json)
  | JObj (fields : list (string * json)).

Definition json_opt_field {A} (key : string) (f : A -> json) (v : option A)
  : list (string * json) :=
  match v with
  | Some a => [(key, f a)]
  | None => []
  end.

Definition segment_to_json (s : Segment) : json :=
  JObj (json_opt_field "start" JNum (seg_start s) ++
        json_opt_field "end" JNum (seg_end s) ++
        json_opt_field "text" JStr (seg_text s)).

Definition transcription_to_json (t : Transcription) : json :=
  JObj (json_opt_field "text" JStr (tr_text t) ++
        match tr_segments t with
        | SegMissing => []
        | SegNull => [("segments", JNull)]
        | SegList l => [("segments", JList (map segment_to_json l))]
        end).

(** ** The world a run acts on *)

(** What a file holds.  [Json j] stands for the text [json.dumps] writes
    for [j], which [json.load] reads back as [j]; [Text s] is text written
    as such, which [json.load] does not accept; [Audio] is an upload. *)
Inductive content :=
  | Text (s : string)
  | Json (j : json)
  | Audio (bytes : list ascii).

(** The client of the remote service: [client.audio.transcriptions.create]
    and [client.responses.create], each of which answers or raises. *)
Record Client := {
  transcriptions_create : string -> content -> result Transcription;
  responses_create : string -> string -> result string
}.

Inductive event :=
  | EvMkdir (path : string)
  | EvWrite (path : string) (c : content)
  | EvTranscribe (model : string) (audio : content)
  | EvComplete (model : string) (prompt : string).

Record world := {
  w_env_key : option string;           (* os.getenv("OPENAI_API_KEY") *)
  w_files : gmap string content;       (* regular files, by path *)
  w_dirs : gset string;                (* directories *)
  w_now : string;                      (* datetime.now() as %Y%m%d-%H%M%S *)
  w_openai : string -> Client;         (* OpenAI(api_key=...) *)
  w_trace : list event                 (* effects so far, oldest first *)
}.

(** A computation reads and changes the world and returns or raises; what
    it changed before raising stays changed. *)
Definition io (A : Type) : Type := world -> result A * world.

Definition io_ret {A} (a : A) : io A := fun w => (Ok a, w).

Definition io_raise {A} (e : exn) : io A := fun w => (Raise e, w).

Definition io_bind {A B} (m : io A) (k : A -> io B) : io B := fun w =>
  match m w with
  | (Ok a, w') => k a w'
  | (Raise e, w') => (Raise e, w')
  end.

Definition io_lift {A} (r : result A) : io A := fun w => (r, w).

Notation "x <~ m ;; k" := (io_bind m (fun x => k))
  (at level 100, m at next level, right associativity, only parsing).
Notation "m ;;; k" := (io_bind m (fun _ => k))
  (at level 100, right associativity, only parsing).

Definition log (ev : event) (w : world) : world :=
  {| w_env_key := w_env_key w; w_files := w_files w; w_dirs := w_dirs w;
     w_now := w_now w; w_openai := w_openai w;
     w_trace := w_trace w ++ [ev] |}.

(** The file system of the model takes every directory and every write:
    a full disk, a missing permission or a file in the place of a
    directory are faults of the environment that are left out.

    [path.mkdir(parents=True, exist_ok=True)] *)
Definition mkdir (path : string) : io unit := fun w =>
  let w := log (EvMkdir path) w in
  (Ok tt,
   {| w_env_key := w_env_key w; w_files := w_files w;
      w_dirs := {[ path ]} ∪ w_dirs w;
      w_now := w_now w; w_openai := w_openai w; w_trace := w_trace w |}).

(** [path.write_text(...)]: the file is created or replaced as a whole. *)
Definition write_file (path : string) (c : content) : io unit := fun w =>
  let w := log (EvWrite path c) w in
  (Ok tt,
   {| w_env_key := w_env_key w; w_files := <[ path := c ]> (w_files w);
      w_dirs := w_dirs w;
      w_now := w_now w; w_openai := w_openai w; w_trace := w_trace w |}).

(** [path.exists()] *)
Definition path_exists (path : string) (w : world) : bool :=
  bool_decide (is_Some (w_files w !! path)) || bool_decide (path ∈ w_dirs w).

Definition OUT_DIR : string := "out".
Definition PROMPTS_PATH : string := "prompts.json".
Definition TRANSCRIPTION_MODEL : string := "whisper-1".
Definition SUMMARY_MODEL : string := "gpt-4o-mini".

(** [OUT_DIR / name] *)
Definition out_path (name : string) : string := OUT_DIR ++ "/" ++ name.

(** ** Prompt library *)

(** A Python [dict] from strings to strings: its items in the order in
    which the keys were first set, each key once.  [json.dumps] writes the
    items in this order and [keys()] lists them in it. *)
Record dict := Dict { dict_items : list (string * string) }.

(** [d.get(key)] on the items of [d] *)
Fixpoint get_item (key : string) (items : list (string * string)) : option string :=
  match items with
  | [] => None
  | (k, v) :: rest => if String.eqb k key then Some v else get_item key rest
  end.

(** [d[key] = value] on the items of [d]: a key that is there keeps its
    place and gets the value, a new key goes to the end. *)
Fixpoint set_item (key value : string) (items : list (string * string))
  : list (string * string) :=
  match items with
  | [] => [(key, value)]
  | (k, v) :: rest =>
      if String.eqb k key then (k, value) :: rest
      else (k, v) :: set_item key value rest
  end.

#[global] Instance dict_empty : Empty dict := Dict [].
#[global] Instance dict_lookup : Lookup string string dict :=
  fun key d => get_item key (dict_items d).
#[global] Instance dict_insert : Insert string string dict :=
  fun key value d => Dict (set_item key value (dict_items d)).

(** No key occurs twice, as in every [dict] of Python. *)
Definition dict_wf (d : dict) : Prop := NoDup (dict_items d).*1.

Definition DEFAULT_PROMPTS : dict :=
  Dict [
    ("General Summary",
     "You are an executive assistant. Provide 5-10 concise bullet points summarizing the conversation. " ++
     "Focus on decisions, action items, deadlines, and unresolved questions. Include owners when possible." ++
     nl ++ "{transcript}");
    ("LB Update (one line)",
     "Produce a single-line status update no longer than 300 characters covering current status, blockers, " ++
     "and the next planned step. Do not add bullet points or labels." ++ nl ++ "{transcript}");
    ("Radiology Downtime (Ops)",
     "Summarize the incident for hospital operations leadership. Highlight impact, timeline, workarounds, " ++
     "communication points, and next actions. Keep it concise and actionable." ++ nl ++ "{transcript}");
    ("Land Listing Summary",
     "Imagine you are briefing a buyer's agent about a new property listing. Provide the buyer persona, top " ++
     "reasons to care, risks, next actions, and 3-5 attention-grabbing headlines (each 34 characters or fewer). " ++
     "{transcript}")
  ].

(** [json.dumps(prompts, indent=2)] of a dictionary of strings: the items
    in the order of the dictionary. *)
Definition prompts_to_json (prompts : dict) : json :=
  JObj ((fun kv => (kv.1, JStr kv.2)) <$> dict_items prompts).

Section PromptLibrary.

(** [str(v)] of a JSON value that is not a string already. *)
Variable str_of_json : json -> string.

Definition py_str (v : json) : string :=
  match v with
  | JStr s => s
  | _ => str_of_json v
  end.

(** [{str(k): str(v) for k, v in data.items()}] of the object [json.load]
    read: a later pair under a key that was read before replaces its value
    and leaves it at its place. *)
Definition prompts_of_items (items : list (string * json)) : dict :=
  foldl (fun d kv => <[ kv.1 := py_str kv.2 ]> d) ∅ items.

(** [json.load] of the store followed by the comprehension *)
Definition read_prompts : io dict := fun w =>
  match w_files w !! PROMPTS_PATH with
  | Some (Json (JObj items)) => (Ok (prompts_of_items items), w)
  | Some (Json _) => (Raise (AttributeError "object has no attribute 'items'"), w)
  | Some _ => (Raise JSONDecodeError, w)
  | None => (Raise (OSError "cannot open the prompt store"), w)
  end.

Definition ensure_prompt_library : io dict :=
  (fun w =>
     if negb (path_exists PROMPTS_PATH w)
     then write_file PROMPTS_PATH (Json (prompts_to_json DEFAULT_PROMPTS)) w
     else (Ok tt, w)) ;;;
  read_prompts.

Definition save_prompt (prompt_name prompt_text : string) : io unit :=
  prompts <~ ensure_prompt_library ;;
  let prompts := <[ prompt_name := prompt_text ]> prompts in
  write_file PROMPTS_PATH (Json (prompts_to_json prompts)).

Definition load_prompt_text (prompt_name : string) : io string :=
  prompts <~ ensure_prompt_library ;;
  io_ret (default "" (prompts !! prompt_name)).

End PromptLibrary.

(** ** Artifact writer *)

(** The body of the loop over [enumerate(segments, start=1)], with the
    lines gathered so far in [srt_lines]. *)
Fixpoint srt_loop (idx : Z) (segments : list Segment) (srt_lines : list string)
  : result (list string) :=
  match segments with
  | [] => Ok srt_lines
  | segment :: rest =>
      start_ts ← seconds_to_srt_timestamp (default (PyFloat.of_int 0) (seg_start segment));
      end_ts ← seconds_to_srt_timestamp (default (PyFloat.of_int 0) (seg_end segment));
      let text := PyStr.strip (default "" (seg_text segment)) in
      if PyStr.is_empty text
      then srt_loop (idx + 1) rest srt_lines
      else srt_loop (idx + 1) rest
             (srt_lines ++ [PyInt.to_str idx; start_ts ++ " --> " ++ end_ts; text; ""])
  end.

(** [transcription.get("segments") or []] *)
Definition segments_or_empty (t : Transcription) : list Segment :=
  match tr_segments t with
  | SegList l => l
  | SegMissing | SegNull => []
  end.

Definition txt_path_of (base_name : string) : string := out_path (base_name ++ ".txt").
Definition json_path_of (base_name : string) : string := out_path (base_name ++ ".json").
Definition srt_path_of (base_name : string) : string := out_path (base_name ++ ".srt").
Definition summary_path_of (base_name : string) : string :=
  out_path (base_name ++ "-summary.txt").

Definition write_transcription_outputs (transcription : Transcription) (base_name : string)
  : io (string * string * string * string) :=
  mkdir OUT_DIR ;;;
  let transcript_text := PyStr.strip (default "" (tr_text transcription)) in
  let txt_path := txt_path_of base_name in
  write_file txt_path (Text (transcript_text ++ nl)) ;;;
  let json_path := json_path_of base_name in
  write_file json_path (Json (transcription_to_json transcription)) ;;;
  srt_lines <~ io_lift (srt_loop 1 (segments_or_empty transcription) []) ;;
  let srt_path := srt_path_of base_name in
  let srt_body := PyStr.strip (PyStr.join nl srt_lines) in
  write_file srt_path (Text (if PyStr.is_empty srt_body then "" else srt_body ++ nl)) ;;;
  io_ret (transcript_text, txt_path, srt_path, json_path).

(** ** Summarizer *)

Definition PLACEHOLDER : string := "{transcript}".

Definition summarize_transcript (client : Client)
    (prompt_template : option string) (transcript_text : string) : io string :=
  let prompt_template := default "" prompt_template in
  let cleaned_transcript := PyStr.strip transcript_text in
  let prompt :=
    if PyStr.contains PLACEHOLDER prompt_template
    then PyStr.replace PLACEHOLDER cleaned_transcript prompt_template
    else PyStr.strip prompt_template ++ nl ++ nl ++ "Transcript:" ++ nl ++ cleaned_transcript in
  response <~ (fun w => (responses_create client SUMMARY_MODEL prompt,
                         log (EvComplete SUMMARY_MODEL prompt) w)) ;;
  io_ret (PyStr.strip response).

(** ** Pipeline orchestrator *)

Definition require_api_key : io string := fun w =>
  match w_env_key w with
  | Some api_key =>
      if PyStr.is_empty api_key
      then (Raise (RuntimeError "OPENAI_API_KEY environment variable is not set."), w)
      else (Ok api_key, w)
  | None => (Raise (RuntimeError "OPENAI_API_KEY environment variable is not set."), w)
  end.

(** [s.rpartition(c)]: the text before and after the last [c] of [s]. *)
Fixpoint split_last (c : ascii) (s : string) : option (string * string) :=
  match s with
  | EmptyString => None
  | String a r =>
      match split_last c r with
      | Some (l, t) => Some (String a l, t)
      | None => if Ascii.eqb a c then Some (EmptyString, r) else None
      end
  end.

(** [path.name]: the last component of a path. *)
Definition path_name (path : string) : string :=
  match split_last "/" path with
  | Some (_, name) => name
  | None => path
  end.

(** [path.stem]: the name without its last suffix; a leading or a trailing
    dot starts no suffix. *)
Definition path_stem (path : string) : string :=
  let name := path_name path in
  match split_last "." name with
  | Some (l, t) => if PyStr.is_empty l || PyStr.is_empty t then name else l
  | None => name
  end.

Definition timestamped_basename (source_path : string) : io string := fun w =>
  let timestamp := w_now w in
  let base := path_stem source_path in
  (Ok (base ++ "-" ++ timestamp), w).

Record TranscriptionOutputs := {
  transcript_text : string;
  summary_text : string;
  txt_path : option string;
  srt_path : option string;
  json_path : option string;
  summary_path : option string;
  status_markdown : string
}.

(** The check mark U+2705 that opens a status line, as its three UTF-8
    bytes (the one text here that leaves the code points below 256). *)
Definition CHECK_MARK : string :=
  String (ascii_of_nat 226) (String (ascii_of_nat 156) (String (ascii_of_nat 133) "")).

Definition MSG_NO_FILE : string := "Please upload an audio file to transcribe.".
Definition MSG_UNAVAILABLE : string := "Uploaded file is unavailable. Please try again.".
Definition MSG_EMPTY_PROMPT : string :=
  "Selected prompt is empty. Please provide prompt text or disable summarization.".

(** [file_path.open("rb")] and the call of the transcription collaborator
    on the open file. *)
Definition transcriptions_create_on (client : Client) (path : string) : io Transcription :=
  fun w =>
    match w_files w !! path with
    | Some audio_file =>
        (transcriptions_create client TRANSCRIPTION_MODEL audio_file,
         log (EvTranscribe TRANSCRIPTION_MODEL audio_file) w)
    | None => (Raise (OSError "cannot open the uploaded file"), w)
    end.

(** [file_path] is [None] for a caller that passes no path. *)
Definition transcribe_file (file_path : option string) (summarize : bool)
    (prompt_template : string) : io TranscriptionOutputs :=
  match file_path with
  | None => io_raise (RuntimeError MSG_NO_FILE)
  | Some file_path =>
      api_key <~ require_api_key ;;
      client <~ (fun w => (Ok (w_openai w api_key), w)) ;;
      exists_ <~ (fun w => (Ok (path_exists file_path w), w)) ;;
      if negb exists_ then io_raise (RuntimeError MSG_UNAVAILABLE) else
      base_name <~ timestamped_basename file_path ;;
      transcription <~ transcriptions_create_on client file_path ;;
      outs <~ write_transcription_outputs transcription base_name ;;
      let '(transcript_text, txt_path, srt_path, json_path) := outs in
      summary <~
        (if summarize then
           if PyStr.is_empty (PyStr.strip prompt_template)
           then io_raise (RuntimeError MSG_EMPTY_PROMPT)
           else
             summary_text <~ summarize_transcript client (Some prompt_template) transcript_text ;;
             let summary_path := summary_path_of base_name in
             write_file summary_path (Text (summary_text ++ nl)) ;;;
             io_ret (summary_text, Some summary_path)
         else io_ret ("", None)) ;;
      let '(summary_text, summary_path) := summary in
      let status :=
        if negb summarize then CHECK_MARK ++ " Transcription complete."
        else CHECK_MARK ++ " Transcription and summary complete." in
      io_ret {| transcript_text := transcript_text;
                summary_text := summary_text;
                txt_path := Some txt_path;
                srt_path := Some srt_path;
                json_path := Some json_path;
                summary_path := summary_path;
                status_markdown := status |}
  end.

(** ** Interface handlers *)

(** The warning sign U+26A0 U+FE0F and the cross mark U+274C, as UTF-8
    bytes. *)
Definition WARNING_SIGN : string :=
  String (ascii_of_nat 226) (String (ascii_of_nat 154) (String (ascii_of_nat 160)
    (String (ascii_of_nat 239) (String (ascii_of_nat 184) (String (ascii_of_nat 143) ""))))).

Definition CROSS_MARK : string :=
  String (ascii_of_nat 226) (String (ascii_of_nat 157) (String (ascii_of_nat 140) "")).

(** What the transcription handler hands to the seven outputs of the
    interface. *)
Record UiOutputs := {
  ui_status : string;
  ui_transcript : string;
  ui_summary : string;
  ui_txt : option string;
  ui_srt : option string;
  ui_json : option string;
  ui_summary_file : option string
}.

Definition ui_message (message : string) : UiOutputs :=
  {| ui_status := message; ui_transcript := ""; ui_summary := "";
     ui_txt := None; ui_srt := None; ui_json := None; ui_summary_file := None |}.

Section Handlers.

Variable str_of_json : json -> string.

(** [str(exc)] of an exception that does not carry its text here. *)
Variable str_of_exn : exn -> string.

(** [str(exc)] *)
Definition exn_text (exc : exn) : string :=
  match exc with
  | RuntimeError msg | ValueError msg | OverflowError msg | CollaboratorError msg => msg
  | _ => str_of_exn exc
  end.

(** [audio_file] is [None] when nothing is uploaded, and the name of the
    upload otherwise; [prompt_name] is received and not used. *)
Definition transcribe_from_ui (audio_file : option string) (summarize : bool)
    (prompt_name prompt_text : string) : io UiOutputs :=
  match audio_file with
  | None => io_ret (ui_message (WARNING_SIGN ++ " Please upload an audio file."))
  | Some name => fun w =>
      match transcribe_file (Some name) summarize prompt_text w with
      | (Raise exc, w') => (Ok (ui_message (CROSS_MARK ++ " " ++ exn_text exc)), w')
      | (Ok result, w') =>
          (Ok {| ui_status := status_markdown result;
                 ui_transcript := transcript_text result;
                 ui_summary := summary_text result;
                 ui_txt := txt_path result;
                 ui_srt := srt_path result;
                 ui_json := json_path result;
                 ui_summary_file := summary_path result |}, w')
      end
  end.

Definition on_prompt_selected (prompt_name : string) : io (string * string) :=
  text <~ (if PyStr.is_empty prompt_name then io_ret ""
           else load_prompt_text str_of_json prompt_name) ;;
  let helper :=
    if PyStr.is_empty text then ""
    else "Loaded prompt: **" ++ prompt_name ++ "**" in
  io_ret (text, helper).

Definition on_prompt_save (prompt_name prompt_text : string) : io string :=
  if PyStr.is_empty prompt_name
  then io_ret (CROSS_MARK ++ " Please provide a prompt name.")
  else if PyStr.is_empty (PyStr.strip prompt_text)
  then io_ret (CROSS_MARK ++ " Prompt text cannot be empty.")
  else
    save_prompt str_of_json prompt_name prompt_text ;;;
    io_ret (CHECK_MARK ++ " Saved prompt '" ++ prompt_name ++ "'.").

End Handlers.

(** ** Command line: [transcribe_cloud.py] *)

Module TranscribeCloud.

(** [f"{path}"] of an optional path *)
Definition show_path (path : option string) : string := default "None" path.

(** The body of [main], after click has read the arguments: [prompt_text]
    is [None] without [--prompt-text]; the lines echoed come back in
    order. *)
Definition main (str_of_json : json -> string) (audio_path : string) (summarize : bool)
    (prompt_name : string) (prompt_text : option string) : io (list string) :=
  ensure_prompt_library str_of_json ;;;
  template <~ (match prompt_text with
               | Some text => io_ret text
               | None => load_prompt_text str_of_json prompt_name
               end) ;;
  outputs <~ transcribe_file (Some audio_path) summarize template ;;
  io_ret (app [status_markdown outputs;
               "Transcript: " ++ show_path (txt_path outputs);
               "Captions: " ++ show_path (srt_path outputs);
               "Verbose JSON: " ++ show_path (json_path outputs)]
              match summary_path outputs with
              | Some summary => ["Summary: " ++ summary]
              | None => []
              end).

End TranscribeCloud.

(** ** Notions the properties are stated with *)

(** The offsets the formatter has an answer for: [seconds * 1000] is a
    finite float. *)
Definition formattable (seconds : spec_float) : bool :=
  PyFloat.is_finite (PyFloat.mul seconds (PyFloat.of_int 1000)).

Definition segment_start (s : Segment) : spec_float :=
  default (PyFloat.of_int 0) (seg_start s).
Definition segment_end (s : Segment) : spec_float :=
  default (PyFloat.of_int 0) (seg_end s).
Definition segment_text (s : Segment) : string :=
  PyStr.strip (default "" (seg_text s)).

Definition segment_formattable (s : Segment) : Prop :=
  formattable (segment_start s) = true /\ formattable (segment_end s) = true.

(** One block of a caption file. *)
Record Caption := {
  cap_index : Z;
  cap_start : string;
  cap_end : string;
  cap_text : string
}.

(** The line of the two timestamps. *)
Definition caption_times (c : Caption) : string :=
  cap_start c ++ " --> " ++ cap_end c.

Definition caption_lines (c : Caption) : list string :=
  [PyInt.to_str (cap_index c); caption_times c; cap_text c; ""].

(** A block as text: the index, the two timestamps and the text, one per
    line. *)
Definition render_caption (c : Caption) : string :=
  PyInt.to_str (cap_index c) ++ nl ++
  caption_times c ++ nl ++
  cap_text c ++ nl.

(** The blocks of a caption file, with one empty line between two blocks. *)
Definition render_captions (cs : list Caption) : string :=
  PyStr.join nl (map render_caption cs).

(** The segments with their positions in the list, counted from [i]. *)
Fixpoint numbered_from (i : Z) (segments : list Segment) : list (Z * Segment) :=
  match segments with
  | [] => []
  | s :: rest => (i, s) :: numbered_from (i + 1) rest
  end.

(** A segment that has text left after trimming. *)
Definition spoken (p : Z * Segment) : bool :=
  negb (PyStr.is_empty (segment_text p.2)).

(** [c] is the block of the segment [p.2], which stands at position [p.1]. *)
Definition caption_of (c : Caption) (p : Z * Segment) : Prop :=
  cap_index c = p.1 /\
  seconds_to_srt_timestamp (segment_start p.2) = Ok (cap_start c) /\
  seconds_to_srt_timestamp (segment_end p.2) = Ok (cap_end c) /\
  cap_text c = segment_text p.2.

(** The world after the writer has written its three files. *)
Definition after_outputs (transcription : Transcription) (base_name : string)
    (srt_lines : list string) (w : world) : world :=
  let srt_body := PyStr.strip (PyStr.join nl srt_lines) in
  (write_file (srt_path_of base_name)
     (Text (if PyStr.is_empty srt_body then "" else srt_body ++ nl))
     (write_file (json_path_of base_name) (Json (transcription_to_json transcription))
        (write_file (txt_path_of base_name)
           (Text (PyStr.strip (default "" (tr_text transcription)) ++ nl))
           (mkdir OUT_DIR w).2).2).2).2.

(** The world when the loop over the segments raises: the transcript and
    the raw record are written, the captions are not. *)
Definition before_captions (transcription : Transcription) (base_name : string)
    (w : world) : world :=
  (write_file (json_path_of base_name) (Json (transcription_to_json transcription))
     (write_file (txt_path_of base_name)
        (Text (PyStr.strip (default "" (tr_text transcription)) ++ nl))
        (mkdir OUT_DIR w).2).2).2.

(** What the writer leaves in the caption file for the lines [srt_lines]. *)
Definition srt_file_text (srt_lines : list string) : string :=
  let srt_body := PyStr.strip (PyStr.join nl srt_lines) in
  if PyStr.is_empty srt_body then "" else srt_body ++ nl.

(** The events a run adds to the log of [w] on its way to [w']. *)
Definition added_events (w w' : world) (evs : list event) : Prop :=
  w_trace w' = (w_trace w ++ evs)%list.

Definition is_write_to (path : string) (ev : event) : bool :=
  match ev with
  | EvWrite p _ => String.eqb p path
  | _ => false
  end.

Definition is_completion (ev : event) : bool :=
  match ev with
  | EvComplete _ _ => true
  | _ => false
  end.

Definition is_transcription (ev : event) : bool :=
  match ev with
  | EvTranscribe _ _ => true
  | _ => false
  end.

Definition is_any_write (ev : event) : bool :=
  match ev with
  | EvWrite _ _ | EvMkdir _ => true
  | _ => false
  end.

(** The segments of the example: (0.0, 1.5, "Hello"), (1.5, 1.5, "") and
    (3.0, 4.25, "World"), the times as binary64 numbers. *)
Definition f_1_5 : spec_float := S754_finite false 6755399441055744 (-52).
Definition f_3_0 : spec_float := S754_finite false 6755399441055744 (-51).
Definition f_4_25 : spec_float := S754_finite false 4785074604081152 (-50).

Definition example_segments : list Segment :=
  [ {| seg_start := Some (S754_zero false); seg_end := Some f_1_5; seg_text := Some "Hello" |};
    {| seg_start := Some f_1_5; seg_end := Some f_1_5; seg_text := Some "" |};
    {| seg_start := Some f_3_0; seg_end := Some f_4_25; seg_text := Some "World" |} ].

(** A service that answers every request, and a world with one upload. *)
Definition example_transcription : Transcription :=
  {| tr_text := Some " Hello World "; tr_segments := SegList example_segments |}.

(** A record whose segments carry no text, and one without its fields. *)
Definition silent_transcription : Transcription :=
  {| tr_text := Some "";
     tr_segments := SegList
       [ {| seg_start := Some f_1_5; seg_end := Some f_3_0; seg_text := Some "   " |};
         {| seg_start := None; seg_end := None; seg_text := None |} ] |}.

Definition bare_transcription : Transcription :=
  {| tr_text := None; tr_segments := SegNull |}.

Definition example_client : Client :=
  {| transcriptions_create := fun _ _ => Ok example_transcription;
     responses_create := fun _ prompt => Ok ("Summary of: " ++ prompt) |}.

Definition example_world : world :=
  {| w_env_key := Some "sk-test";
     w_files := {[ "uploads/meeting.mp3" := Audio [] ]};
     w_dirs := ∅;
     w_now := "20240101-120000";
     w_openai := fun _ => example_client;
     w_trace := [] |}.

(** *** Reading a timestamp back

    The reader of the round trip: hours of two digits or more, minutes and
    seconds of two digits, milliseconds of three, separated by two colons
    and a comma; its value is the number of milliseconds. *)

(** The text before and after the first [c] of [s]. *)
Fixpoint split_first (c : ascii) (s : string) : option (string * string) :=
  match s with
  | EmptyString => None
  | String a r =>
      if Ascii.eqb a c then Some (EmptyString, r)
      else match split_first c r with
           | Some (l, t) => Some (String a l, t)
           | None => None
           end
  end.

Fixpoint has_char (c : ascii) (s : string) : bool :=
  match s with
  | EmptyString => false
  | String a r => Ascii.eqb a c || has_char c r
  end.

Definition is_digit (c : ascii) : bool :=
  let n := nat_of_ascii c in (48 <=? n)%nat && (n <=? 57)%nat.

Fixpoint all_digits (s : string) : bool :=
  match s with
  | EmptyString => true
  | String a r => is_digit a && all_digits r
  end.

(** The number a non-empty text of decimal digits denotes. *)
Definition decimal_value (s : string) : option Z :=
  if PyStr.is_empty s then None
  else match NilEmpty.uint_of_string s with
       | Some d => Some (Z.of_N (N.of_uint d))
       | None => None
       end.

Definition parse_srt_timestamp (s : string) : option Z :=
  match split_first ":" s with
  | Some (hh, rest) =>
      match split_first ":" rest with
      | Some (mm, rest) =>
          match split_first "," rest with
          | Some (ss, mmm) =>
              if (2 <=? String.length hh)%nat && (String.length mm =? 2)%nat &&
                 (String.length ss =? 2)%nat && (String.length mmm =? 3)%nat
              then
                match decimal_value hh, decimal_value mm, decimal_value ss,
                      decimal_value mmm with
                | Some h, Some m, Some sec, Some ms =>
                    Some (((h * 60 + m) * 60 + sec) * 1000 + ms)
                | _, _, _, _ => None
                end
              else None
          | None => None
          end
      | None => None
      end
  | None => None
  end.

(** The decimal digits of a number that is not negative. *)
Definition digits_of (z : Z) : string :=
  NilEmpty.string_of_uint (N.to_uint (Z.to_N z)).

Abbreviation rne := PyFloat.round_half_even.

(** The value of a finite float that is not negative, in units of
    [2 ^ -1074], the least positive float. *)
Definition units_of (x : spec_float) : Z :=
  match x with
  | S754_finite _ m e => Z.pos m * 2 ^ (e + 1074)
  | _ => 0
  end.

(** Round-to-nearest-even onto the format, of a number [N] of units of
    [2 ^ -1117]: 53 significant bits are kept, and no bit below
    [2 ^ -1074]. *)
Definition rounded_units (N : Z) : Z :=
  let k := Z.max (Z.log2 N + 1 - 53) 43 in
  rne N k * 2 ^ k.

(** [1000.0] is [8796093022208000 * 2 ^ -43]. *)
Definition THOUSAND_MANTISSA : Z := 8796093022208000.

(** The number of milliseconds the formatter works with: [round(seconds * 1000)]. *)
Definition millis_of (seconds : spec_float) : result Z :=
  PyFloat.round (PyFloat.mul seconds (PyFloat.of_int 1000)).

(** A non-negative float: [0.0 <= seconds]. *)
Definition non_negative (seconds : spec_float) : bool :=
  PyFloat.leb (S754_zero false) seconds.

(** The float of the literal [1e306]: 0x1.6c8e5ca239029p+1016. *)
Definition f_1e306 : spec_float := S754_finite false 6413338752028713 964.

(** The reading under which the formatter answers every non-negative
    finite offset with a text that reads back as [round(seconds * 1000)]. *)
Definition formatter_total_on_finite : Prop :=
  forall seconds,
    valid_binary PyFloat.prec PyFloat.emax seconds = true ->
    PyFloat.is_finite seconds = true ->
    non_negative seconds = true ->
    exists ts millis,
      seconds_to_srt_timestamp seconds = Ok ts /\
      millis_of seconds = Ok millis /\
      parse_srt_timestamp ts = Some millis.

(** The base name a run on [path] gives its files in the world [w]. *)
Definition base_name_of (path : string) (w : world) : string :=
  path_stem path ++ "-" ++ w_now w.

(** The events of a run that transcribes [audio] into [t] and writes the
    three artifacts of [t]. *)
Definition artifact_events (audio : content) (t : Transcription) (base : string)
    (srt_lines : list string) : list event :=
  [EvTranscribe TRANSCRIPTION_MODEL audio;
   EvMkdir OUT_DIR;
   EvWrite (txt_path_of base) (Text (PyStr.strip (default "" (tr_text t)) ++ nl));
   EvWrite (json_path_of base) (Json (transcription_to_json t));
   EvWrite (srt_path_of base) (Text (srt_file_text srt_lines))].

(** The reading of the Validating step under which a blank prompt is
    turned down there: the run fails having neither called the
    transcription collaborator nor written anything. *)
Definition blank_prompt_rejected_in_validation : Prop :=
  forall w file_path template,
    PyStr.strip template = "" ->
    is_ok (transcribe_file file_path true template w).1 = false /\
    exists evs,
      added_events w (transcribe_file file_path true template w).2 evs /\
      forallb (fun ev => negb (is_transcription ev || is_any_write ev)) evs = true.

(** *** Notions of the further properties *)

(** The prompt the summarizer builds from a template and a transcript. *)
Definition prompt_of (template transcript : string) : string :=
  if PyStr.contains PLACEHOLDER template
  then PyStr.replace PLACEHOLDER (PyStr.strip transcript) template
  else PyStr.strip template ++ nl ++ nl ++ "Transcript:" ++ nl ++ PyStr.strip transcript.

(** What a run returns for the record [t] under the base name [base]. *)
Definition outputs_of (t : Transcription) (base : string) (summarize : bool)
    (summary : string) : TranscriptionOutputs :=
  {| transcript_text := PyStr.strip (default "" (tr_text t));
     summary_text := summary;
     txt_path := Some (txt_path_of base);
     srt_path := Some (srt_path_of base);
     json_path := Some (json_path_of base);
     summary_path := if summarize then Some (summary_path_of base) else None;
     status_markdown :=
       if summarize then CHECK_MARK ++ " Transcription and summary complete."
       else CHECK_MARK ++ " Transcription complete." |}.

(** The two events of a summary: the call of the completion collaborator
    and the summary file. *)
Definition summary_events (t : Transcription) (base template response : string)
  : list event :=
  [EvComplete SUMMARY_MODEL (prompt_of template (PyStr.strip (default "" (tr_text t))));
   EvWrite (summary_path_of base) (Text (PyStr.strip response ++ nl))].

(** The worlds a run on [path] can end in, by the step it has reached; the
    last two steps belong to summarization. *)
Inductive reached (w : world) (path : string) (summarize : bool) : world -> Prop :=
  | reached_nothing : reached w path summarize w
  | reached_transcription audio :
      reached w path summarize (log (EvTranscribe TRANSCRIPTION_MODEL audio) w)
  | reached_record audio t :
      reached w path summarize
        (before_captions t (base_name_of path w)
           (log (EvTranscribe TRANSCRIPTION_MODEL audio) w))
  | reached_artifacts audio t lines :
      reached w path summarize
        (after_outputs t (base_name_of path w) lines
           (log (EvTranscribe TRANSCRIPTION_MODEL audio) w))
  | reached_completion audio t lines prompt :
      summarize = true ->
      reached w path summarize
        (log (EvComplete SUMMARY_MODEL prompt)
           (after_outputs t (base_name_of path w) lines
              (log (EvTranscribe TRANSCRIPTION_MODEL audio) w)))
  | reached_summary audio t lines prompt text :
      summarize = true ->
      reached w path summarize
        (write_file (summary_path_of (base_name_of path w)) (Text text)
           (log (EvComplete SUMMARY_MODEL prompt)
              (after_outputs t (base_name_of path w) lines
                 (log (EvTranscribe TRANSCRIPTION_MODEL audio) w)))).2.

(** The effects of a complete run, in their order; without summarization
    the last two are absent. *)
Definition run_events (summarize : bool) (audio : content) (t : Transcription)
    (base : string) (srt_lines : list string) (prompt text : string) : list event :=
  (artifact_events audio t base srt_lines ++
   if summarize
   then [EvComplete SUMMARY_MODEL prompt; EvWrite (summary_path_of base) (Text text)]
   else [])%list.

(** A run that gets as far as calling the transcription collaborator: it
    is given a path, the credential is set and the path names a file. *)
Definition startable (file_path : option string) (w : world) : Prop :=
  exists (path key : string) (audio : content),
    file_path = Some path /\ w_env_key w = Some key /\ key <> "" /\
    w_files w !! path = Some audio.

(** The example world with another client. *)
Definition world_with (client : Client) : world :=
  {| w_env_key := w_env_key example_world;
     w_files := w_files example_world;
     w_dirs := w_dirs example_world;
     w_now := w_now example_world;
     w_openai := fun _ => client;
     w_trace := [] |}.

(** A service that is out of reach, and one that transcribes but turns
    the completion request down. *)
Definition unreachable_client : Client :=
  {| transcriptions_create := fun _ _ => Raise (CollaboratorError "connection refused");
     responses_create := fun _ _ => Raise (CollaboratorError "connection refused") |}.

Definition transcribing_client : Client :=
  {| transcriptions_create := fun _ _ => Ok example_transcription;
     responses_create := fun _ _ => Raise (CollaboratorError "rate limit exceeded") |}.

(** Two uploads of the same stem, and a service that tells them apart by
    their content. *)
Definition telling_client : Client :=
  {| transcriptions_create := fun _ audio =>
       Ok {| tr_text := Some match audio with
                             | Audio [] => "first recording"
                             | _ => "second recording"
                             end;
             tr_segments := SegMissing |};
     responses_create := fun _ prompt => Ok prompt |}.

Definition two_uploads_world : world :=
  {| w_env_key := Some "sk-test";
     w_files := {[ "uploads/meeting.mp3" := Audio []; "inbox/meeting.wav" := Audio ["a"%char] ]};
     w_dirs := ∅;
     w_now := "20240101-120000";
     w_openai := fun _ => telling_client;
     w_trace := [] |}.

(** A record with one segment that has no text and starts beyond the
    formatter's range. *)
Definition overlong_transcription : Transcription :=
  {| tr_text := Some "Hi";
     tr_segments := SegList
       [ {| seg_start := Some f_1e306; seg_end := Some f_1e306; seg_text := Some "" |} ] |}.

(** The template the command line hands to the pipeline: the text of
    [--prompt-text] when the option is given, the saved prompt of the
    given name otherwise, and the empty text for a name the library does
    not have. *)
Definition cli_template (lib : dict) (prompt_name : string)
    (prompt_text : option string) : string :=
  match prompt_text with
  | Some text => text
  | None => default "" (lib !! prompt_name)
  end.

(** The example world with a prompt store that is not JSON. *)
Definition broken_store_world : world :=
  (write_file PROMPTS_PATH (Text "{ not json") example_world).2.

(** The two neighbouring floats between which the formatter's range
    ends: [4611686018427387 * 2 ^ 962], about 1.797e305, times [1000.0]
    is still a finite float, and the next float times [1000.0] is not. *)
Definition LAST_FORMATTABLE : spec_float := S754_finite false 4611686018427387 962.
Definition FIRST_OVERFLOWING : spec_float := S754_finite false 4611686018427388 962.

(** An effect of a run that stays in the output directory. *)
Definition stays_in_out (ev : event) : bool :=
  match ev with
  | EvMkdir p => String.eqb p OUT_DIR
  | EvWrite p _ => String.prefix "out/" p
  | _ => true
  end.

(** A segment one of whose times the formatter has no answer for. *)
Definition segment_unformattable (s : Segment) : Prop :=
  formattable (segment_start s) = false \/ formattable (segment_end s) = false.

(** *** The claims as they are worded

    Four claims about the writer and the run are worded for every record;
    the readings follow their words, without a condition on the times of
    the segments. *)

(** C2 as worded: with summarization on and a blank prompt, every run
    whose transcription succeeds raises the error of the empty prompt with
    the three artifacts written. *)
Definition blank_prompt_always_fails_after_artifacts : Prop :=
  forall w path key audio t template,
    w_env_key w = Some key -> key <> "" ->
    w_files w !! path = Some audio ->
    transcriptions_create (w_openai w key) TRANSCRIPTION_MODEL audio = Ok t ->
    PyStr.strip template = "" ->
    exists w' lines,
      let base := base_name_of path w in
      transcribe_file (Some path) true template w =
        (Raise (RuntimeError MSG_EMPTY_PROMPT), w') /\
      added_events w w' (artifact_events audio t base lines) /\
      forallb (fun ev => negb (is_completion ev)) (artifact_events audio t base lines) = true /\
      w_files w' !! txt_path_of base =
        Some (Text (PyStr.strip (default "" (tr_text t)) ++ nl)) /\
      w_files w' !! json_path_of base = Some (Json (transcription_to_json t)) /\
      w_files w' !! srt_path_of base = Some (Text (srt_file_text lines)) /\
      w_files w' !! summary_path_of base = w_files w !! summary_path_of base.

(** C3 as worded: for every record the writer returns and the caption
    file holds one block for each segment that has text, under the
    position of the segment. *)
Definition captions_for_every_record : Prop :=
  forall t base w,
    exists out w' cs,
      write_transcription_outputs t base w = (Ok out, w') /\
      Forall2 caption_of cs
        (List.filter spoken (numbered_from 1 (segments_or_empty t))) /\
      w_files w' !! srt_path_of base = Some (Text (render_captions cs)).

(** C4 as worded: every record without a segment that has text gets a
    caption file with no byte in it. *)
Definition empty_captions_for_every_blank_record : Prop :=
  forall t base w,
    Forall (fun s => segment_text s = "") (segments_or_empty t) ->
    exists out w',
      write_transcription_outputs t base w = (Ok out, w') /\
      w_files w' !! srt_path_of base = Some (Text "").

(** C9 as worded: for every record without a ["text"] key the writer
    returns the empty transcript and leaves a transcript file with a line
    end only, and for every record whose ["segments"] key is missing or
    null it returns and leaves an empty caption file. *)
Definition writer_total_on_missing_fields : Prop :=
  (forall t base w,
      tr_text t = None ->
      exists w',
        write_transcription_outputs t base w =
          (Ok ("", txt_path_of base, srt_path_of base, json_path_of base), w') /\
        w_files w' !! txt_path_of base = Some (Text nl)) /\
  (forall t base w,
      tr_segments t = SegMissing \/ tr_segments t = SegNull ->
      exists out w',
        write_transcription_outputs t base w = (Ok out, w') /\
        w_files w' !! srt_path_of base = Some (Text "")).

(** Records with one segment at 1e306, beyond the formatter's range: one
    whose segment has text, and one without a ["text"] key whose segment
    has none. *)
Definition spoken_overlong_transcription : Transcription :=
  {| tr_text := Some "Hello";
     tr_segments := SegList
       [ {| seg_start := Some f_1e306; seg_end := Some f_1e306; seg_text := Some "Hello" |} ] |}.

Definition textless_overlong_transcription : Transcription :=
  {| tr_text := None;
     tr_segments := SegList
       [ {| seg_start := Some f_1e306; seg_end := Some f_1e306; seg_text := Some "" |} ] |}.

(** A service that answers with a record none of whose segments has
    text, one of them starting at 1e306. *)
Definition overlong_client : Client :=
  {| transcriptions_create := fun _ _ => Ok overlong_transcription;
     responses_create := fun _ prompt => Ok prompt |}.

(** The float nearest to 0.0005, which lies above it:
    [4611686018427388 * 2 ^ -63]. *)
Definition f_0_0005 : spec_float := S754_finite false 4611686018427388 (-63).

(** The millisecond nearest to the exact value of a finite offset that is
    not negative, a tie going to the even one. *)
Definition nearest_millis (seconds : spec_float) : Z :=
  match seconds with
  | S754_finite false m e =>
      if (0 <=? e)%Z then Z.pos m * 1000 * 2 ^ e
      else PyFloat.round_half_even (Z.pos m * 1000) (- e)
  | _ => 0
  end.

(** The reading of C5 under which the text reads back as the millisecond
    nearest to the offset itself. *)
Definition formatter_gives_nearest_millisecond : Prop :=
  forall seconds ts,
    valid_binary PyFloat.prec PyFloat.emax seconds = true ->
    non_negative seconds = true ->
    seconds_to_srt_timestamp seconds = Ok ts ->
    parse_srt_timestamp ts = Some (nearest_millis seconds).

(** * Properties *)

(** ** The definitions at work *)

(** 1.5 and 4.25 seconds, and a hundred hours: the hours are not wrapped. *)
Example timestamp_1_5 : seconds_to_srt_timestamp f_1_5 = Ok "00:00:01,500".
Proof. reflexivity. Qed.

Example timestamp_4_25 : seconds_to_srt_timestamp f_4_25 = Ok "00:00:04,250".
Proof. reflexivity. Qed.

Example timestamp_hundred_hours :
  seconds_to_srt_timestamp (PyFloat.of_int 360000) = Ok "100:00:00,000".
Proof. reflexivity. Qed.

(** Ties go to the even millisecond: the floats of 0.0005, 0.0015 and
    0.0025 give the products 0.5, 1.5 and 2.5. *)
Example timestamp_half_down :
  seconds_to_srt_timestamp (S754_finite false 4611686018427388 (-63)) = Ok "00:00:00,000".
Proof. reflexivity. Qed.

Example timestamp_half_up :
  seconds_to_srt_timestamp (S754_finite false 6917529027641082 (-62)) = Ok "00:00:00,002".
Proof. reflexivity. Qed.

Example timestamp_half_even :
  seconds_to_srt_timestamp (S754_finite false 5764607523034235 (-61)) = Ok "00:00:00,002".
Proof. reflexivity. Qed.

(** 59.9996 seconds round up into the next minute. *)
Example timestamp_carry :
  seconds_to_srt_timestamp (S754_finite false 8444193006324338 (-47)) = Ok "00:01:00,000".
Proof. reflexivity. Qed.

(** A negative offset is formatted with the floor division of Python. *)
Example timestamp_negative :
  seconds_to_srt_timestamp (SFopp (PyFloat.of_int 1)) = Ok "-1:59:59,000".
Proof. reflexivity. Qed.

Example strip_example : PyStr.strip (" " ++ nl ++ " a b " ++ nl) = "a b".
Proof. reflexivity. Qed.

Example replace_example :
  PyStr.replace PLACEHOLDER "T" "a {transcript} b {transcript}" = "a T b T".
Proof. reflexivity. Qed.

Example path_stem_example : path_stem "uploads/meeting.final.mp3" = "meeting.final".
Proof. reflexivity. Qed.

Example parse_example : parse_srt_timestamp "100:00:01,500" = Some 360001500.
Proof. reflexivity. Qed.

(** ** Strings *)

#[local] Arguments String.append : simpl nomatch.

Lemma string_app_nil_r (s : string) : s ++ "" = s.
Proof. induction s as [|c s IH]; simpl; [reflexivity | now rewrite IH]. Qed.

Lemma string_app_assoc (a b c : string) : (a ++ b) ++ c = a ++ b ++ c.
Proof. induction a as [|x a IH]; simpl; [reflexivity | now rewrite IH]. Qed.

Lemma string_app_inv_head (s a b : string) : s ++ a = s ++ b -> a = b.
Proof. induction s as [|c s IH]; simpl; intros H; [exact H | injection H; auto]. Qed.

Lemma lstrip_nonspace c r : PyStr.is_space c = false -> PyStr.lstrip (String c r) = String c r.
Proof. intros H. simpl. now rewrite H. Qed.

Lemma rstrip_idem s : PyStr.rstrip (PyStr.rstrip s) = PyStr.rstrip s.
Proof.
  induction s as [|c s IH]; simpl; [reflexivity|].
  destruct (PyStr.rstrip s) as [|d t] eqn:E.
  - destruct (PyStr.is_space c) eqn:Hc; simpl; [reflexivity | now rewrite Hc].
  - simpl in IH |- *. now rewrite IH.
Qed.

Lemma strip_rstrip s : PyStr.rstrip (PyStr.strip s) = PyStr.strip s.
Proof. apply rstrip_idem. Qed.

(** Text that ends properly stays as it is behind any prefix. *)
Lemma rstrip_app_fixed p t :
  t <> "" -> PyStr.rstrip t = t -> PyStr.rstrip (p ++ t) = p ++ t.
Proof.
  intros Hne Ht. induction p as [|c p IH]; simpl; [exact Ht|].
  rewrite IH. destruct (p ++ t) eqn:E; [|reflexivity].
  destruct p; simpl in E; [contradiction | discriminate].
Qed.

Lemma rstrip_app_nl s : PyStr.rstrip (s ++ nl) = PyStr.rstrip s.
Proof.
  induction s as [|c s IH]; simpl; [reflexivity|].
  now rewrite IH.
Qed.

Lemma is_empty_true s : PyStr.is_empty s = true <-> s = "".
Proof. destruct s; simpl; split; intros H; congruence. Qed.

Lemma is_empty_false s : PyStr.is_empty s = false <-> s <> "".
Proof. destruct s; simpl; split; intros H; congruence. Qed.

(** ** Numbers as text *)

Lemma string_of_uint_head d :
  d <> Decimal.Nil ->
  exists c r, NilEmpty.string_of_uint d = String c r /\ PyStr.is_space c = false.
Proof.
  intros Hd. destruct d; [contradiction | ..]; simpl; eauto.
Qed.

(** The text of a positive integer starts with a digit. *)
Lemma to_str_pos_head z :
  0 < z -> exists c r, PyInt.to_str z = String c r /\ PyStr.is_space c = false.
Proof.
  intros Hz. destruct z as [|p|p]; try lia.
  unfold PyInt.to_str. simpl.
  apply string_of_uint_head, Unsigned.to_uint_nonnil.
Qed.

(** ** Artifact writer *)

Lemma formattable_timestamp x :
  formattable x = true -> exists ts, seconds_to_srt_timestamp x = Ok ts.
Proof.
  unfold formattable, seconds_to_srt_timestamp. intros H.
  destruct (PyFloat.mul x (PyFloat.of_int 1000)) as [s|s| |s m e]; try discriminate;
    simpl; eauto.
Qed.

Lemma timestamp_formattable x ts :
  seconds_to_srt_timestamp x = Ok ts -> formattable x = true.
Proof.
  unfold formattable, seconds_to_srt_timestamp.
  destruct (PyFloat.mul x (PyFloat.of_int 1000)) as [s|s| |s m e]; simpl;
    intros H; try discriminate; reflexivity.
Qed.

Lemma srt_loop_cons idx s rest srt_lines :
  srt_loop idx (s :: rest) srt_lines =
  (start_ts ← seconds_to_srt_timestamp (segment_start s);
   end_ts ← seconds_to_srt_timestamp (segment_end s);
   if PyStr.is_empty (segment_text s)
   then srt_loop (idx + 1) rest srt_lines
   else srt_loop (idx + 1) rest
          (srt_lines ++
           [PyInt.to_str idx; start_ts ++ " --> " ++ end_ts; segment_text s; ""])).
Proof. reflexivity. Qed.

Lemma srt_loop_total segments :
  Forall segment_formattable segments ->
  forall idx srt_lines, exists lines, srt_loop idx segments srt_lines = Ok lines.
Proof.
  induction 1 as [|s rest [Hs He] _ IH]; intros idx acc; [simpl; eauto|].
  destruct (formattable_timestamp _ Hs) as [a Ha].
  destruct (formattable_timestamp _ He) as [b Hb].
  rewrite srt_loop_cons, Ha, Hb. cbn [mbind result_bind].
  destruct (PyStr.is_empty _); apply IH.
Qed.

(** What the loop adds to its list: the four lines of one block for each
    segment that has text, under the position of the segment. *)
Lemma srt_loop_captions segments :
  forall idx srt_lines lines,
    srt_loop idx segments srt_lines = Ok lines ->
    exists cs,
      lines = (srt_lines ++ concat (map caption_lines cs))%list /\
      Forall2 caption_of cs (List.filter spoken (numbered_from idx segments)).
Proof.
  induction segments as [|s rest IH]; intros idx acc lines.
  - simpl. intros [= <-]. exists []. split; [now rewrite app_nil_r | constructor].
  - rewrite srt_loop_cons. cbn [numbered_from List.filter].
    destruct (seconds_to_srt_timestamp (segment_start s)) as [a|] eqn:Ha;
      cbn [mbind result_bind]; [|discriminate].
    destruct (seconds_to_srt_timestamp (segment_end s)) as [b|] eqn:Hb;
      cbn [mbind result_bind]; [|discriminate].
    unfold spoken at 1. cbn [snd].
    destruct (PyStr.is_empty (segment_text s)) eqn:Ht; cbn [negb].
    + apply IH.
    + intros H. destruct (IH _ _ _ H) as (cs & -> & Hcs).
      exists ({| cap_index := idx; cap_start := a; cap_end := b;
                 cap_text := segment_text s |} :: cs).
      split.
      * simpl. now rewrite <- app_assoc.
      * constructor; [|exact Hcs]. repeat split; assumption.
Qed.

Lemma render_captions_cons c cs :
  cs <> [] -> render_captions (c :: cs) = render_caption c ++ nl ++ render_captions cs.
Proof. destruct cs; [contradiction|reflexivity]. Qed.

Lemma join_block l1 l2 l3 rest :
  PyStr.join nl (l1 :: l2 :: l3 :: "" :: rest) =
  l1 ++ nl ++ l2 ++ nl ++ l3 ++ nl ++
  match rest with [] => "" | _ => nl ++ PyStr.join nl rest end.
Proof. destruct rest; reflexivity. Qed.

Lemma caption_lines_join cs :
  PyStr.join nl (concat (map caption_lines cs)) = render_captions cs.
Proof.
  induction cs as [|c cs IH]; [reflexivity|].
  cbn [map concat]. unfold caption_lines at 1. cbn [app].
  rewrite join_block. destruct cs as [|c' cs].
  - unfold render_captions, render_caption. cbn [map concat PyStr.join].
    now rewrite string_app_nil_r.
  - rewrite render_captions_cons by discriminate. rewrite <- IH.
    unfold render_caption. cbn [map concat]. unfold caption_lines at 1. cbn [app].
    now rewrite !string_app_assoc.
Qed.

(** Trimming a rendered caption file takes its last line end away and
    nothing else. *)
Lemma strip_render_captions cs :
  cs <> [] ->
  Forall (fun c => 0 < cap_index c /\ cap_text c <> "" /\
                   PyStr.rstrip (cap_text c) = cap_text c) cs ->
  PyStr.strip (render_captions cs) ++ nl = render_captions cs.
Proof.
  intros Hne Hall.
  assert (Hlast : exists pre t, render_captions cs = pre ++ t ++ nl /\ t <> "" /\
                                PyStr.rstrip t = t).
  { induction cs as [|c cs IH]; [contradiction|].
    inversion Hall as [|? ? (Hi & Ht & Hr) Hrest]; subst.
    destruct cs as [|c' cs].
    - exists (PyInt.to_str (cap_index c) ++ nl ++ caption_times c ++ nl), (cap_text c).
      split; [|split; assumption].
      unfold render_captions, render_caption. cbn [map PyStr.join].
      now rewrite !string_app_assoc.
    - destruct IH as (pre & t & E & Ht' & Hr'); [discriminate | assumption |].
      exists (render_caption c ++ nl ++ pre), t. split; [|split; assumption].
      rewrite render_captions_cons by discriminate. rewrite E.
      now rewrite !string_app_assoc. }
  assert (Hfirst : exists ch r, render_captions cs = String ch r /\
                                PyStr.is_space ch = false).
  { destruct cs as [|c cs]; [contradiction|].
    inversion Hall as [|? ? (Hi & _) _]; subst.
    destruct (to_str_pos_head _ Hi) as (ch & r & E & Hch).
    destruct cs as [|c' cs].
    - unfold render_captions, render_caption. cbn [map PyStr.join]. rewrite E.
      simpl. eauto.
    - rewrite render_captions_cons by discriminate. unfold render_caption.
      rewrite E. simpl. eauto. }
  destruct Hlast as (pre & t & E & Ht & Hr).
  destruct Hfirst as (ch & r & E' & Hch).
  unfold PyStr.strip. rewrite E', (lstrip_nonspace _ _ Hch), <- E', E.
  rewrite <- string_app_assoc, rstrip_app_nl.
  now rewrite (rstrip_app_fixed pre t Ht Hr).
Qed.

Lemma write_outputs_ok t base w lines :
  srt_loop 1 (segments_or_empty t) [] = Ok lines ->
  write_transcription_outputs t base w =
  (Ok (PyStr.strip (default "" (tr_text t)), txt_path_of base, srt_path_of base,
       json_path_of base),
   after_outputs t base lines w).
Proof.
  intros H. unfold write_transcription_outputs, after_outputs, io_bind, io_lift, io_ret.
  cbn [mkdir write_file fst snd]. rewrite H. reflexivity.
Qed.

Lemma write_outputs_raise t base w e :
  srt_loop 1 (segments_or_empty t) [] = Raise e ->
  write_transcription_outputs t base w = (Raise e, before_captions t base w).
Proof.
  intros H. unfold write_transcription_outputs, before_captions, io_bind, io_lift, io_ret.
  cbn [mkdir write_file fst snd]. rewrite H. reflexivity.
Qed.

Lemma after_outputs_files t base lines w :
  w_files (after_outputs t base lines w) =
  <[ srt_path_of base := Text (srt_file_text lines) ]>
    (<[ json_path_of base := Json (transcription_to_json t) ]>
       (<[ txt_path_of base := Text (PyStr.strip (default "" (tr_text t)) ++ nl) ]>
          (w_files w))).
Proof. reflexivity. Qed.

Lemma after_outputs_trace t base lines w :
  w_trace (after_outputs t base lines w) =
  (w_trace w ++
   [EvMkdir OUT_DIR;
    EvWrite (txt_path_of base) (Text (PyStr.strip (default "" (tr_text t)) ++ nl));
    EvWrite (json_path_of base) (Json (transcription_to_json t));
    EvWrite (srt_path_of base) (Text (srt_file_text lines))])%list.
Proof.
  unfold after_outputs. cbn [write_file mkdir log w_trace snd].
  now rewrite <- !app_assoc.
Qed.

Lemma before_captions_trace t base w :
  w_trace (before_captions t base w) =
  (w_trace w ++
   [EvMkdir OUT_DIR;
    EvWrite (txt_path_of base) (Text (PyStr.strip (default "" (tr_text t)) ++ nl));
    EvWrite (json_path_of base) (Json (transcription_to_json t))])%list.
Proof.
  unfold before_captions. cbn [write_file mkdir log w_trace snd].
  now rewrite <- !app_assoc.
Qed.

Lemma out_paths_differ base :
  txt_path_of base <> json_path_of base /\
  txt_path_of base <> srt_path_of base /\
  json_path_of base <> srt_path_of base /\
  summary_path_of base <> txt_path_of base /\
  summary_path_of base <> json_path_of base /\
  summary_path_of base <> srt_path_of base.
Proof.
  unfold txt_path_of, json_path_of, srt_path_of, summary_path_of, out_path.
  repeat split; intros H; do 3 apply string_app_inv_head in H; discriminate.
Qed.

Lemma after_outputs_lookup t base lines w :
  w_files (after_outputs t base lines w) !! txt_path_of base =
    Some (Text (PyStr.strip (default "" (tr_text t)) ++ nl)) /\
  w_files (after_outputs t base lines w) !! json_path_of base =
    Some (Json (transcription_to_json t)) /\
  w_files (after_outputs t base lines w) !! srt_path_of base =
    Some (Text (srt_file_text lines)) /\
  w_files (after_outputs t base lines w) !! summary_path_of base =
    w_files w !! summary_path_of base.
Proof.
  destruct (out_paths_differ base) as (H1 & H2 & H3 & H4 & H5 & H6).
  rewrite after_outputs_files. repeat split.
  - rewrite lookup_insert_ne, lookup_insert_ne, lookup_insert_eq by congruence. reflexivity.
  - rewrite lookup_insert_ne, lookup_insert_eq by congruence. reflexivity.
  - now rewrite lookup_insert_eq.
  - now rewrite !lookup_insert_ne by congruence.
Qed.

Lemma srt_loop_blank segments :
  Forall segment_formattable segments ->
  Forall (fun s => segment_text s = "") segments ->
  forall idx srt_lines, srt_loop idx segments srt_lines = Ok srt_lines.
Proof.
  induction 1 as [|s rest [Hs He] _ IH]; intros Hb idx acc; [reflexivity|].
  inversion Hb as [|? ? Ht Hrest]; subst.
  destruct (formattable_timestamp _ Hs) as [a Ha].
  destruct (formattable_timestamp _ He) as [b Hb'].
  rewrite srt_loop_cons, Ha, Hb', Ht. cbn [mbind result_bind PyStr.is_empty].
  now apply IH.
Qed.

Lemma caption_of_spoken_shape idx segments cs :
  0 < idx ->
  Forall2 caption_of cs (List.filter spoken (numbered_from idx segments)) ->
  Forall (fun c => 0 < cap_index c /\ cap_text c <> "" /\
                   PyStr.rstrip (cap_text c) = cap_text c) cs.
Proof.
  revert idx cs. induction segments as [|s rest IH]; intros idx cs Hidx; cbn [numbered_from List.filter].
  - inversion 1. constructor.
  - destruct (spoken (idx, s)) eqn:Hsp.
    + inversion 1 as [|c p cs' ps (Hi & _ & _ & Ht) Hrest]; subst. constructor.
      * cbn [fst snd] in *. rewrite Hi, Ht. repeat split; [lia| |apply strip_rstrip].
        unfold spoken in Hsp. cbn [snd] in Hsp.
        apply is_empty_false. now destruct (PyStr.is_empty (segment_text s)).
      * apply (IH (idx + 1)); [lia | assumption].
    + apply IH. lia.
Qed.

Lemma example_segments_formattable : Forall segment_formattable example_segments.
Proof. repeat constructor. Qed.

Lemma srt_file_text_captions cs idx segments :
  0 < idx ->
  Forall2 caption_of cs (List.filter spoken (numbered_from idx segments)) ->
  srt_file_text (concat (map caption_lines cs)) = render_captions cs.
Proof.
  intros Hidx Hcs. unfold srt_file_text. rewrite caption_lines_join.
  destruct cs as [|c cs]; [reflexivity|].
  pose proof (caption_of_spoken_shape _ _ _ Hidx Hcs) as Hshape.
  pose proof (strip_render_captions (c :: cs) ltac:(discriminate) Hshape) as E.
  destruct (PyStr.strip (render_captions (c :: cs))) eqn:Es; [|exact E].
  exfalso. inversion Hshape as [|? ? (Hi & _) _]; subst.
  destruct (to_str_pos_head _ Hi) as (ch & r & Ech & _).
  revert E. destruct cs.
  - unfold render_captions, render_caption. cbn [map PyStr.join]. rewrite Ech.
    unfold nl. simpl. intros [= E1 E2]. destruct r; discriminate.
  - rewrite render_captions_cons by discriminate. unfold render_caption.
    rewrite Ech. unfold nl. simpl. intros [= E1 E2]. destruct r; discriminate.
Qed.

(** C3, as the code has it: for a record all of whose segment times are
    in the formatter's range, the caption file holds one block for each
    segment whose trimmed text is not empty, in the order of the segments,
    and the index of a block is the position of its segment in the whole
    list, counted from 1: a segment without text leaves a gap in the
    numbering.  For the segments
    (0.0, 1.5, "Hello"), (1.5, 1.5, "") and (3.0, 4.25, "World") the file
    holds the two blocks 1 and 3, from 00:00:00,000 to 00:00:01,500 and
    from 00:00:03,000 to 00:00:04,250. *)
Theorem caption_index_is_segment_position :
  (forall t base w,
      Forall segment_formattable (segments_or_empty t) ->
      exists out w' cs,
        write_transcription_outputs t base w = (Ok out, w') /\
        Forall2 caption_of cs
          (List.filter spoken (numbered_from 1 (segments_or_empty t))) /\
        w_files w' !! srt_path_of base = Some (Text (render_captions cs))) /\
  (forall text base w,
      exists out w',
        write_transcription_outputs
          {| tr_text := text; tr_segments := SegList example_segments |} base w
        = (Ok out, w') /\
        w_files w' !! srt_path_of base =
        Some (Text (render_captions
          [ {| cap_index := 1; cap_start := "00:00:00,000";
               cap_end := "00:00:01,500"; cap_text := "Hello" |};
            {| cap_index := 3; cap_start := "00:00:03,000";
               cap_end := "00:00:04,250"; cap_text := "World" |} ]))).
Proof.
  split.
  - intros t base w Hf.
    destruct (srt_loop_total _ Hf 1 []) as [lines Hl].
    destruct (srt_loop_captions _ _ _ _ Hl) as (cs & -> & Hcs).
    eexists _, _, cs. split; [apply write_outputs_ok; exact Hl|]. split; [exact Hcs|].
    match goal with |- w_files (after_outputs _ _ ?l _) !! _ = _ =>
      destruct (after_outputs_lookup t base l w) as (_ & _ & -> & _) end.
    cbn [app]. now rewrite (srt_file_text_captions cs 1 (segments_or_empty t)).
  - intros text base w. eexists _, _. split.
    + apply write_outputs_ok. cbn [segments_or_empty tr_segments]. vm_compute. reflexivity.
    + match goal with |- w_files (after_outputs ?t _ ?l _) !! _ = _ =>
        destruct (after_outputs_lookup t base l w) as (_ & _ & -> & _) end.
      do 2 f_equal.
Qed.

(** C4, as the code has it: when the record has no segment, or only
    segments whose text is empty after trimming, and the times of its
    segments are in the formatter's range (they are formatted before the
    text is looked at), the caption file is written with no byte in it. *)
Theorem caption_file_empty_without_text t base w :
  Forall segment_formattable (segments_or_empty t) ->
  Forall (fun s => segment_text s = "") (segments_or_empty t) ->
  exists out w',
    write_transcription_outputs t base w = (Ok out, w') /\
    w_files w' !! srt_path_of base = Some (Text "").
Proof.
  intros Hf Hb. eexists _, _. split.
  - apply write_outputs_ok. now apply srt_loop_blank.
  - now destruct (after_outputs_lookup t base [] w) as (_ & _ & -> & _).
Qed.

Lemma caption_index_is_segment_position_witness :
  Forall segment_formattable (segments_or_empty example_transcription) /\
  exists out w' cs,
    write_transcription_outputs example_transcription "meeting" example_world = (Ok out, w') /\
    Forall2 caption_of cs
      (List.filter spoken (numbered_from 1 (segments_or_empty example_transcription))) /\
    w_files w' !! srt_path_of "meeting" = Some (Text (render_captions cs)).
Proof.
  split.
  - repeat constructor.
  - apply (proj1 caption_index_is_segment_position). repeat constructor.
Defined.

Lemma caption_file_empty_without_text_witness :
  exists out w',
    write_transcription_outputs silent_transcription "meeting" example_world = (Ok out, w') /\
    w_files w' !! srt_path_of "meeting" = Some (Text "").
Proof.
  apply caption_file_empty_without_text; repeat constructor.
Defined.

(** C9, as the code has it: a record without a ["text"] key gets a
    transcript file that holds a line end only, and, when the times of its
    segments are in the formatter's range, the empty string comes back as
    the transcript; a record whose ["segments"] key is missing or null is
    treated as one without segments and gets a caption file with no byte
    in it.  The missing field raises nothing in either case. *)
Theorem writer_defaults_for_missing_fields :
  (forall t base w,
      tr_text t = None ->
      (exists evs,
          added_events w (write_transcription_outputs t base w).2
            (EvMkdir OUT_DIR :: EvWrite (txt_path_of base) (Text nl) :: evs)) /\
      (Forall segment_formattable (segments_or_empty t) ->
       exists w',
         write_transcription_outputs t base w =
           (Ok ("", txt_path_of base, srt_path_of base, json_path_of base), w') /\
         w_files w' !! txt_path_of base = Some (Text nl))) /\
  (forall t base w,
      tr_segments t = SegMissing \/ tr_segments t = SegNull ->
      segments_or_empty t = [] /\
      exists out w',
        write_transcription_outputs t base w = (Ok out, w') /\
        w_files w' !! srt_path_of base = Some (Text "")).
Proof.
  split.
  - intros t base w Ht. split.
    + destruct (srt_loop 1 (segments_or_empty t) []) as [lines|e] eqn:Hl.
      * rewrite (write_outputs_ok _ base w _ Hl). cbn [snd]. unfold added_events.
        rewrite after_outputs_trace, Ht. eexists. reflexivity.
      * rewrite (write_outputs_raise _ base w _ Hl). cbn [snd]. unfold added_events.
        rewrite before_captions_trace, Ht. eexists. reflexivity.
    + intros Hf. destruct (srt_loop_total _ Hf 1 []) as [lines Hl].
      eexists. rewrite (write_outputs_ok _ base w _ Hl), Ht. split; [reflexivity|].
      destruct (after_outputs_lookup t base lines w) as (-> & _). now rewrite Ht.
  - intros t base w Hs.
    assert (E : segments_or_empty t = []).
    { unfold segments_or_empty. now destruct Hs as [-> | ->]. }
    split; [exact E|]. eexists _, _. split.
    + apply write_outputs_ok. rewrite E. reflexivity.
    + now destruct (after_outputs_lookup t base [] w) as (_ & _ & -> & _).
Qed.

Lemma writer_defaults_for_missing_fields_witness :
  (exists w',
      write_transcription_outputs bare_transcription "meeting" example_world =
        (Ok ("", txt_path_of "meeting", srt_path_of "meeting", json_path_of "meeting"), w') /\
      w_files w' !! txt_path_of "meeting" = Some (Text nl)) /\
  (segments_or_empty bare_transcription = [] /\
   exists out w',
     write_transcription_outputs bare_transcription "meeting" example_world = (Ok out, w') /\
     w_files w' !! srt_path_of "meeting" = Some (Text "")).
Proof.
  split.
  - apply (proj1 writer_defaults_for_missing_fields bare_transcription "meeting"
             example_world eq_refl).
    constructor.
  - apply (proj2 writer_defaults_for_missing_fields). right. reflexivity.
Defined.

(** ** Pipeline orchestrator *)

Lemma path_exists_file path c w : w_files w !! path = Some c -> path_exists path w = true.
Proof.
  intros H. unfold path_exists. rewrite H.
  rewrite bool_decide_eq_true_2 by eauto. reflexivity.
Qed.

(** C10: the credential is looked up before the file: with the variable
    unset or empty, a run on any path, existing or not, fails with the
    missing-credential error and leaves the world as it was: nothing is
    written and no collaborator is called. *)
Theorem credential_checked_before_file path summarize template w :
  w_env_key w = None \/ w_env_key w = Some "" ->
  transcribe_file (Some path) summarize template w =
  (Raise (RuntimeError "OPENAI_API_KEY environment variable is not set."), w).
Proof.
  intros H. unfold transcribe_file, io_bind, require_api_key.
  now destruct H as [-> | ->].
Qed.

Lemma credential_checked_before_file_witness :
  transcribe_file (Some "no/such/file.mp3") true "Summarize {transcript}"
    {| w_env_key := None; w_files := ∅; w_dirs := ∅; w_now := "20240101-120000";
       w_openai := fun _ => example_client; w_trace := [] |} =
  (Raise (RuntimeError "OPENAI_API_KEY environment variable is not set."),
   {| w_env_key := None; w_files := ∅; w_dirs := ∅; w_now := "20240101-120000";
      w_openai := fun _ => example_client; w_trace := [] |}).
Proof.
  apply credential_checked_before_file. left. reflexivity.
Defined.

(** A run that gets through validation, transcription and the writer,
    with summarization asked for and a blank prompt. *)
Lemma blank_prompt_run w path key audio t lines template :
  w_env_key w = Some key -> key <> "" ->
  w_files w !! path = Some audio ->
  transcriptions_create (w_openai w key) TRANSCRIPTION_MODEL audio = Ok t ->
  srt_loop 1 (segments_or_empty t) [] = Ok lines ->
  PyStr.strip template = "" ->
  transcribe_file (Some path) true template w =
  (Raise (RuntimeError MSG_EMPTY_PROMPT),
   after_outputs t (base_name_of path w) lines (log (EvTranscribe TRANSCRIPTION_MODEL audio) w)).
Proof.
  intros Hk Hne Hf Ht Hl Hb.
  unfold transcribe_file, io_bind, require_api_key, timestamped_basename,
    transcriptions_create_on.
  rewrite Hk. destruct key as [|c key]; [contradiction|]. cbn [PyStr.is_empty].
  rewrite (path_exists_file _ _ _ Hf). cbn [negb]. rewrite Hf, Ht.
  fold (base_name_of path w).
  rewrite (write_outputs_ok t _ _ lines Hl). rewrite Hb. reflexivity.
Qed.

Lemma artifact_events_added audio t base lines w :
  added_events w
    (after_outputs t base lines (log (EvTranscribe TRANSCRIPTION_MODEL audio) w))
    (artifact_events audio t base lines).
Proof.
  unfold added_events, artifact_events. rewrite after_outputs_trace.
  cbn [log w_trace]. now rewrite <- app_assoc.
Qed.

Lemma write_elsewhere p q c : p <> q -> negb (is_write_to q (EvWrite p c)) = true.
Proof. intros H. cbn [is_write_to]. now apply String.eqb_neq in H as ->. Qed.

Lemma artifact_events_spare_summary audio t base lines :
  forallb (fun ev => negb (is_completion ev)) (artifact_events audio t base lines) = true /\
  forallb (fun ev => negb (is_write_to (summary_path_of base) ev))
    (artifact_events audio t base lines) = true.
Proof.
  destruct (out_paths_differ base) as (_ & _ & _ & H4 & H5 & H6).
  split; [reflexivity|]. unfold artifact_events. cbn [forallb].
  rewrite !write_elsewhere by congruence. reflexivity.
Qed.

(** C2, as the code has it: with summarization on and a prompt that is
    blank after trimming, a run whose transcription succeeds with a record
    all of whose segment times are in the formatter's range fails on the
    prompt check, with the transcript, the raw record and the captions
    written by then; the completion collaborator has not been called and
    no summary file has been written. *)
Theorem blank_prompt_fails_after_artifacts w path key audio t template :
  w_env_key w = Some key -> key <> "" ->
  w_files w !! path = Some audio ->
  transcriptions_create (w_openai w key) TRANSCRIPTION_MODEL audio = Ok t ->
  Forall segment_formattable (segments_or_empty t) ->
  PyStr.strip template = "" ->
  exists w' lines,
    let base := base_name_of path w in
    transcribe_file (Some path) true template w =
      (Raise (RuntimeError MSG_EMPTY_PROMPT), w') /\
    added_events w w' (artifact_events audio t base lines) /\
    forallb (fun ev => negb (is_completion ev)) (artifact_events audio t base lines) = true /\
    w_files w' !! txt_path_of base =
      Some (Text (PyStr.strip (default "" (tr_text t)) ++ nl)) /\
    w_files w' !! json_path_of base = Some (Json (transcription_to_json t)) /\
    w_files w' !! srt_path_of base = Some (Text (srt_file_text lines)) /\
    w_files w' !! summary_path_of base = w_files w !! summary_path_of base.
Proof.
  intros Hk Hne Hf Ht Hseg Hb.
  destruct (srt_loop_total _ Hseg 1 []) as [lines Hl].
  eexists _, lines. cbn zeta.
  split; [exact (blank_prompt_run _ _ _ _ _ _ _ Hk Hne Hf Ht Hl Hb)|].
  split; [apply artifact_events_added|].
  split; [apply artifact_events_spare_summary|].
  apply (after_outputs_lookup t (base_name_of path w) lines
           (log (EvTranscribe TRANSCRIPTION_MODEL audio) w)).
Qed.

Lemma blank_prompt_fails_after_artifacts_witness :
  exists w' lines,
    let base := base_name_of "uploads/meeting.mp3" example_world in
    transcribe_file (Some "uploads/meeting.mp3") true "   " example_world =
      (Raise (RuntimeError MSG_EMPTY_PROMPT), w') /\
    added_events example_world w'
      (artifact_events (Audio []) example_transcription base lines) /\
    forallb (fun ev => negb (is_completion ev))
      (artifact_events (Audio []) example_transcription base lines) = true /\
    w_files w' !! txt_path_of base =
      Some (Text (PyStr.strip (default "" (tr_text example_transcription)) ++ nl)) /\
    w_files w' !! json_path_of base = Some (Json (transcription_to_json example_transcription)) /\
    w_files w' !! srt_path_of base = Some (Text (srt_file_text lines)) /\
    w_files w' !! summary_path_of base = w_files example_world !! summary_path_of base.
Proof.
  apply (blank_prompt_fails_after_artifacts example_world "uploads/meeting.mp3"
           "sk-test" (Audio []) example_transcription "   ").
  - reflexivity.
  - discriminate.
  - reflexivity.
  - reflexivity.
  - repeat constructor.
  - reflexivity.
Defined.

(** Against C1 as it is stated.  The run on the example upload with a
    blank prompt: the transcription collaborator is called and three files
    are written before the run fails, so the blank prompt is not turned
    down in the Validating step. *)
Lemma blank_prompt_reaches_transcription :
  (exists w' lines,
      transcribe_file (Some "uploads/meeting.mp3") true "   " example_world =
        (Raise (RuntimeError MSG_EMPTY_PROMPT), w') /\
      w_trace w' =
        artifact_events (Audio []) example_transcription "meeting-20240101-120000" lines) /\
  ~ blank_prompt_rejected_in_validation.
Proof.
  assert (Hrun :
    transcribe_file (Some "uploads/meeting.mp3") true "   " example_world =
    (Raise (RuntimeError MSG_EMPTY_PROMPT),
     after_outputs example_transcription "meeting-20240101-120000"
       ["1"; "00:00:00,000 --> 00:00:01,500"; "Hello"; "";
        "3"; "00:00:03,000 --> 00:00:04,250"; "World"; ""]
       (log (EvTranscribe TRANSCRIPTION_MODEL (Audio [])) example_world))).
  { apply (blank_prompt_run example_world "uploads/meeting.mp3" "sk-test");
      try reflexivity. discriminate. }
  split.
  - eexists _, _. split; [exact Hrun|].
    pose proof (artifact_events_added (Audio []) example_transcription
                  "meeting-20240101-120000"
                  ["1"; "00:00:00,000 --> 00:00:01,500"; "Hello"; "";
                   "3"; "00:00:03,000 --> 00:00:04,250"; "World"; ""]
                  example_world) as H.
    exact H.
  - intros H.
    destruct (H example_world (Some "uploads/meeting.mp3") "   " eq_refl)
      as (_ & evs & Hevs & Hnone).
    rewrite Hrun in Hevs. cbn [snd] in Hevs.
    pose proof (artifact_events_added (Audio []) example_transcription
                  "meeting-20240101-120000"
                  ["1"; "00:00:00,000 --> 00:00:01,500"; "Hello"; "";
                   "3"; "00:00:03,000 --> 00:00:04,250"; "World"; ""]
                  example_world) as H'.
    unfold added_events in Hevs, H'. rewrite H' in Hevs.
    cbn [example_world w_trace app] in Hevs. subst evs. discriminate Hnone.
Qed.

Lemma added_nothing w : added_events w w [].
Proof. unfold added_events. now rewrite app_nil_r. Qed.

Lemma before_captions_added audio t base w :
  added_events w (before_captions t base (log (EvTranscribe TRANSCRIPTION_MODEL audio) w))
    [EvTranscribe TRANSCRIPTION_MODEL audio;
     EvMkdir OUT_DIR;
     EvWrite (txt_path_of base) (Text (PyStr.strip (default "" (tr_text t)) ++ nl));
     EvWrite (json_path_of base) (Json (transcription_to_json t))].
Proof.
  unfold added_events. rewrite before_captions_trace.
  cbn [log w_trace]. now rewrite <- app_assoc.
Qed.

(** C1, as the code has it: with summarization asked for and a prompt that
    is blank after trimming every run fails, the completion collaborator
    is never called and no summary file is written; but the prompt is
    looked at only after the Validating step, so that a run whose earlier
    steps succeed has called the transcription collaborator and written
    the transcript, the raw record and the captions when it fails. *)
Theorem blank_prompt_fails_without_summary w file_path template :
  PyStr.strip template = "" ->
  exists e w' evs,
    transcribe_file file_path true template w = (Raise e, w') /\
    added_events w w' evs /\
    forallb (fun ev => negb (is_completion ev)) evs = true /\
    (forall path,
        file_path = Some path ->
        forallb (fun ev => negb (is_write_to (summary_path_of (base_name_of path w)) ev))
          evs = true) /\
    (forall path key audio t,
        file_path = Some path ->
        w_env_key w = Some key -> key <> "" ->
        w_files w !! path = Some audio ->
        transcriptions_create (w_openai w key) TRANSCRIPTION_MODEL audio = Ok t ->
        Forall segment_formattable (segments_or_empty t) ->
        e = RuntimeError MSG_EMPTY_PROMPT /\
        exists lines, evs = artifact_events audio t (base_name_of path w) lines).
Proof.
  intros Hb. destruct file_path as [path|].
  2:{ exists (RuntimeError MSG_NO_FILE), w, []. split; [reflexivity|].
      split; [apply added_nothing|]. repeat split; discriminate. }
  unfold transcribe_file, io_bind, require_api_key, timestamped_basename,
    transcriptions_create_on.
  destruct (w_env_key w) as [key|] eqn:Hk.
  2:{ eexists _, w, []. split; [reflexivity|]. split; [apply added_nothing|].
      repeat split; try reflexivity; intros; discriminate. }
  destruct key as [|c key]; cbn [PyStr.is_empty].
  { eexists _, w, []. split; [reflexivity|]. split; [apply added_nothing|].
    repeat split; try reflexivity; intros; congruence. }
  destruct (path_exists path w) eqn:Hex; cbn [negb].
  2:{ eexists _, w, []. split; [reflexivity|]. split; [apply added_nothing|].
      split; [reflexivity|]. split; [reflexivity|].
      intros p k a t [= <-] _ _ Hf. rewrite (path_exists_file _ _ _ Hf) in Hex.
      discriminate. }
  destruct (w_files w !! path) as [audio|] eqn:Hf.
  2:{ eexists _, w, []. split; [reflexivity|]. split; [apply added_nothing|].
      split; [reflexivity|]. split; [reflexivity|].
      intros p k a t [= <-] _ _ Hf'. congruence. }
  destruct (transcriptions_create (w_openai w (String c key)) TRANSCRIPTION_MODEL audio)
    as [t|e] eqn:Ht.
  2:{ eexists e, _, [EvTranscribe TRANSCRIPTION_MODEL audio].
      split; [reflexivity|]. split; [reflexivity|].
      split; [reflexivity|]. split; [reflexivity|].
      intros p k a t [= <-] [= <-] _ Hf' Ht'. congruence. }
  fold (base_name_of path w).
  destruct (srt_loop 1 (segments_or_empty t) []) as [lines|e] eqn:Hl.
  - rewrite (write_outputs_ok t _ _ lines Hl), Hb. cbn [PyStr.is_empty].
    eexists _, _, (artifact_events audio t (base_name_of path w) lines).
    split; [reflexivity|]. split; [apply artifact_events_added|].
    split; [apply artifact_events_spare_summary|].
    split; [intros p [= <-]; apply artifact_events_spare_summary|].
    intros p k a t' [= <-] [= <-] _ Hf' Ht' _.
    assert (a = audio) by congruence. subst a.
    assert (t' = t) by congruence. subst t'.
    split; [reflexivity | now exists lines].
  - rewrite (write_outputs_raise t _ _ e Hl).
    eexists e, _, _. split; [reflexivity|]. split; [apply before_captions_added|].
    split; [reflexivity|]. split.
    + intros p [= <-].
      destruct (out_paths_differ (base_name_of path w)) as (_ & _ & _ & H4 & H5 & _).
      cbn [forallb]. rewrite !write_elsewhere by congruence. reflexivity.
    + intros p k a t' [= <-] [= <-] _ Hf' Ht' Hseg.
      assert (a = audio) by congruence. subst a.
      assert (t' = t) by congruence. subst t'.
      destruct (srt_loop_total _ Hseg 1 []) as [lines' Hl']. congruence.
Qed.

Lemma blank_prompt_fails_without_summary_witness :
  exists e w' evs,
    transcribe_file (Some "uploads/meeting.mp3") true "   " example_world = (Raise e, w') /\
    added_events example_world w' evs /\
    forallb (fun ev => negb (is_completion ev)) evs = true /\
    (forall path,
        Some "uploads/meeting.mp3" = Some path ->
        forallb (fun ev =>
                   negb (is_write_to (summary_path_of (base_name_of path example_world)) ev))
          evs = true) /\
    (forall path key audio t,
        Some "uploads/meeting.mp3" = Some path ->
        w_env_key example_world = Some key -> key <> "" ->
        w_files example_world !! path = Some audio ->
        transcriptions_create (w_openai example_world key) TRANSCRIPTION_MODEL audio = Ok t ->
        Forall segment_formattable (segments_or_empty t) ->
        e = RuntimeError MSG_EMPTY_PROMPT /\
        exists lines, evs = artifact_events audio t (base_name_of path example_world) lines).
Proof.
  apply (blank_prompt_fails_without_summary example_world (Some "uploads/meeting.mp3") "   ").
  reflexivity.
Defined.

(** ** Summarizer *)

Lemma prefix_app tok rest : String.prefix tok (tok ++ rest) = true.
Proof.
  induction tok as [|c tok IH]; simpl; [now destruct rest|].
  destruct (ascii_dec c c); [exact IH | contradiction].
Qed.

Lemma prefix_nil s : String.prefix "" s = true.
Proof. now destruct s. Qed.

Lemma prefix_app_r tok s rest :
  String.prefix tok s = true -> String.prefix tok (s ++ rest) = true.
Proof.
  revert s. induction tok as [|c tok IH]; intros s; [intros _; apply prefix_nil|].
  destruct s as [|d s]; simpl; [discriminate|].
  destruct (ascii_dec c d); [apply IH | discriminate].
Qed.

Lemma replace_from_skip u tok new rest :
  PyStr.replace_from (String.length u) tok new (u ++ rest) =
  PyStr.replace_from 0 tok new rest.
Proof.
  induction u as [|c u IH]; simpl; [now destruct rest | exact IH].
Qed.

(** The placeholder starts with the one brace it has, so that no
    occurrence of it can start before another one and run into it. *)
Lemma prefix_cons a s1 b s2 :
  String.prefix (String a s1) (String b s2) = Ascii.eqb a b && String.prefix s1 s2.
Proof.
  simpl. destruct (ascii_dec a b) as [->|n].
  - now rewrite Ascii.eqb_refl.
  - apply Ascii.eqb_neq in n. now rewrite n.
Qed.

Ltac prefix_step H :=
  cbn [String.append] in H; rewrite prefix_cons in H;
  match type of H with
  | (Ascii.eqb ?x ?y && _) = true =>
      let e := fresh "e" in
      destruct (Ascii.eqb_spec x y) as [e|];
      [first [discriminate e | subst]; cbn [andb] in H | discriminate H]
  end.

Lemma placeholder_no_straddle a p rest :
  String.prefix PLACEHOLDER (String a p ++ PLACEHOLDER ++ rest) = true ->
  String.prefix PLACEHOLDER (String a p) = true.
Proof.
  unfold PLACEHOLDER. intros H. prefix_step H.
  do 11 (destruct p as [|? p]; [repeat prefix_step H | prefix_step H]).
  rewrite !prefix_cons, !Ascii.eqb_refl. cbn [andb]. apply prefix_nil.
Qed.

Lemma contains_cons tok c s :
  PyStr.contains tok (String c s) = String.prefix tok (String c s) || PyStr.contains tok s.
Proof. reflexivity. Qed.

Lemma replace_from_cons tok new c r :
  PyStr.replace_from 0 tok new (String c r) =
  if String.prefix tok (String c r)
  then new ++ PyStr.replace_from (Nat.pred (String.length tok)) tok new r
  else String c (PyStr.replace_from 0 tok new r).
Proof. reflexivity. Qed.

Lemma replace_absent new s :
  PyStr.contains PLACEHOLDER s = false -> PyStr.replace PLACEHOLDER new s = s.
Proof.
  unfold PyStr.replace. induction s as [|c s IH]; [reflexivity|].
  rewrite contains_cons. intros [Hp Hc]%orb_false_iff.
  rewrite replace_from_cons, Hp, IH by exact Hc. reflexivity.
Qed.

(** The first occurrence in a text that starts with a piece free of the
    placeholder is the one behind the piece. *)
Lemma replace_piece new p rest :
  PyStr.contains PLACEHOLDER p = false ->
  PyStr.replace PLACEHOLDER new (p ++ PLACEHOLDER ++ rest) =
  p ++ new ++ PyStr.replace PLACEHOLDER new rest.
Proof.
  unfold PyStr.replace. induction p as [|c p IH]; intros Hc.
  - change ("" ++ PLACEHOLDER ++ rest) with (String "{" ("transcript}" ++ rest)).
    rewrite replace_from_cons.
    change (String "{" ("transcript}" ++ rest)) with (PLACEHOLDER ++ rest).
    rewrite prefix_app.
    change (Nat.pred (String.length PLACEHOLDER)) with (String.length "transcript}").
    now rewrite replace_from_skip.
  - rewrite contains_cons in Hc. apply orb_false_iff in Hc as [Hp Hc].
    cbn [String.append]. rewrite replace_from_cons.
    destruct (String.prefix PLACEHOLDER (String c (p ++ PLACEHOLDER ++ rest))) eqn:E.
    + apply (placeholder_no_straddle c p rest) in E. congruence.
    + f_equal. now apply IH.
Qed.

Lemma contains_piece p rest : PyStr.contains PLACEHOLDER (p ++ PLACEHOLDER ++ rest) = true.
Proof.
  induction p as [|c p IH].
  - change ("" ++ PLACEHOLDER ++ rest) with (String "{" ("transcript}" ++ rest)).
    rewrite contains_cons.
    change (String "{" ("transcript}" ++ rest)) with (PLACEHOLDER ++ rest).
    now rewrite prefix_app.
  - cbn [String.append]. rewrite contains_cons, IH. apply orb_true_r.
Qed.

Lemma replace_join new pieces :
  Forall (fun p => PyStr.contains PLACEHOLDER p = false) pieces ->
  PyStr.replace PLACEHOLDER new (PyStr.join PLACEHOLDER pieces) = PyStr.join new pieces.
Proof.
  induction 1 as [|p rest Hp Hrest IH]; [reflexivity|].
  destruct rest as [|q rest].
  - now apply replace_absent.
  - change (PyStr.join PLACEHOLDER (p :: q :: rest))
      with (p ++ PLACEHOLDER ++ PyStr.join PLACEHOLDER (q :: rest)).
    rewrite (replace_piece new p _ Hp), IH. reflexivity.
Qed.

Lemma contains_join pieces :
  (2 <= length pieces)%nat -> PyStr.contains PLACEHOLDER (PyStr.join PLACEHOLDER pieces) = true.
Proof.
  destruct pieces as [|p [|q rest]]; simpl; try lia. intros _.
  apply contains_piece.
Qed.

Lemma summarize_transcript_eq client template transcript w :
  summarize_transcript client (Some template) transcript w =
  let prompt :=
    if PyStr.contains PLACEHOLDER template
    then PyStr.replace PLACEHOLDER (PyStr.strip transcript) template
    else PyStr.strip template ++ nl ++ nl ++ "Transcript:" ++ nl ++ PyStr.strip transcript in
  (r ← responses_create client SUMMARY_MODEL prompt; Ok (PyStr.strip r),
   log (EvComplete SUMMARY_MODEL prompt) w).
Proof.
  unfold summarize_transcript, io_bind, io_ret. cbn [default from_option id].
  cbv zeta. destruct (responses_create client SUMMARY_MODEL _); reflexivity.
Qed.

Lemma prefix_split tok s :
  String.prefix tok s = true -> exists rest, s = tok ++ rest.
Proof.
  revert s. induction tok as [|c tok IH]; intros s H; [now exists s|].
  destruct s as [|d s]; [discriminate|].
  rewrite prefix_cons in H. apply andb_true_iff in H as [Hc Hp].
  apply Ascii.eqb_eq in Hc as ->. destruct (IH _ Hp) as [rest ->]. now exists rest.
Qed.

Lemma first_occurrence s :
  PyStr.contains PLACEHOLDER s = true ->
  exists p rest, s = p ++ PLACEHOLDER ++ rest /\ PyStr.contains PLACEHOLDER p = false.
Proof.
  induction s as [|c s IH]; [discriminate|].
  rewrite contains_cons. destruct (String.prefix PLACEHOLDER (String c s)) eqn:Hp.
  - intros _. destruct (prefix_split _ _ Hp) as [rest E].
    exists "", rest. split; [exact E | reflexivity].
  - cbn [orb]. intros H. destruct (IH H) as (p & rest & -> & Hfree).
    exists (String c p), rest. split; [reflexivity|].
    rewrite contains_cons, Hfree, orb_false_r.
    destruct (String.prefix PLACEHOLDER (String c p)) eqn:Hp'; [|reflexivity].
    apply (prefix_app_r _ _ (PLACEHOLDER ++ rest)) in Hp'.
    cbn [String.append] in Hp'. congruence.
Qed.

Lemma length_app_string a b : String.length (a ++ b) = (String.length a + String.length b)%nat.
Proof. induction a as [|c a IH]; simpl; [reflexivity | now rewrite IH]. Qed.

(** Every template is its pieces between its placeholders. *)
Lemma template_pieces template :
  exists pieces,
    pieces <> [] /\
    Forall (fun p => PyStr.contains PLACEHOLDER p = false) pieces /\
    template = PyStr.join PLACEHOLDER pieces.
Proof.
  remember (String.length template) as n eqn:Hn.
  revert template Hn. induction n as [n IH] using lt_wf_ind. intros template Hn.
  destruct (PyStr.contains PLACEHOLDER template) eqn:Hc.
  - destruct (first_occurrence _ Hc) as (p & rest & -> & Hfree).
    destruct (IH (String.length rest)) with (template := rest)
      as (pieces & Hne & Hall & ->); [|reflexivity|].
    { subst n. rewrite !length_app_string. simpl. lia. }
    exists (p :: pieces). split; [discriminate|]. split; [now constructor|].
    destruct pieces; [contradiction | reflexivity].
  - exists [template]. split; [discriminate|]. split; [|reflexivity].
    constructor; [exact Hc | constructor].
Qed.

(** C7: the prompt that goes to the completion collaborator.  A template
    that contains the placeholder has each occurrence of it replaced by the
    trimmed transcript: cut at its placeholders into pieces, it is sent as
    the pieces with the trimmed transcript between them.  A template
    without the placeholder is sent trimmed, followed by the separator
    label and the trimmed transcript, both in full.  Every template is cut
    into such pieces, two or more when it contains the placeholder. *)
Theorem prompt_built_from_template client template transcript w :
  exists prompt,
    summarize_transcript client (Some template) transcript w =
      (r ← responses_create client SUMMARY_MODEL prompt; Ok (PyStr.strip r),
       log (EvComplete SUMMARY_MODEL prompt) w) /\
    (forall pieces,
        (2 <= length pieces)%nat ->
        Forall (fun p => PyStr.contains PLACEHOLDER p = false) pieces ->
        template = PyStr.join PLACEHOLDER pieces ->
        prompt = PyStr.join (PyStr.strip transcript) pieces) /\
    (PyStr.contains PLACEHOLDER template = false ->
     prompt = PyStr.strip template ++ nl ++ nl ++ "Transcript:" ++ nl ++
              PyStr.strip transcript) /\
    (exists pieces,
        Forall (fun p => PyStr.contains PLACEHOLDER p = false) pieces /\
        template = PyStr.join PLACEHOLDER pieces /\
        (PyStr.contains PLACEHOLDER template = true -> (2 <= length pieces)%nat)).
Proof.
  rewrite summarize_transcript_eq. cbv zeta.
  assert (Hpieces : exists pieces,
    Forall (fun p => PyStr.contains PLACEHOLDER p = false) pieces /\
    template = PyStr.join PLACEHOLDER pieces /\
    (PyStr.contains PLACEHOLDER template = true -> (2 <= length pieces)%nat)).
  { destruct (template_pieces template) as (pieces & Hne & Hall & E).
    exists pieces. split; [exact Hall|]. split; [exact E|].
    intros Hc. destruct pieces as [|p [|q rest]]; [contradiction | | simpl; lia].
    inversion Hall; subst. simpl in Hc. congruence. }
  destruct (PyStr.contains PLACEHOLDER template) eqn:Hc.
  - eexists. split; [reflexivity|]. split; [|split; [discriminate | exact Hpieces]].
    intros pieces _ Hp ->. now apply replace_join.
  - eexists. split; [reflexivity|]. split; [|split; [reflexivity | exact Hpieces]].
    intros pieces Hlen _ ->. rewrite contains_join in Hc by exact Hlen. discriminate.
Qed.

Lemma prompt_built_from_template_witness :
  summarize_transcript example_client (Some "Summarize: {transcript} Thanks.")
    "  Hello World  " example_world =
  (Ok "Summary of: Summarize: Hello World Thanks.",
   log (EvComplete SUMMARY_MODEL "Summarize: Hello World Thanks.") example_world).
Proof.
  destruct (prompt_built_from_template example_client "Summarize: {transcript} Thanks."
              "  Hello World  " example_world) as (prompt & Hrun & Hpieces & _).
  rewrite Hrun.
  rewrite (Hpieces ["Summarize: "; " Thanks."]); [reflexivity | simpl; lia | | reflexivity].
  repeat constructor.
Defined.

(** ** Prompt library *)

Section PromptLibraryFacts.

Variable str_of_json : json -> string.

Lemma get_set_eq key value items : get_item key (set_item key value items) = Some value.
Proof.
  induction items as [|[k v] rest IH]; simpl.
  - now rewrite String.eqb_refl.
  - destruct (String.eqb k key) eqn:E; simpl; now rewrite E.
Qed.

Lemma get_set_ne key other value items :
  key <> other -> get_item other (set_item key value items) = get_item other items.
Proof.
  intros Hne. induction items as [|[k v] rest IH]; simpl.
  - apply String.eqb_neq in Hne. now rewrite Hne.
  - destruct (String.eqb k key) eqn:E; simpl; [|now rewrite IH].
    apply String.eqb_eq in E. subst k.
    apply String.eqb_neq in Hne. now rewrite Hne.
Qed.

Lemma set_set_eq key v1 v2 items :
  set_item key v2 (set_item key v1 items) = set_item key v2 items.
Proof.
  induction items as [|[k v] rest IH]; simpl.
  - now rewrite String.eqb_refl.
  - destruct (String.eqb k key) eqn:E; simpl; rewrite E; [reflexivity | now rewrite IH].
Qed.

(** A new key goes to the end. *)
Lemma set_item_fresh key value (items : list (string * string)) :
  key ∉ items.*1 -> set_item key value items = (items ++ [(key, value)])%list.
Proof.
  induction items as [|[k v] rest IH]; csimpl; [reflexivity|].
  rewrite not_elem_of_cons. intros [Hk Hrest].
  destruct (String.eqb k key) eqn:E.
  - apply String.eqb_eq in E. congruence.
  - now rewrite IH.
Qed.

(** A key that is there is set at its place. *)
Lemma set_item_keys key value (items : list (string * string)) :
  key ∈ items.*1 -> (set_item key value items).*1 = items.*1.
Proof.
  induction items as [|[k v] rest IH]; csimpl; [now rewrite elem_of_nil|].
  destruct (String.eqb k key) eqn:E; [reflexivity|].
  rewrite elem_of_cons. intros [->|Hin]; [now rewrite String.eqb_refl in E|].
  csimpl. now rewrite IH.
Qed.

Lemma set_item_wf key value (items : list (string * string)) :
  NoDup items.*1 -> NoDup (set_item key value items).*1.
Proof.
  intros Hnd. destruct (decide (key ∈ items.*1)) as [Hin|Hout].
  - now rewrite set_item_keys.
  - rewrite set_item_fresh, fmap_app by exact Hout.
    apply NoDup_app. split; [exact Hnd|]. split; [|apply NoDup_singleton].
    intros k Hk. simpl. rewrite list_elem_of_singleton. now intros ->.
Qed.

Lemma dict_lookup_insert_eq (d : dict) key value : (<[ key := value ]> d) !! key = Some value.
Proof. apply get_set_eq. Qed.

Lemma dict_lookup_insert_ne (d : dict) key other value :
  key <> other -> (<[ key := value ]> d) !! other = d !! other.
Proof. apply get_set_ne. Qed.

Lemma dict_insert_insert_eq (d : dict) key v1 v2 :
  <[ key := v2 ]> (<[ key := v1 ]> d) = <[ key := v2 ]> d.
Proof. unfold insert, dict_insert. simpl. now rewrite set_set_eq. Qed.

Lemma dict_insert_wf (d : dict) key value : dict_wf d -> dict_wf (<[ key := value ]> d).
Proof. apply set_item_wf. Qed.

Lemma default_prompts_wf : dict_wf DEFAULT_PROMPTS.
Proof. apply (bool_decide_unpack _). vm_compute. exact I. Qed.

(** What the comprehension builds, from any start. *)
Lemma foldl_set_wf (items : list (string * json)) (d : dict) :
  dict_wf d ->
  dict_wf (foldl (fun d kv => <[ kv.1 := py_str str_of_json kv.2 ]> d) d items).
Proof.
  revert d. induction items as [|kv items IH]; intros d Hd; simpl; [exact Hd|].
  apply IH. now apply dict_insert_wf.
Qed.

Lemma prompts_of_items_wf items : dict_wf (prompts_of_items str_of_json items).
Proof. apply foldl_set_wf. apply NoDup_nil_2. Qed.

Lemma foldl_set_fresh (l acc : list (string * string)) :
  NoDup ((acc ++ l)%list).*1 ->
  foldl (fun d kv => <[ kv.1 := py_str str_of_json (JStr kv.2) ]> d) (Dict acc) l =
  Dict (acc ++ l)%list.
Proof.
  revert acc. induction l as [|[k v] l IH]; intros acc Hnd; simpl.
  - now rewrite app_nil_r.
  - unfold insert at 2, dict_insert. simpl.
    rewrite set_item_fresh.
    + rewrite IH, <- app_assoc; [reflexivity|]. now rewrite <- app_assoc.
    + rewrite fmap_app in Hnd. apply NoDup_app in Hnd as (_ & Hdisj & _).
      intros Hin. apply (Hdisj k Hin). simpl. apply elem_of_cons. now left.
Qed.

(** What [json.load] and the comprehension read is what [json.dumps]
    wrote, in the same order. *)
Lemma prompts_roundtrip (prompts : dict) :
  dict_wf prompts ->
  match prompts_to_json prompts with
  | JObj items => prompts_of_items str_of_json items = prompts
  | _ => False
  end.
Proof.
  intros Hwf. unfold prompts_to_json, prompts_of_items.
  rewrite foldl_fmap. cbn [fst snd].
  destruct prompts as [items]. apply (foldl_set_fresh items []). exact Hwf.
Qed.

Lemma read_written_prompts prompts w :
  dict_wf prompts ->
  w_files w !! PROMPTS_PATH = Some (Json (prompts_to_json prompts)) ->
  ensure_prompt_library str_of_json w = (Ok prompts, w).
Proof.
  intros Hwf Hf. unfold ensure_prompt_library, io_bind.
  rewrite (path_exists_file _ _ _ Hf). cbn [negb].
  unfold read_prompts. rewrite Hf.
  pose proof (prompts_roundtrip prompts Hwf) as H.
  destruct (prompts_to_json prompts); try contradiction. now rewrite H.
Qed.

(** The first access creates the store with the default prompts. *)
Lemma ensure_creates_defaults w :
  path_exists PROMPTS_PATH w = false ->
  ensure_prompt_library str_of_json w =
  (Ok DEFAULT_PROMPTS,
   (write_file PROMPTS_PATH (Json (prompts_to_json DEFAULT_PROMPTS)) w).2).
Proof.
  intros Hex. unfold ensure_prompt_library, io_bind. rewrite Hex. cbn [negb write_file].
  unfold read_prompts. cbn [w_files log]. rewrite lookup_insert_eq.
  pose proof (prompts_roundtrip DEFAULT_PROMPTS default_prompts_wf) as H.
  destruct (prompts_to_json DEFAULT_PROMPTS); try contradiction. now rewrite H.
Qed.

(** A library that was read has each key once. *)
Lemma ensure_ok_wf w lib w1 :
  ensure_prompt_library str_of_json w = (Ok lib, w1) -> dict_wf lib.
Proof.
  intros He. destruct (path_exists PROMPTS_PATH w) eqn:Hex.
  - unfold ensure_prompt_library, io_bind, read_prompts in He. rewrite Hex in He.
    cbn [negb] in He.
    destruct (w_files w !! PROMPTS_PATH) as [[s|[]|b]|]; try discriminate.
    pose proof (f_equal fst He) as H1. cbn [fst] in H1.
    assert (prompts_of_items str_of_json fields = lib) as <- by congruence.
    apply prompts_of_items_wf.
  - rewrite (ensure_creates_defaults w Hex) in He.
    pose proof (f_equal fst He) as H1. cbn [fst] in H1.
    assert (DEFAULT_PROMPTS = lib) as <- by congruence.
    apply default_prompts_wf.
Qed.

(** C8: saving a prompt puts this one pair into the library: the saved
    name then loads as the saved text, and the library read again after the
    save is the library of before with this one entry set, every other
    entry as it was. *)
Theorem save_prompt_upserts_one_entry w lib w1 prompt_name prompt_text :
  ensure_prompt_library str_of_json w = (Ok lib, w1) ->
  exists w2,
    save_prompt str_of_json prompt_name prompt_text w = (Ok tt, w2) /\
    load_prompt_text str_of_json prompt_name w2 = (Ok prompt_text, w2) /\
    ensure_prompt_library str_of_json w2 = (Ok (<[ prompt_name := prompt_text ]> lib), w2) /\
    (forall other,
        other <> prompt_name ->
        (<[ prompt_name := prompt_text ]> lib) !! other = lib !! other /\
        load_prompt_text str_of_json other w2 = (Ok (default "" (lib !! other)), w2)).
Proof.
  intros He.
  set (w2 := (write_file PROMPTS_PATH
                (Json (prompts_to_json (<[ prompt_name := prompt_text ]> lib))) w1).2).
  assert (Hread : ensure_prompt_library str_of_json w2 =
                  (Ok (<[ prompt_name := prompt_text ]> lib), w2)).
  { apply read_written_prompts.
    - apply dict_insert_wf. exact (ensure_ok_wf w lib w1 He).
    - subst w2. cbn [write_file snd w_files log]. apply lookup_insert_eq. }
  exists w2. split; [|split; [|split]].
  - unfold save_prompt, io_bind. rewrite He. reflexivity.
  - unfold load_prompt_text, io_bind, io_ret. rewrite Hread.
    now rewrite dict_lookup_insert_eq.
  - exact Hread.
  - intros other Hne. split; [apply dict_lookup_insert_ne; congruence|].
    unfold load_prompt_text, io_bind, io_ret. rewrite Hread.
    now rewrite dict_lookup_insert_ne by congruence.
Qed.

End PromptLibraryFacts.

Lemma save_prompt_upserts_one_entry_witness :
  exists w2,
    save_prompt (fun _ => "") "General Summary" "List the decisions. {transcript}"
      example_world = (Ok tt, w2) /\
    load_prompt_text (fun _ => "") "General Summary" w2 =
      (Ok "List the decisions. {transcript}", w2) /\
    ensure_prompt_library (fun _ => "") w2 =
      (Ok (<[ "General Summary" := "List the decisions. {transcript}" ]> DEFAULT_PROMPTS), w2) /\
    (forall other,
        other <> "General Summary" ->
        (<[ "General Summary" := "List the decisions. {transcript}" ]> DEFAULT_PROMPTS) !! other
          = DEFAULT_PROMPTS !! other /\
        load_prompt_text (fun _ => "") other w2 =
          (Ok (default "" (DEFAULT_PROMPTS !! other)), w2)).
Proof.
  apply (save_prompt_upserts_one_entry (fun _ => "") example_world DEFAULT_PROMPTS
           (write_file PROMPTS_PATH (Json (prompts_to_json DEFAULT_PROMPTS)) example_world).2).
  apply ensure_creates_defaults. reflexivity.
Defined.

(** ** Timestamp formatter *)

Lemma zeros_length k : String.length (PyInt.zeros k) = k.
Proof. induction k as [|k IH]; simpl; [reflexivity | now rewrite IH]. Qed.

Lemma uint_of_string_zeros k s :
  NilEmpty.uint_of_string (PyInt.zeros k ++ s) =
  option_map (Nat.iter k Decimal.D0) (NilEmpty.uint_of_string s).
Proof.
  induction k as [|k IH]; simpl.
  - now destruct (NilEmpty.uint_of_string s).
  - rewrite IH. now destruct (NilEmpty.uint_of_string s).
Qed.

Lemma of_uint_iter_D0 k d : N.of_uint (Nat.iter k Decimal.D0 d) = N.of_uint d.
Proof. induction k as [|k IH]; simpl; [reflexivity | exact IH]. Qed.

Lemma string_of_uint_nonempty d :
  d <> Decimal.Nil -> PyStr.is_empty (NilEmpty.string_of_uint d) = false.
Proof. destruct d; [contradiction | ..]; reflexivity. Qed.

Lemma to_uint_nonnil n : N.to_uint n <> Decimal.Nil.
Proof. destruct n; [discriminate | apply Unsigned.to_uint_nonnil]. Qed.

Lemma format_nonneg width z :
  0 <= z ->
  PyInt.format_zero_padded width z =
  PyInt.zeros (width - String.length (digits_of z)) ++ digits_of z.
Proof.
  intros Hz. unfold PyInt.format_zero_padded, digits_of.
  destruct (Z.ltb_spec z 0); [lia|].
  replace (Z.abs_N z) with (Z.to_N z) by (destruct z; simpl; lia || reflexivity).
  cbn [String.length String.append]. now rewrite Nat.sub_0_r.
Qed.

Lemma decimal_value_padded k z :
  0 <= z -> decimal_value (PyInt.zeros k ++ digits_of z) = Some z.
Proof.
  intros Hz. unfold decimal_value, digits_of.
  assert (Hne : PyStr.is_empty
                  (PyInt.zeros k ++ NilEmpty.string_of_uint (N.to_uint (Z.to_N z))) = false).
  { destruct k; simpl; [|reflexivity]. apply string_of_uint_nonempty, to_uint_nonnil. }
  rewrite Hne, uint_of_string_zeros, NilEmpty.usu. cbn [option_map].
  rewrite of_uint_iter_D0, DecimalN.Unsigned.of_to. f_equal. lia.
Qed.

Lemma string_of_uint_digits d : all_digits (NilEmpty.string_of_uint d) = true.
Proof. induction d; simpl; auto. Qed.

Lemma all_digits_app a b : all_digits (a ++ b) = all_digits a && all_digits b.
Proof. induction a as [|c a IH]; simpl; [reflexivity | now rewrite IH, andb_assoc]. Qed.

Lemma zeros_digits k : all_digits (PyInt.zeros k) = true.
Proof. induction k; simpl; auto. Qed.

Lemma format_digits width z : 0 <= z -> all_digits (PyInt.format_zero_padded width z) = true.
Proof.
  intros Hz. rewrite format_nonneg by exact Hz.
  rewrite all_digits_app, zeros_digits. apply string_of_uint_digits.
Qed.

Lemma digits_have_no c s :
  is_digit c = false -> all_digits s = true -> has_char c s = false.
Proof.
  intros Hc. induction s as [|a s IH]; simpl; [reflexivity|].
  intros [Ha Hs]%andb_true_iff. rewrite (IH Hs), orb_false_r.
  destruct (Ascii.eqb_spec a c) as [->|]; [congruence | reflexivity].
Qed.

Lemma split_first_app c a b :
  has_char c a = false -> split_first c (a ++ String c b) = Some (a, b).
Proof.
  induction a as [|x a IH]; simpl.
  - intros _. now rewrite Ascii.eqb_refl.
  - intros [Hx Ha]%orb_false_iff. now rewrite Hx, (IH Ha).
Qed.

Lemma format_length_ge width z :
  0 <= z -> (width <= String.length (PyInt.format_zero_padded width z))%nat.
Proof.
  intros Hz. rewrite format_nonneg, length_app_string, zeros_length by exact Hz. lia.
Qed.

(** Below [10 ^ width] the padded text has exactly [width] characters; the
    two widths of the formatter are checked number by number. *)
Lemma format_length_2 z :
  0 <= z < 100 -> String.length (PyInt.format_zero_padded 2 z) = 2%nat.
Proof.
  intros Hz.
  assert (H : forallb (fun n => (String.length (PyInt.format_zero_padded 2 (Z.of_nat n)) =? 2)%nat)
                (seq 0 100) = true) by (vm_compute; reflexivity).
  rewrite forallb_forall in H. specialize (H (Z.to_nat z)).
  rewrite Z2Nat.id in H by lia. apply Nat.eqb_eq, H, in_seq. lia.
Qed.

Lemma format_length_3 z :
  0 <= z < 1000 -> String.length (PyInt.format_zero_padded 3 z) = 3%nat.
Proof.
  intros Hz.
  assert (H : forallb (fun n => (String.length (PyInt.format_zero_padded 3 (Z.of_nat n)) =? 3)%nat)
                (seq 0 1000) = true) by (vm_compute; reflexivity).
  rewrite forallb_forall in H. specialize (H (Z.to_nat z)).
  rewrite Z2Nat.id in H by lia. apply Nat.eqb_eq, H, in_seq. lia.
Qed.

Lemma decimal_value_format width z :
  0 <= z -> decimal_value (PyInt.format_zero_padded width z) = Some z.
Proof. intros Hz. rewrite format_nonneg by exact Hz. now apply decimal_value_padded. Qed.
Lemma binary_round_aux_sign sx mx ex lx :
  match binary_round_aux PyFloat.prec PyFloat.emax sx mx ex lx with
  | S754_zero s | S754_infinity s | S754_finite s _ _ => s = sx
  | S754_nan => True
  end.
Proof.
  unfold binary_round_aux.
  destruct (shr_fexp _ _ mx ex lx) as [mrs e'].
  destruct (shr_fexp _ _ _ e' loc_Exact) as [mrs' e''].
  destruct (shr_m mrs'); [reflexivity | | exact I].
  now destruct (Z.leb _ _).
Qed.

Lemma of_int_1000 : PyFloat.of_int 1000 = S754_finite false 8796093022208000 (-43).
Proof. reflexivity. Qed.

Lemma round_half_even_nonneg m k : 0 <= m -> 0 <= PyFloat.round_half_even m k.
Proof.
  intros Hm. unfold PyFloat.round_half_even.
  assert (0 <= m / 2 ^ k).
  { destruct (Z.le_gt_cases 0 k).
    - apply Z.div_pos; [lia|]. apply Z.pow_pos_nonneg; lia.
    - rewrite Z.pow_neg_r by lia. now rewrite Z.div_0_r. }
  destruct (2 * (m mod 2 ^ k) ?= 2 ^ k)%Z; [destruct (Z.even _)| |]; lia.
Qed.

(** The milliseconds of a non-negative offset are not negative. *)
Lemma millis_of_nonneg seconds millis :
  non_negative seconds = true -> millis_of seconds = Ok millis -> 0 <= millis.
Proof.
  unfold non_negative, millis_of, PyFloat.leb, PyFloat.mul. rewrite of_int_1000.
  destruct seconds as [s|s| |s m e]; try discriminate.
  - intros _ [= <-]. lia.
  - destruct s; [discriminate|]. intros _.
    cbn [SFmul xorb].
    pose proof (binary_round_aux_sign false (Z.pos (m * 8796093022208000)) (e + -43)
                  loc_Exact) as Hs.
    destruct (binary_round_aux _ _ _ _ _ _) as [s|s| |s m' e']; try discriminate.
    + intros [= <-]. lia.
    + subst s. cbn [PyFloat.round]. intros [= <-].
      destruct (0 <=? e')%Z.
      * apply Z.mul_nonneg_nonneg; [lia|]. apply Z.pow_nonneg. lia.
      * apply round_half_even_nonneg. lia.
Qed.

Lemma timestamp_of_millis seconds millis :
  millis_of seconds = Ok millis ->
  seconds_to_srt_timestamp seconds =
  Ok (PyInt.format_zero_padded 2 (millis / 3600000) ++ ":" ++
      PyInt.format_zero_padded 2 (millis mod 3600000 / 60000) ++ ":" ++
      PyInt.format_zero_padded 2 (millis mod 3600000 mod 60000 / 1000) ++ "," ++
      PyInt.format_zero_padded 3 (millis mod 3600000 mod 60000 mod 1000)).
Proof.
  unfold millis_of, seconds_to_srt_timestamp. intros ->. reflexivity.
Qed.

Lemma formattable_millis seconds :
  formattable seconds = true -> exists millis, millis_of seconds = Ok millis.
Proof.
  unfold formattable, millis_of.
  destruct (PyFloat.mul _ _); try discriminate; simpl; eauto.
Qed.

Lemma app_char c b : String c "" ++ b = String c b.
Proof. reflexivity. Qed.

(** The text of a number of milliseconds that is not negative, read back. *)
Lemma parse_formatted millis :
  0 <= millis ->
  parse_srt_timestamp
    (PyInt.format_zero_padded 2 (millis / 3600000) ++ ":" ++
     PyInt.format_zero_padded 2 (millis mod 3600000 / 60000) ++ ":" ++
     PyInt.format_zero_padded 2 (millis mod 3600000 mod 60000 / 1000) ++ "," ++
     PyInt.format_zero_padded 3 (millis mod 3600000 mod 60000 mod 1000)) = Some millis.
Proof.
  intros Hm.
  set (h := millis / 3600000). set (r1 := millis mod 3600000).
  set (m := r1 / 60000). set (r2 := r1 mod 60000).
  set (s := r2 / 1000). set (ms := r2 mod 1000).
  assert (Hh : 0 <= h) by (apply Z.div_pos; lia).
  assert (Hr1 : 0 <= r1 < 3600000) by (apply Z.mod_pos_bound; lia).
  assert (Hmm : 0 <= m < 60) by (subst m; split; [apply Z.div_pos; lia | apply Z.div_lt_upper_bound; lia]).
  assert (Hr2 : 0 <= r2 < 60000) by (apply Z.mod_pos_bound; lia).
  assert (Hs : 0 <= s < 60) by (subst s; split; [apply Z.div_pos; lia | apply Z.div_lt_upper_bound; lia]).
  assert (Hms : 0 <= ms < 1000) by (apply Z.mod_pos_bound; lia).
  unfold parse_srt_timestamp.
  rewrite !app_char.
  rewrite split_first_app by (apply digits_have_no; [reflexivity | apply format_digits; lia]).
  rewrite split_first_app by (apply digits_have_no; [reflexivity | apply format_digits; lia]).
  rewrite split_first_app by (apply digits_have_no; [reflexivity | apply format_digits; lia]).
  rewrite (format_length_2 m), (format_length_2 s), (format_length_3 ms) by lia.
  pose proof (format_length_ge 2 h Hh) as Hlen. apply Nat.leb_le in Hlen. rewrite Hlen.
  cbn [Nat.eqb andb].
  rewrite !decimal_value_format by lia. f_equal.
  subst h m s ms r2 r1.
  pose proof (Z.div_mod millis 3600000 ltac:(lia)).
  pose proof (Z.div_mod (millis mod 3600000) 60000 ltac:(lia)).
  pose proof (Z.div_mod (millis mod 3600000 mod 60000) 1000 ltac:(lia)).
  lia.
Qed.

(** Against C5 as it is stated.  The offset 1e306 is finite and not
    negative, and a thousand times it is past the largest float: the
    product is an infinity, which [round] turns down, so the formatter has
    no answer for every finite offset.  And what it answers is the
    rounding of the float product, not of the offset: the float nearest to
    0.0005 lies above half a millisecond, so that the millisecond nearest
    to it is 1, but its product with a thousand is the float 0.5, which
    rounds to 0. *)
Lemma formatter_overflows_on_large_offset :
  valid_binary PyFloat.prec PyFloat.emax f_1e306 = true /\
  PyFloat.is_finite f_1e306 = true /\
  non_negative f_1e306 = true /\
  PyFloat.mul f_1e306 (PyFloat.of_int 1000) = S754_infinity false /\
  seconds_to_srt_timestamp f_1e306 =
    Raise (OverflowError "cannot convert float infinity to integer") /\
  ~ formatter_total_on_finite /\
  valid_binary PyFloat.prec PyFloat.emax f_0_0005 = true /\
  non_negative f_0_0005 = true /\
  nearest_millis f_0_0005 = 1 /\
  seconds_to_srt_timestamp f_0_0005 = Ok "00:00:00,000" /\
  parse_srt_timestamp "00:00:00,000" = Some 0 /\
  ~ formatter_gives_nearest_millisecond.
Proof.
  assert (Hraise : seconds_to_srt_timestamp f_1e306 =
                   Raise (OverflowError "cannot convert float infinity to integer"))
    by (vm_compute; reflexivity).
  assert (Hhalf : seconds_to_srt_timestamp f_0_0005 = Ok "00:00:00,000")
    by (vm_compute; reflexivity).
  split; [reflexivity|]. split; [reflexivity|]. split; [reflexivity|].
  split; [vm_compute; reflexivity|]. split; [exact Hraise|].
  split.
  { intros H. destruct (H f_1e306) as (ts & millis & Hts & _); try reflexivity.
    rewrite Hraise in Hts. discriminate. }
  split; [reflexivity|]. split; [reflexivity|]. split; [vm_compute; reflexivity|].
  split; [exact Hhalf|]. split; [vm_compute; reflexivity|].
  intros H. specialize (H f_0_0005 "00:00:00,000" eq_refl eq_refl Hhalf).
  vm_compute in H. discriminate.
Qed.

(** The offsets whose product with a thousand is a finite float: the
    formatter answers a non-negative one with hours of two digits or more,
    never wrapped, two digits of minutes, two of seconds and three of
    milliseconds, and the text reads back as [round(seconds * 1000)],
    rounded half to even. *)
Lemma reads_back_in_range seconds :
  non_negative seconds = true ->
  formattable seconds = true ->
  exists millis hh mm ss mmm,
    millis_of seconds = Ok millis /\ 0 <= millis /\
    seconds_to_srt_timestamp seconds = Ok (hh ++ ":" ++ mm ++ ":" ++ ss ++ "," ++ mmm) /\
    (2 <= String.length hh)%nat /\ String.length mm = 2%nat /\
    String.length ss = 2%nat /\ String.length mmm = 3%nat /\
    all_digits hh = true /\ all_digits mm = true /\
    all_digits ss = true /\ all_digits mmm = true /\
    decimal_value hh = Some (millis / 3600000) /\
    parse_srt_timestamp (hh ++ ":" ++ mm ++ ":" ++ ss ++ "," ++ mmm) = Some millis.
Proof.
  intros Hpos Hfin.
  destruct (formattable_millis _ Hfin) as [millis Hm].
  pose proof (millis_of_nonneg _ _ Hpos Hm) as H0.
  assert (Hh : 0 <= millis / 3600000) by (apply Z.div_pos; lia).
  assert (Hr1 : 0 <= millis mod 3600000 < 3600000) by (apply Z.mod_pos_bound; lia).
  assert (Hr2 : 0 <= millis mod 3600000 mod 60000 < 60000) by (apply Z.mod_pos_bound; lia).
  assert (Hmm : 0 <= millis mod 3600000 / 60000 < 60)
    by (split; [apply Z.div_pos; lia | apply Z.div_lt_upper_bound; lia]).
  assert (Hs : 0 <= millis mod 3600000 mod 60000 / 1000 < 60)
    by (split; [apply Z.div_pos; lia | apply Z.div_lt_upper_bound; lia]).
  assert (Hms : 0 <= millis mod 3600000 mod 60000 mod 1000 < 1000)
    by (apply Z.mod_pos_bound; lia).
  exists millis, (PyInt.format_zero_padded 2 (millis / 3600000)),
    (PyInt.format_zero_padded 2 (millis mod 3600000 / 60000)),
    (PyInt.format_zero_padded 2 (millis mod 3600000 mod 60000 / 1000)),
    (PyInt.format_zero_padded 3 (millis mod 3600000 mod 60000 mod 1000)).
  split; [exact Hm|]. split; [exact H0|].
  split; [now apply timestamp_of_millis|].
  split; [now apply format_length_ge|].
  split; [apply format_length_2; lia|].
  split; [apply format_length_2; lia|].
  split; [apply format_length_3; lia|].
  split; [apply format_digits; lia|].
  split; [apply format_digits; lia|].
  split; [apply format_digits; lia|].
  split; [apply format_digits; lia|].
  split; [now apply decimal_value_format|].
  now apply parse_formatted.
Qed.

(** ** Rounding half to even *)

Lemma rne_cases m k :
  0 <= k ->
  let q := m / 2 ^ k in
  let r := m mod 2 ^ k in
  0 <= r < 2 ^ k /\ m = q * 2 ^ k + r /\
  ((2 * r < 2 ^ k /\ rne m k = q) \/
   (2 * r = 2 ^ k /\ rne m k = if Z.even q then q else q + 1) \/
   (2 * r > 2 ^ k /\ rne m k = q + 1)).
Proof.
  intros Hk q r. assert (Hp : 0 < 2 ^ k) by (apply Z.pow_pos_nonneg; lia).
  split; [apply Z.mod_pos_bound; lia|].
  split; [subst q r; pose proof (Z.div_mod m (2 ^ k)); lia|].
  unfold PyFloat.round_half_even. fold q r.
  destruct (Z.compare_spec (2 * r) (2 ^ k)); [right; left | left | right; right]; split;
    lia || reflexivity.
Qed.

Lemma rne_range m k : 0 <= k -> m / 2 ^ k <= rne m k <= m / 2 ^ k + 1.
Proof.
  intros Hk. destruct (rne_cases m k Hk) as (_ & _ & [[_ ->] | [[_ ->] | [_ ->]]]);
    try destruct (Z.even _); lia.
Qed.

Lemma rne_exact q k : 0 <= k -> rne (q * 2 ^ k) k = q.
Proof.
  intros Hk. assert (Hp : 0 < 2 ^ k) by (apply Z.pow_pos_nonneg; lia).
  unfold PyFloat.round_half_even.
  rewrite Z.div_mul, Z.mod_mul by lia.
  destruct (Z.compare_spec (2 * 0) (2 ^ k)); lia.
Qed.

Lemma rne_mono m1 m2 k : 0 <= k -> m1 <= m2 -> rne m1 k <= rne m2 k.
Proof.
  intros Hk Hm. assert (Hp : 0 < 2 ^ k) by (apply Z.pow_pos_nonneg; lia).
  destruct (rne_cases m1 k Hk) as (Hr1 & E1 & C1).
  destruct (rne_cases m2 k Hk) as (Hr2 & E2 & C2).
  assert (Hq : m1 / 2 ^ k <= m2 / 2 ^ k) by (apply Z.div_le_mono; lia).
  destruct (Z.eq_dec (m1 / 2 ^ k) (m2 / 2 ^ k)) as [Eq|Ne].
  - rewrite <- Eq in *.
    assert (m1 mod 2 ^ k <= m2 mod 2 ^ k) by lia.
    destruct C1 as [[? ->] | [[? ->] | [? ->]]], C2 as [[? ->] | [[? ->] | [? ->]]];
      try destruct (Z.even _); lia.
  - pose proof (rne_range m1 k Hk). pose proof (rne_range m2 k Hk). lia.
Qed.

Lemma rne_scale m k j : 0 <= k -> 0 <= j -> rne (m * 2 ^ j) (k + j) = rne m k.
Proof.
  intros Hk Hj.
  assert (Hp : 0 < 2 ^ k) by (apply Z.pow_pos_nonneg; lia).
  assert (Hpj : 0 < 2 ^ j) by (apply Z.pow_pos_nonneg; lia).
  unfold PyFloat.round_half_even.
  rewrite Z.pow_add_r by lia.
  rewrite Z.div_mul_cancel_r by lia.
  rewrite Z.mul_mod_distr_r by lia.
  replace (2 * (m mod 2 ^ k * 2 ^ j)) with ((2 * (m mod 2 ^ k)) * 2 ^ j) by ring.
  destruct (Z.compare_spec (2 * (m mod 2 ^ k) * 2 ^ j) (2 ^ k * 2 ^ j)),
    (Z.compare_spec (2 * (m mod 2 ^ k)) (2 ^ k)); try reflexivity; nia.
Qed.

Lemma rne_zero_shift m : rne m 0 = m.
Proof.
  unfold PyFloat.round_half_even. rewrite Z.pow_0_r, Z.div_1_r, Z.mod_1_r. reflexivity.
Qed.

Lemma rne_le_bound m k c : 0 <= k -> m <= c * 2 ^ k -> rne m k <= c.
Proof. intros Hk H. rewrite <- (rne_exact c k Hk). now apply rne_mono. Qed.

Lemma rne_ge_bound m k c : 0 <= k -> c * 2 ^ k <= m -> c <= rne m k.
Proof. intros Hk H. rewrite <- (rne_exact c k Hk). now apply rne_mono. Qed.

(** ** The rounding of [SFmul], read as arithmetic *)

Lemma iter_pos_nat {A} (f : A -> A) p x : SpecFloat.iter_pos f p x = Nat.iter (Pos.to_nat p) f x.
Proof.
  revert x. induction p as [p IH|p IH|]; intros x; cbn [SpecFloat.iter_pos].
  - rewrite !IH, Pos2Nat.inj_xI. rewrite <- Nat.iter_add.
    replace (2 * Pos.to_nat p)%nat with (Pos.to_nat p + Pos.to_nat p)%nat by lia.
    now rewrite Nat.iter_succ_r.
  - rewrite !IH, Pos2Nat.inj_xO. rewrite <- Nat.iter_add.
    f_equal. lia.
  - reflexivity.
Qed.

Lemma shr_1_nonneg m r s :
  0 <= m -> shr_1 {| shr_m := m; shr_r := r; shr_s := s |} =
            {| shr_m := m / 2; shr_r := Z.odd m; shr_s := r || s |}.
Proof.
  intros Hm. destruct m as [|p|p]; [reflexivity | | lia].
  destruct p as [p|p|]; cbn [shr_1].
  - f_equal. rewrite Pos2Z.inj_xI. apply Z.div_unique with 1; lia.
  - f_equal. rewrite Pos2Z.inj_xO. apply Z.div_unique with 0; lia.
  - reflexivity.
Qed.

(** [n + 1] shifts leave the quotient by [2 ^ (n + 1)], the bit [n] and
    whether any lower bit is set. *)
Lemma shr_iter m n :
  0 <= m ->
  Nat.iter (S n) shr_1 {| shr_m := m; shr_r := false; shr_s := false |} =
  {| shr_m := m / 2 ^ (Z.of_nat n + 1);
     shr_r := Z.testbit m (Z.of_nat n);
     shr_s := negb (m mod 2 ^ Z.of_nat n =? 0)%Z |}.
Proof.
  intros Hm. induction n as [|n IH].
  - cbn [Nat.iter]. rewrite shr_1_nonneg by exact Hm. cbn [Z.of_nat orb Z.add].
    rewrite Z.pow_1_r, Z.pow_0_r, Z.mod_1_r, Z.bit0_odd. reflexivity.
  - rewrite Nat.iter_succ, IH.
    assert (Hp : 0 < 2 ^ (Z.of_nat n + 1)) by (apply Z.pow_pos_nonneg; lia).
    assert (Hp' : 0 < 2 ^ Z.of_nat n) by (apply Z.pow_pos_nonneg; lia).
    rewrite shr_1_nonneg by (apply Z.div_pos; lia).
    replace (Z.of_nat (S n)) with (Z.of_nat n + 1) by lia.
    f_equal.
    + rewrite Z.div_div by lia. f_equal.
      rewrite (Z.pow_add_r 2 (Z.of_nat n + 1) 1) by lia. reflexivity.
    + rewrite Z.testbit_odd, Z.shiftr_div_pow2 by lia. reflexivity.
    + rewrite (Z.pow_add_r 2 (Z.of_nat n) 1), Z.pow_1_r by lia.
      rewrite (Z.rem_mul_r m (2 ^ Z.of_nat n) 2) by lia.
      pose proof (Z.mod_pos_bound m (2 ^ Z.of_nat n) Hp') as Hlow.
      pose proof (Z.mod_pos_bound (m / 2 ^ Z.of_nat n) 2 ltac:(lia)) as Hbit.
      destruct (Z.testbit m (Z.of_nat n)) eqn:Hb.
      * apply Z.testbit_true in Hb; [|lia]. rewrite Hb. cbn [orb].
        symmetry. apply negb_true_iff, Z.eqb_neq. lia.
      * apply Z.testbit_false in Hb; [|lia]. rewrite Hb. cbn [orb].
        now rewrite Z.mul_0_r, Z.add_0_r.
Qed.

(** After the shifts, rounding to nearest even by the location of the
    record is rounding half to even of the quotient. *)
Lemma shr_round m n :
  0 <= m ->
  let mrs := Nat.iter (S n) shr_1 {| shr_m := m; shr_r := false; shr_s := false |} in
  round_nearest_even (shr_m mrs) (loc_of_shr_record mrs) =
  PyFloat.round_half_even m (Z.of_nat n + 1).
Proof.
  intros Hm mrs. subst mrs. rewrite shr_iter by exact Hm.
  cbn [shr_m loc_of_shr_record].
  assert (Hp' : 0 < 2 ^ Z.of_nat n) by (apply Z.pow_pos_nonneg; lia).
  unfold PyFloat.round_half_even.
  rewrite (Z.pow_add_r 2 (Z.of_nat n) 1), Z.pow_1_r by lia.
  rewrite (Z.rem_mul_r m (2 ^ Z.of_nat n) 2) by lia.
  pose proof (Z.mod_pos_bound m (2 ^ Z.of_nat n) Hp') as Hlow.
  destruct (Z.testbit m (Z.of_nat n)) eqn:Hb.
  - apply Z.testbit_true in Hb; [|lia]. rewrite Hb.
    destruct (Z.eqb_spec (m mod 2 ^ Z.of_nat n) 0) as [E|E]; cbn [negb round_nearest_even].
    + rewrite E.
      destruct (Z.compare_spec (2 * (0 + 2 ^ Z.of_nat n * 1)) (2 ^ Z.of_nat n * 2));
        first [lia | reflexivity].
    + destruct (Z.compare_spec (2 * (m mod 2 ^ Z.of_nat n + 2 ^ Z.of_nat n * 1))
                  (2 ^ Z.of_nat n * 2)); first [lia | reflexivity].
  - apply Z.testbit_false in Hb; [|lia]. rewrite Hb.
    destruct (Z.compare_spec (2 * (m mod 2 ^ Z.of_nat n + 2 ^ Z.of_nat n * 0))
                (2 ^ Z.of_nat n * 2)); try lia.
    now destruct (negb _).
Qed.

Lemma digits2_bounds p :
  2 ^ (Z.pos (digits2_pos p) - 1) <= Z.pos p < 2 ^ Z.pos (digits2_pos p).
Proof.
  induction p as [p IH|p IH|]; cbn [digits2_pos].
  - rewrite Pos2Z.inj_succ. change (Z.pos p~1) with (2 * Z.pos p + 1).
    replace (Z.succ (Z.pos (digits2_pos p)) - 1) with (Z.succ (Z.pos (digits2_pos p) - 1)) by lia.
    rewrite !Z.pow_succ_r by lia. lia.
  - rewrite Pos2Z.inj_succ. change (Z.pos p~0) with (2 * Z.pos p).
    replace (Z.succ (Z.pos (digits2_pos p)) - 1) with (Z.succ (Z.pos (digits2_pos p) - 1)) by lia.
    rewrite !Z.pow_succ_r by lia. lia.
  - cbn. lia.
Qed.

Lemma digits2_le p k : 0 <= k -> Z.pos p < 2 ^ k -> Z.pos (digits2_pos p) <= k.
Proof.
  intros Hk Hp. pose proof (digits2_bounds p) as [Hlo _].
  destruct (Z.le_gt_cases (Z.pos (digits2_pos p)) k) as [|Hgt]; [assumption|].
  assert (2 ^ k <= 2 ^ (Z.pos (digits2_pos p) - 1)) by (apply Z.pow_le_mono_r; lia).
  lia.
Qed.

Lemma fexp_binary64 e : fexp PyFloat.prec PyFloat.emax e = Z.max (e - 53) (-1074).
Proof. reflexivity. Qed.

(** The first shift of [binary_round_aux] on an exact positive mantissa:
    down to the exponent of the format, rounding half to even. *)
Lemma shr_fexp_first M E :
  let e1 := Z.max (Z.pos (digits2_pos M) + E - 53) (-1074) in
  0 < e1 - E ->
  exists mrs,
    shr_fexp PyFloat.prec PyFloat.emax (Z.pos M) E loc_Exact = (mrs, e1) /\
    round_nearest_even (shr_m mrs) (loc_of_shr_record mrs) =
    PyFloat.round_half_even (Z.pos M) (e1 - E).
Proof.
  intros e1 Hn. unfold shr_fexp. rewrite fexp_binary64. cbn [Zdigits2]. fold e1.
  destruct (e1 - E) as [|p|p] eqn:En; try lia.
  unfold shr. rewrite iter_pos_nat. cbn [shr_record_of_loc].
  destruct (Pos2Nat.is_succ p) as [n Hn'].
  rewrite Hn'. eexists. split.
  - f_equal. lia.
  - rewrite (shr_round (Z.pos M) n) by lia. f_equal. lia.
Qed.

(** The second shift: none below [2 ^ 53]; one, exact, at [2 ^ 53]. *)
Lemma shr_fexp_second m1 e1 :
  -1074 <= e1 -> 0 <= m1 <= 2 ^ 53 ->
  shr_fexp PyFloat.prec PyFloat.emax m1 e1 loc_Exact =
  if (m1 <? 2 ^ 53)%Z
  then ({| shr_m := m1; shr_r := false; shr_s := false |}, e1)
  else ({| shr_m := 2 ^ 52; shr_r := false; shr_s := false |}, e1 + 1).
Proof.
  intros He Hm. unfold shr_fexp. rewrite fexp_binary64. cbn [shr_record_of_loc].
  destruct (Z.ltb_spec m1 (2 ^ 53)) as [Hlt|Hge].
  - assert (Hd : Zdigits2 m1 <= 53).
    { destruct m1 as [|q|q]; cbn [Zdigits2]; try lia. apply digits2_le; lia. }
    destruct (Z.max (Zdigits2 m1 + e1 - 53) (-1074) - e1) as [|p|p] eqn:En; try reflexivity.
    lia.
  - assert (m1 = 2 ^ 53) by lia. subst m1.
    change (Zdigits2 (2 ^ 53)) with 54.
    replace (Z.max (54 + e1 - 53) (-1074) - e1) with 1 by lia.
    reflexivity.
Qed.

(** [binary_round_aux] on an exact positive mantissa, by cases of its
    answer: with [e1] the exponent of the format and [m1] the mantissa
    rounded half to even at [e1], a finite answer stands for [m1 * 2 ^ e1],
    a zero says that [m1] is [0], and an infinity that [m1 * 2 ^ e1] is
    [2 ^ 1024] or more. *)
Lemma binary_round_aux_exact M E :
  let e1 := Z.max (Z.pos (digits2_pos M) + E - 53) (-1074) in
  let m1 := PyFloat.round_half_even (Z.pos M) (e1 - E) in
  0 < e1 - E ->
  match binary_round_aux PyFloat.prec PyFloat.emax false (Z.pos M) E loc_Exact with
  | S754_zero _ => m1 = 0
  | S754_finite s m e =>
      s = false /\ e1 <= e <= 971 /\ Z.pos m * 2 ^ (e - e1) = m1 /\ Z.pos m < 2 ^ 53
  | S754_infinity _ => 2 ^ 2141 <= m1 * 2 ^ (e1 + 1117)
  | S754_nan => False
  end.
Proof.
  intros e1 m1 Hn. unfold binary_round_aux.
  destruct (shr_fexp_first M E Hn) as (mrs & E1 & Hr). fold e1 in E1, Hr.
  rewrite E1, Hr. fold m1.
  pose proof (digits2_bounds M) as [Hlo Hhi].
  assert (He1 : -1074 <= e1) by (subst e1; lia).
  assert (Hm1 : 0 <= m1 <= 2 ^ 53).
  { split; [apply round_half_even_nonneg; lia|].
    apply rne_le_bound; [lia|].
    rewrite <- Z.pow_add_r by lia.
    assert (2 ^ Z.pos (digits2_pos M) <= 2 ^ (53 + (e1 - E)))
      by (apply Z.pow_le_mono_r; subst e1; lia).
    lia. }
  rewrite (shr_fexp_second m1 e1 He1 Hm1).
  change (PyFloat.emax - PyFloat.prec) with 971.
  destruct (Z.ltb_spec m1 (2 ^ 53)) as [Hlt|Hge]; cbn [shr_m].
  - destruct m1 as [|q|q] eqn:Eq; [reflexivity | | lia].
    destruct (Z.leb_spec e1 971) as [Hle|Hgt].
    + split; [reflexivity|]. split; [lia|]. split; [|lia].
      rewrite Z.sub_diag, Z.pow_0_r. lia.
    + assert (E' : e1 = Z.pos (digits2_pos M) + E - 53) by (subst e1; lia).
      assert (Hq : 2 ^ 52 <= Z.pos q).
      { rewrite <- Eq. apply rne_ge_bound; [lia|].
        rewrite <- Z.pow_add_r by lia.
        replace (52 + (e1 - E)) with (Z.pos (digits2_pos M) - 1) by lia. exact Hlo. }
      assert (2 ^ 2089 <= 2 ^ (e1 + 1117)) by (apply Z.pow_le_mono_r; lia).
      change (2 ^ 2141) with (2 ^ 52 * 2 ^ 2089).
      apply Z.mul_le_mono_nonneg; lia.
  - assert (Em : m1 = 2 ^ 53) by lia.
    change (2 ^ 52) with (Z.pos 4503599627370496).
    cbv iota beta.
    destruct (Z.leb_spec (e1 + 1) 971) as [Hle|Hgt].
    + split; [reflexivity|]. split; [lia|]. split; [|reflexivity].
      replace (e1 + 1 - e1) with 1 by lia. rewrite Em. reflexivity.
    + rewrite Em.
      assert (2 ^ 2088 <= 2 ^ (e1 + 1117)) by (apply Z.pow_le_mono_r; lia).
      change (2 ^ 2141) with (2 ^ 53 * 2 ^ 2088).
      apply Z.mul_le_mono_nonneg; lia.
Qed.

Lemma valid_finite s m e :
  valid_binary PyFloat.prec PyFloat.emax (S754_finite s m e) = true ->
  -1074 <= e <= 971 /\
  (Z.pos (digits2_pos m) = 53 \/ (e = -1074 /\ Z.pos (digits2_pos m) <= 53)).
Proof.
  cbn [valid_binary]. unfold bounded, canonical_mantissa.
  rewrite fexp_binary64. change (PyFloat.emax - PyFloat.prec) with 971.
  intros [Hc He]%andb_true_iff. apply Z.eqb_eq in Hc. apply Z.leb_le in He. lia.
Qed.

(** Rounding to the format is monotone: the rounded values of two
    non-negative numbers, each taken at the exponent of its size and not
    below the least exponent, stand as the numbers do. *)
Lemma rounded_mono N1 N2 D1 D2 :
  N1 <= N2 -> 1 <= D1 -> 1 <= D2 ->
  2 ^ (D1 - 1) <= N1 < 2 ^ D1 ->
  2 ^ (D2 - 1) <= N2 < 2 ^ D2 ->
  PyFloat.round_half_even N1 (Z.max (D1 - 53) 43) * 2 ^ Z.max (D1 - 53) 43 <=
  PyFloat.round_half_even N2 (Z.max (D2 - 53) 43) * 2 ^ Z.max (D2 - 53) 43.
Proof.
  intros HN HD1 HD2 [Hlo1 Hhi1] [Hlo2 Hhi2].
  assert (HD : D1 <= D2).
  { destruct (Z.le_gt_cases D1 D2); [assumption|].
    assert (2 ^ D2 <= 2 ^ (D1 - 1)) by (apply Z.pow_le_mono_r; lia). lia. }
  set (k1 := Z.max (D1 - 53) 43). set (k2 := Z.max (D2 - 53) 43).
  assert (Hk1 : 43 <= k1) by (subst k1; lia).
  assert (Hk : k1 <= k2) by (subst k1 k2; lia).
  assert (Hp1 : 0 < 2 ^ k1) by (apply Z.pow_pos_nonneg; lia).
  destruct (Z.eq_dec k1 k2) as [<-|Hne].
  - apply Z.mul_le_mono_nonneg_r; [lia|]. apply rne_mono; lia.
  - assert (Ek2 : k2 = D2 - 53) by (subst k1 k2; lia).
    assert (H2 : 2 ^ 52 <= PyFloat.round_half_even N2 k2).
    { apply rne_ge_bound; [lia|]. rewrite <- Z.pow_add_r by lia.
      replace (52 + k2) with (D2 - 1) by lia. exact Hlo2. }
    assert (H1 : PyFloat.round_half_even N1 k1 <= 2 ^ 53).
    { apply rne_le_bound; [lia|]. rewrite <- Z.pow_add_r by lia.
      assert (2 ^ D1 <= 2 ^ (53 + k1)) by (apply Z.pow_le_mono_r; subst k1; lia). lia. }
    assert (Hp2 : 0 < 2 ^ k2) by (apply Z.pow_pos_nonneg; lia).
    assert (Hpow : 2 ^ 53 * 2 ^ k1 <= 2 ^ 52 * 2 ^ k2).
    { rewrite <- !Z.pow_add_r by lia. apply Z.pow_le_mono_r; lia. }
    assert (PyFloat.round_half_even N1 k1 * 2 ^ k1 <= 2 ^ 53 * 2 ^ k1)
      by (apply Z.mul_le_mono_nonneg_r; lia).
    assert (2 ^ 52 * 2 ^ k2 <= PyFloat.round_half_even N2 k2 * 2 ^ k2)
      by (apply Z.mul_le_mono_nonneg_r; lia).
    lia.
Qed.

(** [round] of a finite float that is not negative, from its value in
    units of [2 ^ -1117]. *)
Lemma round_from_units m e :
  -1117 <= e ->
  PyFloat.round (S754_finite false m e) =
  Ok (PyFloat.round_half_even (Z.pos m * 2 ^ (e + 1117)) 1117).
Proof.
  intros He. cbn [PyFloat.round]. f_equal.
  destruct (Z.leb_spec 0 e) as [Hpos|Hneg].
  - replace (e + 1117) with (e + 1117 - 1117 + 1117) by lia.
    rewrite (Z.pow_add_r 2 (e + 1117 - 1117) 1117), Z.mul_assoc by lia.
    rewrite rne_exact by lia. f_equal. f_equal. lia.
  - replace 1117 with (- e + (e + 1117)) at 2 by lia.
    now rewrite rne_scale by lia.
Qed.

Lemma rounded_units_mono N1 N2 : 0 < N1 <= N2 -> rounded_units N1 <= rounded_units N2.
Proof.
  intros [H1 H12]. unfold rounded_units.
  pose proof (Z.log2_spec N1 H1) as L1. pose proof (Z.log2_spec N2 ltac:(lia)) as L2.
  pose proof (Z.log2_nonneg N1). pose proof (Z.log2_nonneg N2).
  apply (rounded_mono N1 N2 (Z.log2 N1 + 1) (Z.log2 N2 + 1)); try lia.
  - replace (Z.log2 N1 + 1 - 1) with (Z.log2 N1) by lia.
    replace (Z.log2 N1 + 1) with (Z.succ (Z.log2 N1)) by lia. exact L1.
  - replace (Z.log2 N2 + 1 - 1) with (Z.log2 N2) by lia.
    replace (Z.log2 N2 + 1) with (Z.succ (Z.log2 N2)) by lia. exact L2.
Qed.

(** The product of a positive float with a thousand, in units of
    [2 ^ -1117]: the exact product rounded onto the format. *)
Lemma mul_thousand_units mx ex :
  valid_binary PyFloat.prec PyFloat.emax (S754_finite false mx ex) = true ->
  let W := rounded_units (units_of (S754_finite false mx ex) * THOUSAND_MANTISSA) in
  match PyFloat.mul (S754_finite false mx ex) (PyFloat.of_int 1000) with
  | S754_zero _ => W = 0
  | S754_finite s m e =>
      s = false /\ -1074 <= e /\ Z.pos m * 2 ^ (e + 1117) = W /\ W < 2 ^ 2141
  | S754_infinity _ => 2 ^ 2141 <= W
  | S754_nan => False
  end.
Proof.
  intros Hv W. destruct (valid_finite _ _ _ Hv) as (He & Hd).
  unfold PyFloat.mul. rewrite of_int_1000. cbn [SFmul xorb].
  set (M := (mx * 8796093022208000)%positive).
  set (E := ex + -43).
  pose proof (digits2_bounds M) as [Hlo Hhi].
  pose proof (digits2_bounds mx) as [Hlox Hhix].
  assert (HM : Z.pos M = Z.pos mx * 8796093022208000) by reflexivity.
  set (d := Z.pos (digits2_pos M)) in *.
  assert (Hn : 0 < Z.max (d + E - 53) (-1074) - E).
  { destruct Hd as [Hd | [-> _]]; [|subst E; lia].
    rewrite Hd in Hlox. change (2 ^ (53 - 1)) with 4503599627370496 in Hlox.
    assert (2 ^ 104 < 2 ^ d) by (change (2 ^ 104) with 20282409603651670423947251286016; lia).
    assert (104 < d) by (apply (Z.pow_lt_mono_r_iff 2); lia).
    subst E. lia. }
  pose proof (binary_round_aux_exact M E Hn) as H. cbv zeta in H. fold d in H.
  set (e1 := Z.max (d + E - 53) (-1074)) in *.
  set (a := ex + 1074).
  assert (Ha : 0 <= a) by (subst a; lia).
  assert (Hpa : 0 < 2 ^ a) by (apply Z.pow_pos_nonneg; lia).
  assert (EN : units_of (S754_finite false mx ex) * THOUSAND_MANTISSA = Z.pos M * 2 ^ a).
  { cbn [units_of]. fold a. unfold THOUSAND_MANTISSA. rewrite HM. ring. }
  assert (Hlog : Z.log2 (Z.pos M * 2 ^ a) + 1 = d + a).
  { assert (Z.log2 (Z.pos M * 2 ^ a) = d + a - 1); [|lia].
    apply Z.log2_unique; [lia|].
    replace (Z.succ (d + a - 1)) with (d + a) by lia.
    replace (d + a - 1) with (d - 1 + a) by lia.
    rewrite !Z.pow_add_r by lia. split.
    - apply Z.mul_le_mono_nonneg_r; lia.
    - apply Z.mul_lt_mono_pos_r; lia. }
  assert (Ek : Z.max (Z.log2 (Z.pos M * 2 ^ a) + 1 - 53) 43 = e1 + 1117)
    by (rewrite Hlog; subst e1 E a; lia).
  assert (EW : W = rne (Z.pos M) (e1 - E) * 2 ^ (e1 + 1117)).
  { subst W. unfold rounded_units. rewrite EN, Ek. f_equal.
    replace (e1 + 1117) with (e1 - E + a) by (subst E a; lia).
    apply rne_scale; lia. }
  destruct (binary_round_aux _ _ _ _ _ _) as [s|s| |s m e].
  - rewrite EW, H. reflexivity.
  - now rewrite EW.
  - exact H.
  - destruct H as (Hs & Hee & Hm & Hlt).
    assert (Hval : Z.pos m * 2 ^ (e + 1117) = W).
    { rewrite EW, <- Hm, <- Z.mul_assoc, <- Z.pow_add_r by (subst e1; lia).
      f_equal. f_equal. lia. }
    split; [exact Hs|]. split; [subst e1; lia|]. split; [exact Hval|].
    rewrite <- Hval.
    assert (2 ^ (e + 1117) <= 2 ^ 2088) by (apply Z.pow_le_mono_r; lia).
    assert (0 < 2 ^ (e + 1117)) by (apply Z.pow_pos_nonneg; lia).
    change (2 ^ 2141) with (2 ^ 53 * 2 ^ 2088).
    apply Z.le_lt_trans with (Z.pos m * 2 ^ 2088).
    + apply Z.mul_le_mono_nonneg_l; lia.
    + apply Z.mul_lt_mono_pos_r; [apply Z.pow_pos_nonneg; lia | exact Hlt].
Qed.

(** On the positive floats of the format, [<=] is the order of the values. *)
Lemma leb_units m1 e1 m2 e2 :
  valid_binary PyFloat.prec PyFloat.emax (S754_finite false m1 e1) = true ->
  valid_binary PyFloat.prec PyFloat.emax (S754_finite false m2 e2) = true ->
  PyFloat.leb (S754_finite false m1 e1) (S754_finite false m2 e2) = true ->
  units_of (S754_finite false m1 e1) <= units_of (S754_finite false m2 e2).
Proof.
  intros Hv1 Hv2. destruct (valid_finite _ _ _ Hv1) as (He1 & Hd1).
  destruct (valid_finite _ _ _ Hv2) as (He2 & Hd2).
  pose proof (digits2_bounds m1) as [_ Hhi1]. pose proof (digits2_bounds m2) as [Hlo2 _].
  unfold PyFloat.leb, SFleb. cbn [SFcompare units_of].
  destruct (Z.compare_spec e1 e2) as [->|Hlt|Hgt]; [| |discriminate].
  - change (Pos.compare_cont Eq m1 m2) with (m1 ?= m2)%positive.
    destruct (Pos.compare_spec m1 m2); try discriminate; intros _.
    + subst. lia.
    + apply Z.mul_le_mono_nonneg_r; [apply Z.pow_nonneg|]; lia.
  - intros _.
    assert (Hm1 : Z.pos m1 < 2 ^ 53).
    { assert (2 ^ Z.pos (digits2_pos m1) <= 2 ^ 53) by (apply Z.pow_le_mono_r; lia). lia. }
    assert (Hm2 : 2 ^ 52 <= Z.pos m2).
    { destruct Hd2 as [Hd2 | [? _]]; [|lia]. now rewrite Hd2 in Hlo2. }
    assert (Hp1 : 0 < 2 ^ (e1 + 1074)) by (apply Z.pow_pos_nonneg; lia).
    assert (Hp2 : 0 < 2 ^ (e2 + 1074)) by (apply Z.pow_pos_nonneg; lia).
    assert (Hpow : 2 ^ 53 * 2 ^ (e1 + 1074) <= 2 ^ 52 * 2 ^ (e2 + 1074)).
    { rewrite <- !Z.pow_add_r by lia. apply Z.pow_le_mono_r; lia. }
    assert (Z.pos m1 * 2 ^ (e1 + 1074) <= 2 ^ 53 * 2 ^ (e1 + 1074))
      by (apply Z.mul_le_mono_nonneg_r; lia).
    assert (2 ^ 52 * 2 ^ (e2 + 1074) <= Z.pos m2 * 2 ^ (e2 + 1074))
      by (apply Z.mul_le_mono_nonneg_r; lia).
    lia.
Qed.

Lemma millis_of_zero s : millis_of (S754_zero s) = Ok 0.
Proof. reflexivity. Qed.

(** The milliseconds of a positive float of the format: the rounded
    product, rounded half to even to a whole number. *)
Lemma millis_of_positive mx ex :
  valid_binary PyFloat.prec PyFloat.emax (S754_finite false mx ex) = true ->
  let W := rounded_units (units_of (S754_finite false mx ex) * THOUSAND_MANTISSA) in
  (W < 2 ^ 2141 -> millis_of (S754_finite false mx ex) = Ok (rne W 1117)) /\
  (2 ^ 2141 <= W -> exists e, millis_of (S754_finite false mx ex) = Raise e).
Proof.
  intros Hv W. pose proof (mul_thousand_units mx ex Hv) as H. cbv zeta in H. fold W in H.
  unfold millis_of.
  destruct (PyFloat.mul _ _) as [s|s| |s m e].
  - split; [intros _ | intros Hge].
    + rewrite H. reflexivity.
    + assert (0 < 2 ^ 2141) by (apply Z.pow_pos_nonneg; lia). lia.
  - split; [intros Hlt; lia | intros _; eexists; reflexivity].
  - contradiction.
  - destruct H as (-> & He & <- & Hlt). split; [intros _ | intros Hge; lia].
    apply round_from_units. lia.
Qed.

(** Monotonicity of the milliseconds over the non-negative floats. *)
Lemma millis_mono s1 s2 m2 :
  valid_binary PyFloat.prec PyFloat.emax s1 = true ->
  valid_binary PyFloat.prec PyFloat.emax s2 = true ->
  non_negative s1 = true ->
  PyFloat.leb s1 s2 = true ->
  millis_of s2 = Ok m2 ->
  exists m1, millis_of s1 = Ok m1 /\ 0 <= m1 <= m2.
Proof.
  intros Hv1 Hv2 Hpos Hle Hm2.
  destruct s1 as [b1|b1| |b1 mx1 ex1]; try discriminate.
  - exists 0. split; [reflexivity|]. split; [lia|].
    apply (millis_of_nonneg s2); [|exact Hm2].
    clear -Hle. destruct s2 as [b2|b2| |b2 mx2 ex2];
      unfold non_negative, PyFloat.leb, SFleb in *; cbn [SFcompare] in *;
      try discriminate Hle; try reflexivity; destruct b2; try discriminate Hle; reflexivity.
  - destruct b1; [discriminate|].
    destruct s2 as [b2|b2| |b2 mx2 ex2]; try discriminate.
  - destruct b1; [discriminate|].
    destruct s2 as [b2|b2| |b2 mx2 ex2]; try discriminate.
    destruct b2; [discriminate|].
    pose proof (leb_units _ _ _ _ Hv1 Hv2 Hle) as Hu.
    destruct (millis_of_positive mx1 ex1 Hv1) as [Hfin1 Hinf1].
    destruct (millis_of_positive mx2 ex2 Hv2) as [Hfin2 Hinf2].
    set (N1 := units_of (S754_finite false mx1 ex1) * THOUSAND_MANTISSA) in *.
    set (N2 := units_of (S754_finite false mx2 ex2) * THOUSAND_MANTISSA) in *.
    assert (HN : 0 < N1 <= N2).
    { subst N1 N2. unfold THOUSAND_MANTISSA. cbn [units_of] in *.
      assert (0 < 2 ^ (ex1 + 1074)).
      { apply Z.pow_pos_nonneg; [lia|]. destruct (valid_finite _ _ _ Hv1). lia. }
      nia. }
    pose proof (rounded_units_mono N1 N2 HN) as HW.
    destruct (Z.lt_ge_cases (rounded_units N2) (2 ^ 2141)) as [Hlt|Hge].
    + rewrite (Hfin2 Hlt) in Hm2. injection Hm2 as <-.
      exists (rne (rounded_units N1) 1117). split; [apply Hfin1; lia|].
      split; [|apply rne_mono; lia].
      apply round_half_even_nonneg. unfold rounded_units.
      apply Z.mul_nonneg_nonneg; [apply round_half_even_nonneg; lia|].
      apply Z.pow_nonneg. lia.
    + destruct (Hinf2 Hge) as [e He]. congruence.
Qed.

Lemma timestamp_millis seconds ts :
  seconds_to_srt_timestamp seconds = Ok ts ->
  exists millis,
    millis_of seconds = Ok millis /\
    ts = PyInt.format_zero_padded 2 (millis / 3600000) ++ ":" ++
         PyInt.format_zero_padded 2 (millis mod 3600000 / 60000) ++ ":" ++
         PyInt.format_zero_padded 2 (millis mod 3600000 mod 60000 / 1000) ++ "," ++
         PyInt.format_zero_padded 3 (millis mod 3600000 mod 60000 mod 1000).
Proof.
  intros H. destruct (millis_of seconds) as [millis|e] eqn:Hm.
  - exists millis. split; [reflexivity|].
    rewrite (timestamp_of_millis _ _ Hm) in H. now injection H as <-.
  - unfold millis_of in Hm. unfold seconds_to_srt_timestamp in H.
    rewrite Hm in H. discriminate.
Qed.



(** ** Timestamp formatter: where its range ends *)

Lemma millis_of_timestamp seconds millis :
  millis_of seconds = Ok millis -> exists ts, seconds_to_srt_timestamp seconds = Ok ts.
Proof. intros H. eexists. apply (timestamp_of_millis _ _ H). Qed.

(** Up to [LAST_FORMATTABLE] the product with a thousand is finite. *)
Lemma formattable_up_to_last seconds :
  valid_binary PyFloat.prec PyFloat.emax seconds = true ->
  non_negative seconds = true ->
  PyFloat.leb seconds LAST_FORMATTABLE = true ->
  formattable seconds = true.
Proof.
  intros Hv Hnn Hle.
  assert (exists m2, millis_of LAST_FORMATTABLE = Ok m2) as [m2 Hm2].
  { eexists. vm_compute. reflexivity. }
  destruct (millis_mono seconds LAST_FORMATTABLE m2 Hv eq_refl Hnn Hle Hm2)
    as (m1 & Hm1 & _).
  destruct (millis_of_timestamp _ _ Hm1) as [ts Hts].
  exact (timestamp_formattable _ _ Hts).
Qed.

(** From [FIRST_OVERFLOWING] on the product is an infinity. *)
Lemma overflow_from_first seconds :
  valid_binary PyFloat.prec PyFloat.emax seconds = true ->
  PyFloat.leb FIRST_OVERFLOWING seconds = true ->
  formattable seconds = false /\
  seconds_to_srt_timestamp seconds =
    Raise (OverflowError "cannot convert float infinity to integer").
Proof.
  intros Hv Hle.
  assert (forall ts, seconds_to_srt_timestamp seconds <> Ok ts) as Hno.
  { intros ts Hts. destruct (timestamp_millis _ _ Hts) as (m & Hm & _).
    destruct (millis_mono FIRST_OVERFLOWING seconds m eq_refl Hv eq_refl Hle Hm)
      as (m1 & Hm1 & _).
    vm_compute in Hm1. discriminate. }
  destruct (formattable seconds) eqn:Hf.
  { destruct (formattable_timestamp _ Hf) as [ts Hts]. now destruct (Hno ts). }
  split; [reflexivity|].
  clear Hno. unfold formattable in Hf. unfold seconds_to_srt_timestamp.
  destruct seconds as [s|s| |s mx ex]; try discriminate.
  + destruct s; [discriminate | reflexivity].
  + destruct s; [discriminate|].
    pose proof (mul_thousand_units mx ex Hv) as Hmul. cbv zeta in Hmul.
    destruct (PyFloat.mul (S754_finite false mx ex) (PyFloat.of_int 1000))
      as [s'|s'| |s' m' e'] eqn:Hp; try discriminate; [|contradiction].
    pose proof (binary_round_aux_sign false) as Hs.
    assert (s' = false) as ->; [|reflexivity].
    revert Hp. unfold PyFloat.mul, SFmul. rewrite of_int_1000.
    intros Hp. specialize (Hs (Z.pos (mx * 8796093022208000)) (ex + -43) loc_Exact).
    cbn [xorb] in Hp. rewrite Hp in Hs. exact Hs.
Qed.

(** C5, as the code has it.  For an offset that is not negative and whose
    product with a thousand is a finite float, the formatter answers with
    hours of two digits or more, never wrapped, two digits of minutes, two
    of seconds and three of milliseconds, and the text reads back as
    [round(seconds * 1000)], the float product rounded half to even.  The
    product is finite for every offset up to [LAST_FORMATTABLE], about
    1.797e305; for every offset from the next float on it is an infinity
    and the formatter raises [OverflowError]. *)
Theorem timestamp_reads_back_as_rounded_millis seconds :
  non_negative seconds = true ->
  (formattable seconds = true ->
   exists millis hh mm ss mmm,
     millis_of seconds = Ok millis /\ 0 <= millis /\
     seconds_to_srt_timestamp seconds = Ok (hh ++ ":" ++ mm ++ ":" ++ ss ++ "," ++ mmm) /\
     (2 <= String.length hh)%nat /\ String.length mm = 2%nat /\
     String.length ss = 2%nat /\ String.length mmm = 3%nat /\
     all_digits hh = true /\ all_digits mm = true /\
     all_digits ss = true /\ all_digits mmm = true /\
     decimal_value hh = Some (millis / 3600000) /\
     parse_srt_timestamp (hh ++ ":" ++ mm ++ ":" ++ ss ++ "," ++ mmm) = Some millis) /\
  (valid_binary PyFloat.prec PyFloat.emax seconds = true ->
   (PyFloat.leb seconds LAST_FORMATTABLE = true -> formattable seconds = true) /\
   (PyFloat.leb FIRST_OVERFLOWING seconds = true ->
    formattable seconds = false /\
    seconds_to_srt_timestamp seconds =
      Raise (OverflowError "cannot convert float infinity to integer"))).
Proof.
  intros Hnn. split.
  - intros Hfin. exact (reads_back_in_range seconds Hnn Hfin).
  - intros Hv. split; intros Hle.
    + exact (formattable_up_to_last seconds Hv Hnn Hle).
    + exact (overflow_from_first seconds Hv Hle).
Qed.

Lemma timestamp_reads_back_as_rounded_millis_witness :
  (exists millis hh mm ss mmm,
     millis_of f_4_25 = Ok millis /\ 0 <= millis /\
     seconds_to_srt_timestamp f_4_25 = Ok (hh ++ ":" ++ mm ++ ":" ++ ss ++ "," ++ mmm) /\
     (2 <= String.length hh)%nat /\ String.length mm = 2%nat /\
     String.length ss = 2%nat /\ String.length mmm = 3%nat /\
     all_digits hh = true /\ all_digits mm = true /\
     all_digits ss = true /\ all_digits mmm = true /\
     decimal_value hh = Some (millis / 3600000) /\
     parse_srt_timestamp (hh ++ ":" ++ mm ++ ":" ++ ss ++ "," ++ mmm) = Some millis) /\
  formattable f_4_25 = true /\
  seconds_to_srt_timestamp f_1e306 =
    Raise (OverflowError "cannot convert float infinity to integer").
Proof.
  split; [|split].
  - apply (proj1 (timestamp_reads_back_as_rounded_millis f_4_25 eq_refl)). reflexivity.
  - apply (proj1 (proj2 (timestamp_reads_back_as_rounded_millis f_4_25 eq_refl) eq_refl)).
    reflexivity.
  - apply (proj2 (proj2 (timestamp_reads_back_as_rounded_millis f_1e306 eq_refl) eq_refl)).
    reflexivity.
Defined.

(** * Further properties of the code *)

(** ** Trimming *)

Lemma rstrip_head c r :
  PyStr.rstrip (String c r) = "" \/ exists r', PyStr.rstrip (String c r) = String c r'.
Proof.
  simpl. destruct (PyStr.rstrip r); [destruct (PyStr.is_space c)|]; eauto.
Qed.

Lemma lstrip_head s :
  PyStr.lstrip s = "" \/ exists c r, PyStr.lstrip s = String c r /\ PyStr.is_space c = false.
Proof.
  induction s as [|c s IH]; simpl; [now left|].
  destruct (PyStr.is_space c) eqn:Hc; [exact IH | right; eauto].
Qed.

(** Trimming twice is trimming once. *)
Lemma strip_idem s : PyStr.strip (PyStr.strip s) = PyStr.strip s.
Proof.
  unfold PyStr.strip.
  destruct (lstrip_head s) as [-> | (c & r & -> & Hc)]; [reflexivity|].
  destruct (rstrip_head c r) as [-> | (r' & E)]; [reflexivity|].
  rewrite E, (lstrip_nonspace _ _ Hc), <- E. apply rstrip_idem.
Qed.

(** ** Pipeline orchestrator: the steps of a run *)

Lemma summarize_prompt_of client template transcript w :
  summarize_transcript client (Some template) transcript w =
  (r ← responses_create client SUMMARY_MODEL (prompt_of template transcript);
   Ok (PyStr.strip r),
   log (EvComplete SUMMARY_MODEL (prompt_of template transcript)) w).
Proof. apply summarize_transcript_eq. Qed.

(** A run past validation, step by step. *)
Lemma run_steps w path key audio summarize template :
  w_env_key w = Some key -> key <> "" ->
  w_files w !! path = Some audio ->
  let base := base_name_of path w in
  let w1 := log (EvTranscribe TRANSCRIPTION_MODEL audio) w in
  transcribe_file (Some path) summarize template w =
  match transcriptions_create (w_openai w key) TRANSCRIPTION_MODEL audio with
  | Raise e => (Raise e, w1)
  | Ok t =>
      match srt_loop 1 (segments_or_empty t) [] with
      | Raise e => (Raise e, before_captions t base w1)
      | Ok lines =>
          let w2 := after_outputs t base lines w1 in
          if summarize then
            if PyStr.is_empty (PyStr.strip template)
            then (Raise (RuntimeError MSG_EMPTY_PROMPT), w2)
            else
              let prompt := prompt_of template (PyStr.strip (default "" (tr_text t))) in
              match responses_create (w_openai w key) SUMMARY_MODEL prompt with
              | Raise e => (Raise e, log (EvComplete SUMMARY_MODEL prompt) w2)
              | Ok r =>
                  (Ok (outputs_of t base true (PyStr.strip r)),
                   (write_file (summary_path_of base) (Text (PyStr.strip r ++ nl))
                      (log (EvComplete SUMMARY_MODEL prompt) w2)).2)
              end
          else (Ok (outputs_of t base false ""), w2)
      end
  end.
Proof.
  intros Hk Hne Hf base w1.
  unfold transcribe_file, io_bind, require_api_key, timestamped_basename,
    transcriptions_create_on.
  rewrite Hk. destruct key as [|c key]; [contradiction|]. cbn [PyStr.is_empty].
  rewrite (path_exists_file _ _ _ Hf). cbn [negb]. rewrite Hf.
  fold (base_name_of path w). fold base. fold w1.
  destruct (transcriptions_create _ _ _) as [t|e]; [|reflexivity].
  destruct (srt_loop 1 (segments_or_empty t) []) as [lines|e] eqn:Hl.
  - rewrite (write_outputs_ok t base w1 lines Hl).
    destruct summarize; [|reflexivity].
    destruct (PyStr.is_empty (PyStr.strip template)); [reflexivity|].
    rewrite summarize_prompt_of. cbn [w_openai after_outputs].
    destruct (responses_create _ _ _) as [r|e]; reflexivity.
  - rewrite (write_outputs_raise t base w1 e Hl). reflexivity.
Qed.

Lemma write_file_files p c w : w_files (write_file p c w).2 = <[ p := c ]> (w_files w).
Proof. reflexivity. Qed.

Lemma write_file_trace p c w : w_trace (write_file p c w).2 = (w_trace w ++ [EvWrite p c])%list.
Proof. reflexivity. Qed.

Lemma artifacts_then (evs : list event) audio t base lines w w' :
  added_events (after_outputs t base lines (log (EvTranscribe TRANSCRIPTION_MODEL audio) w)) w' evs ->
  added_events w w' (artifact_events audio t base lines ++ evs).
Proof.
  unfold added_events. intros ->. rewrite (artifact_events_added audio t base lines w).
  now rewrite <- app_assoc.
Qed.

Lemma log_files ev w : w_files (log ev w) = w_files w.
Proof. reflexivity. Qed.

(** The files of a run once the artifacts are written. *)
Lemma artifacts_lookup audio t base lines w :
  let w2 := after_outputs t base lines (log (EvTranscribe TRANSCRIPTION_MODEL audio) w) in
  w_files w2 !! txt_path_of base =
    Some (Text (PyStr.strip (default "" (tr_text t)) ++ nl)) /\
  w_files w2 !! json_path_of base = Some (Json (transcription_to_json t)) /\
  w_files w2 !! srt_path_of base = Some (Text (srt_file_text lines)) /\
  w_files w2 !! summary_path_of base = w_files w !! summary_path_of base.
Proof.
  intros w2. subst w2. rewrite <- (log_files (EvTranscribe TRANSCRIPTION_MODEL audio) w).
  apply after_outputs_lookup.
Qed.

(** X1. Without summarization a run that passes validation, is answered by
    the transcription service and whose segment times the formatter
    accepts returns the trimmed transcript, the three artifact paths, no
    summary and the status of a plain transcription; its effects are the
    transcription call and the three artifact writes, whatever the prompt
    template is, a blank one included. *)
Theorem run_without_summary w path key audio t template :
  w_env_key w = Some key -> key <> "" ->
  w_files w !! path = Some audio ->
  transcriptions_create (w_openai w key) TRANSCRIPTION_MODEL audio = Ok t ->
  Forall segment_formattable (segments_or_empty t) ->
  let base := base_name_of path w in
  let run := transcribe_file (Some path) false template w in
  exists lines,
    srt_loop 1 (segments_or_empty t) [] = Ok lines /\
    run.1 = Ok {| transcript_text := PyStr.strip (default "" (tr_text t));
                  summary_text := "";
                  txt_path := Some (txt_path_of base);
                  srt_path := Some (srt_path_of base);
                  json_path := Some (json_path_of base);
                  summary_path := None;
                  status_markdown := CHECK_MARK ++ " Transcription complete." |} /\
    added_events w run.2 (artifact_events audio t base lines) /\
    forallb (fun ev => negb (is_completion ev)) (artifact_events audio t base lines) = true /\
    w_files run.2 !! summary_path_of base = w_files w !! summary_path_of base.
Proof.
  intros Hk Hne Hf Ht Hsegs base run.
  destruct (srt_loop_total _ Hsegs 1 []) as [lines Hl]. exists lines.
  split; [exact Hl|].
  subst run. rewrite (run_steps w path key audio false template Hk Hne Hf).
  cbv zeta. rewrite Ht, Hl. fold base. cbn [fst snd].
  split; [reflexivity|].
  split; [apply artifact_events_added|].
  split; [exact (proj1 (artifact_events_spare_summary audio t base lines))|].
  apply (artifacts_lookup audio t base lines w).
Qed.

Lemma run_without_summary_witness :
  exists lines,
    srt_loop 1 example_segments [] = Ok lines /\
    (transcribe_file (Some "uploads/meeting.mp3") false "   " example_world).1 =
      Ok {| transcript_text := "Hello World";
            summary_text := "";
            txt_path := Some "out/meeting-20240101-120000.txt";
            srt_path := Some "out/meeting-20240101-120000.srt";
            json_path := Some "out/meeting-20240101-120000.json";
            summary_path := None;
            status_markdown := CHECK_MARK ++ " Transcription complete." |}.
Proof.
  destruct (run_without_summary example_world "uploads/meeting.mp3" "sk-test" (Audio [])
              example_transcription "   ") as (lines & Hl & Hr & _);
    [reflexivity | discriminate | reflexivity | reflexivity
    | exact example_segments_formattable |].
  exists lines. split; [exact Hl | exact Hr].
Defined.

(** X2. With summarization and a prompt template that is not blank, a run
    whose two collaborators answer returns the trimmed response as the
    summary and a fourth path; after the artifact events it calls the
    completion collaborator once, with the prompt built from the template
    and the trimmed transcript, and then writes the summary file, which
    holds the trimmed response and one line feed. The three artifacts are
    still in place. *)
Theorem run_with_summary w path key audio t template response :
  w_env_key w = Some key -> key <> "" ->
  w_files w !! path = Some audio ->
  transcriptions_create (w_openai w key) TRANSCRIPTION_MODEL audio = Ok t ->
  Forall segment_formattable (segments_or_empty t) ->
  PyStr.strip template <> "" ->
  responses_create (w_openai w key) SUMMARY_MODEL
    (prompt_of template (PyStr.strip (default "" (tr_text t)))) = Ok response ->
  let base := base_name_of path w in
  let run := transcribe_file (Some path) true template w in
  exists lines,
    srt_loop 1 (segments_or_empty t) [] = Ok lines /\
    run.1 = Ok {| transcript_text := PyStr.strip (default "" (tr_text t));
                  summary_text := PyStr.strip response;
                  txt_path := Some (txt_path_of base);
                  srt_path := Some (srt_path_of base);
                  json_path := Some (json_path_of base);
                  summary_path := Some (summary_path_of base);
                  status_markdown := CHECK_MARK ++ " Transcription and summary complete." |} /\
    added_events w run.2
      (artifact_events audio t base lines ++ summary_events t base template response) /\
    w_files run.2 !! summary_path_of base = Some (Text (PyStr.strip response ++ nl)) /\
    w_files run.2 !! txt_path_of base =
      Some (Text (PyStr.strip (default "" (tr_text t)) ++ nl)) /\
    w_files run.2 !! json_path_of base = Some (Json (transcription_to_json t)) /\
    w_files run.2 !! srt_path_of base = Some (Text (srt_file_text lines)).
Proof.
  intros Hk Hne Hf Ht Hsegs Htpl Hr base run.
  destruct (srt_loop_total _ Hsegs 1 []) as [lines Hl]. exists lines.
  split; [exact Hl|].
  subst run. rewrite (run_steps w path key audio true template Hk Hne Hf).
  cbv zeta. rewrite Ht, Hl. fold base.
  apply is_empty_false in Htpl. rewrite Htpl, Hr. cbn [fst snd].
  destruct (out_paths_differ base) as (_ & _ & _ & D1 & D2 & D3).
  destruct (artifacts_lookup audio t base lines w) as (L1 & L2 & L3 & _).
  split; [reflexivity|].
  split; [apply artifacts_then; unfold added_events; rewrite write_file_trace;
          cbn [log w_trace]; now rewrite <- app_assoc|].
  rewrite write_file_files, log_files.
  split; [apply lookup_insert_eq|].
  rewrite !lookup_insert_ne by assumption.
  split; [exact L1|]. split; [exact L2 | exact L3].
Qed.

Lemma run_with_summary_witness :
  exists lines,
    srt_loop 1 example_segments [] = Ok lines /\
    (transcribe_file (Some "uploads/meeting.mp3") true "Sum up: {transcript}"
       example_world).1 =
      Ok {| transcript_text := "Hello World";
            summary_text := "Summary of: Sum up: Hello World";
            txt_path := Some "out/meeting-20240101-120000.txt";
            srt_path := Some "out/meeting-20240101-120000.srt";
            json_path := Some "out/meeting-20240101-120000.json";
            summary_path := Some "out/meeting-20240101-120000-summary.txt";
            status_markdown := CHECK_MARK ++ " Transcription and summary complete." |}.
Proof.
  destruct (run_with_summary example_world "uploads/meeting.mp3" "sk-test" (Audio [])
              example_transcription "Sum up: {transcript}"
              "Summary of: Sum up: Hello World") as (lines & Hl & Hr & _);
    [reflexivity | discriminate | reflexivity | reflexivity
    | exact example_segments_formattable | vm_compute; discriminate
    | vm_compute; reflexivity |].
  exists lines. split; [exact Hl | exact Hr].
Defined.

(** X3. When the completion collaborator raises, the run raises the same
    exception after the three artifacts are written: they stay on disk,
    the completion call is the last event and no summary file is
    written. *)
Theorem summary_failure_keeps_artifacts w path key audio t template e :
  w_env_key w = Some key -> key <> "" ->
  w_files w !! path = Some audio ->
  transcriptions_create (w_openai w key) TRANSCRIPTION_MODEL audio = Ok t ->
  Forall segment_formattable (segments_or_empty t) ->
  PyStr.strip template <> "" ->
  responses_create (w_openai w key) SUMMARY_MODEL
    (prompt_of template (PyStr.strip (default "" (tr_text t)))) = Raise e ->
  let base := base_name_of path w in
  let run := transcribe_file (Some path) true template w in
  exists lines,
    srt_loop 1 (segments_or_empty t) [] = Ok lines /\
    run.1 = Raise e /\
    added_events w run.2
      (artifact_events audio t base lines ++
       [EvComplete SUMMARY_MODEL (prompt_of template (PyStr.strip (default "" (tr_text t))))]) /\
    w_files run.2 !! txt_path_of base =
      Some (Text (PyStr.strip (default "" (tr_text t)) ++ nl)) /\
    w_files run.2 !! json_path_of base = Some (Json (transcription_to_json t)) /\
    w_files run.2 !! srt_path_of base = Some (Text (srt_file_text lines)) /\
    w_files run.2 !! summary_path_of base = w_files w !! summary_path_of base.
Proof.
  intros Hk Hne Hf Ht Hsegs Htpl Hr base run.
  destruct (srt_loop_total _ Hsegs 1 []) as [lines Hl]. exists lines.
  split; [exact Hl|].
  subst run. rewrite (run_steps w path key audio true template Hk Hne Hf).
  cbv zeta. rewrite Ht, Hl. fold base.
  apply is_empty_false in Htpl. rewrite Htpl, Hr. cbn [fst snd].
  split; [reflexivity|].
  split; [apply artifacts_then; reflexivity|].
  rewrite log_files. apply (artifacts_lookup audio t base lines w).
Qed.

Lemma summary_failure_keeps_artifacts_witness :
  exists lines,
    srt_loop 1 example_segments [] = Ok lines /\
    (transcribe_file (Some "uploads/meeting.mp3") true "Sum up: {transcript}"
       (world_with transcribing_client)).1 =
      Raise (CollaboratorError "rate limit exceeded").
Proof.
  destruct (summary_failure_keeps_artifacts (world_with transcribing_client)
              "uploads/meeting.mp3" "sk-test" (Audio []) example_transcription
              "Sum up: {transcript}" (CollaboratorError "rate limit exceeded"))
    as (lines & Hl & Hr & _);
    [reflexivity | discriminate | reflexivity | reflexivity
    | exact example_segments_formattable | vm_compute; discriminate
    | vm_compute; reflexivity |].
  exists lines. split; [exact Hl | exact Hr].
Defined.

(** X4. When the transcription collaborator raises, the run raises the
    same exception with or without summarization; the call is its only
    effect: no directory is made and no file is written. *)
Theorem transcription_failure_writes_nothing w path key audio summarize template e :
  w_env_key w = Some key -> key <> "" ->
  w_files w !! path = Some audio ->
  transcriptions_create (w_openai w key) TRANSCRIPTION_MODEL audio = Raise e ->
  let run := transcribe_file (Some path) summarize template w in
  run.1 = Raise e /\
  added_events w run.2 [EvTranscribe TRANSCRIPTION_MODEL audio] /\
  w_files run.2 = w_files w /\
  w_dirs run.2 = w_dirs w.
Proof.
  intros Hk Hne Hf Ht run. subst run.
  rewrite (run_steps w path key audio summarize template Hk Hne Hf).
  cbv zeta. rewrite Ht. repeat split.
Qed.

Lemma transcription_failure_writes_nothing_witness :
  let run := transcribe_file (Some "uploads/meeting.mp3") true "Sum up"
               (world_with unreachable_client) in
  run.1 = Raise (CollaboratorError "connection refused") /\
  w_files run.2 = w_files example_world.
Proof.
  destruct (transcription_failure_writes_nothing (world_with unreachable_client)
              "uploads/meeting.mp3" "sk-test" (Audio []) true "Sum up"
              (CollaboratorError "connection refused")) as (Hr & _ & Hfiles & _);
    [reflexivity | discriminate | reflexivity | reflexivity |].
  split; [exact Hr | exact Hfiles].
Defined.


Lemma log_trace_ne ev (l : list event) : (l ++ [ev])%list <> l.
Proof.
  intros H. apply (f_equal (@List.length event)) in H.
  rewrite length_app in H. simpl in H. lia.
Qed.

(** Where a run on a path can end. *)
Lemma run_reached path summarize template w :
  reached w path summarize (transcribe_file (Some path) summarize template w).2.
Proof.
  destruct (w_env_key w) as [key|] eqn:Hk.
  2:{ unfold transcribe_file, io_bind, require_api_key. rewrite Hk. constructor. }
  destruct key as [|c key].
  { unfold transcribe_file, io_bind, require_api_key. rewrite Hk. constructor. }
  destruct (w_files w !! path) as [audio|] eqn:Hf.
  - rewrite (run_steps w path _ audio summarize template Hk ltac:(discriminate) Hf).
    cbv zeta.
    destruct (transcriptions_create _ _ _) as [t|e]; [|constructor].
    destruct (srt_loop 1 (segments_or_empty t) []) as [lines|e]; [|constructor].
    destruct summarize; [|constructor].
    destruct (PyStr.is_empty (PyStr.strip template)); [constructor|].
    destruct (responses_create _ _ _); cbn [snd];
      [apply reached_summary | apply reached_completion]; reflexivity.
  - unfold transcribe_file, io_bind, require_api_key, timestamped_basename,
      transcriptions_create_on.
    rewrite Hk. cbn [PyStr.is_empty].
    destruct (path_exists path w); cbn [negb]; [rewrite Hf|]; constructor.
Qed.

(** X5. A run that is given no path, finds no credential, or whose path
    names no file (a missing path, or a directory, which passes the
    existence check and fails when opened) raises and leaves the world as
    it was: no collaborator is called and nothing is written. *)
Theorem unstartable_run_changes_nothing file_path summarize template w :
  ~ startable file_path w ->
  exists e, transcribe_file file_path summarize template w = (Raise e, w).
Proof.
  intros Hno. destruct file_path as [path|]; [|eexists; reflexivity].
  unfold transcribe_file, io_bind, require_api_key, timestamped_basename,
    transcriptions_create_on.
  destruct (w_env_key w) as [key|] eqn:Hk; [|eexists; reflexivity].
  destruct key as [|c key]; [eexists; reflexivity|]. cbn [PyStr.is_empty].
  destruct (path_exists path w); cbn [negb]; [|eexists; reflexivity].
  destruct (w_files w !! path) as [audio|] eqn:Hf; [|eexists; reflexivity].
  exfalso. apply Hno. exists path, (String c key), audio. repeat split; auto.
Qed.

Lemma unstartable_run_changes_nothing_witness :
  let w := (mkdir "uploads" example_world).2 in
  path_exists "uploads" w = true /\
  exists e, transcribe_file (Some "uploads") true "Sum up" w = (Raise e, w).
Proof.
  split; [reflexivity|].
  apply (unstartable_run_changes_nothing (Some "uploads") true "Sum up").
  intros (path & key & audio & Hp & _ & _ & Hf).
  injection Hp as <-. vm_compute in Hf. discriminate.
Defined.

(** X6. A startable run calls the transcription collaborator first, on
    the content of the file, before anything is written; so a run
    changes the world exactly when it is startable. *)
Theorem startable_run_transcribes_first file_path summarize template w :
  startable file_path w ->
  exists path audio evs,
    file_path = Some path /\ w_files w !! path = Some audio /\
    added_events w (transcribe_file file_path summarize template w).2
      (EvTranscribe TRANSCRIPTION_MODEL audio :: evs) /\
    (transcribe_file file_path summarize template w).2 <> w.
Proof.
  intros (path & key & audio & -> & Hk & Hne & Hf).
  assert (exists evs, added_events w (transcribe_file (Some path) summarize template w).2
                        (EvTranscribe TRANSCRIPTION_MODEL audio :: evs)) as [evs Hevs].
  { rewrite (run_steps w path key audio summarize template Hk Hne Hf). cbv zeta.
    destruct (transcriptions_create _ _ _) as [t|e]; [|exists []; reflexivity].
    destruct (srt_loop 1 (segments_or_empty t) []) as [lines|e];
      [|eexists; apply before_captions_added].
    assert (forall w', (exists evs', added_events
                (after_outputs t (base_name_of path w) lines
                   (log (EvTranscribe TRANSCRIPTION_MODEL audio) w)) w' evs') ->
              exists evs, added_events w w' (EvTranscribe TRANSCRIPTION_MODEL audio :: evs)) as Hthen.
    { intros w' [evs' H]. eexists.
      exact (artifacts_then evs' audio t _ lines w w' H). }
    destruct summarize; [|apply Hthen; exists []; apply added_nothing].
    destruct (PyStr.is_empty (PyStr.strip template));
      [apply Hthen; exists []; apply added_nothing|].
    destruct (responses_create _ _ _); apply Hthen; eexists; cbn [snd];
      unfold added_events; [rewrite write_file_trace|]; cbn [log w_trace];
      [rewrite <- app_assoc|]; reflexivity. }
  exists path, audio, evs. repeat split; auto.
  intros Heq. unfold added_events in Hevs. rewrite Heq in Hevs.
  symmetry in Hevs. revert Hevs.
  change (EvTranscribe TRANSCRIPTION_MODEL audio :: evs)
    with ([EvTranscribe TRANSCRIPTION_MODEL audio] ++ evs)%list.
  intros Hevs. apply (f_equal (@List.length event)) in Hevs.
  rewrite !length_app in Hevs. simpl in Hevs. lia.
Qed.

Lemma startable_run_transcribes_first_witness :
  exists evs,
    added_events example_world
      (transcribe_file (Some "uploads/meeting.mp3") false "" example_world).2
      (EvTranscribe TRANSCRIPTION_MODEL (Audio []) :: evs).
Proof.
  destruct (startable_run_transcribes_first (Some "uploads/meeting.mp3") false ""
              example_world) as (path & audio & evs & Hp & Hf & Hevs & _).
  { exists "uploads/meeting.mp3", "sk-test", (Audio []).
    repeat split; [discriminate]. }
  injection Hp as <-. vm_compute in Hf. injection Hf as <-.
  exists evs. exact Hevs.
Defined.

(** ** Pipeline orchestrator: what a run leaves alone *)

Lemma out_path_app base ext : out_path (base ++ ext) = out_path base ++ ext.
Proof. unfold out_path. now rewrite !string_app_assoc. Qed.

Lemma outputs_share_base base :
  String.prefix (out_path base) (txt_path_of base) = true /\
  String.prefix (out_path base) (json_path_of base) = true /\
  String.prefix (out_path base) (srt_path_of base) = true /\
  String.prefix (out_path base) (summary_path_of base) = true.
Proof.
  unfold txt_path_of, json_path_of, srt_path_of, summary_path_of.
  rewrite !out_path_app. repeat split; apply prefix_app.
Qed.

Lemma not_an_output base p :
  String.prefix (out_path base) p = false ->
  txt_path_of base <> p /\ json_path_of base <> p /\ srt_path_of base <> p /\
  summary_path_of base <> p.
Proof.
  intros Hp. destruct (outputs_share_base base) as (H1 & H2 & H3 & H4).
  repeat split; intros <-; congruence.
Qed.

Lemma before_captions_files t base w :
  w_files (before_captions t base w) =
  <[ json_path_of base := Json (transcription_to_json t) ]>
    (<[ txt_path_of base := Text (PyStr.strip (default "" (tr_text t)) ++ nl) ]>
       (w_files w)).
Proof. reflexivity. Qed.

Lemma after_outputs_rest t base lines w :
  w_env_key (after_outputs t base lines w) = w_env_key w /\
  w_now (after_outputs t base lines w) = w_now w /\
  w_openai (after_outputs t base lines w) = w_openai w /\
  w_dirs (after_outputs t base lines w) = {[ OUT_DIR ]} ∪ w_dirs w.
Proof. repeat split. Qed.

Lemma before_captions_rest t base w :
  w_env_key (before_captions t base w) = w_env_key w /\
  w_now (before_captions t base w) = w_now w /\
  w_openai (before_captions t base w) = w_openai w /\
  w_dirs (before_captions t base w) = {[ OUT_DIR ]} ∪ w_dirs w.
Proof. repeat split. Qed.

(** What every world a run can end in has in common with the first. *)
Lemma reached_frame w path summarize w' :
  reached w path summarize w' ->
  w_env_key w' = w_env_key w /\ w_now w' = w_now w /\ w_openai w' = w_openai w /\
  (w_dirs w' = w_dirs w \/ w_dirs w' = {[ OUT_DIR ]} ∪ w_dirs w) /\
  forall p, String.prefix (out_path (base_name_of path w)) p = false ->
            w_files w' !! p = w_files w !! p.
Proof.
  intros H.
  assert (forall p audio t lines,
            String.prefix (out_path (base_name_of path w)) p = false ->
            w_files (after_outputs t (base_name_of path w) lines
                       (log (EvTranscribe TRANSCRIPTION_MODEL audio) w)) !! p =
            w_files w !! p) as Hafter.
  { intros p audio t lines Hp.
    destruct (not_an_output _ _ Hp) as (N1 & N2 & N3 & _).
    rewrite after_outputs_files, !lookup_insert_ne by assumption. reflexivity. }
  destruct H as [|audio|audio t|audio t lines|audio t lines prompt _
                |audio t lines prompt text _].
  - repeat split; auto.
  - repeat split; auto.
  - repeat split; auto. intros p Hp.
    destruct (not_an_output _ _ Hp) as (N1 & N2 & _).
    rewrite before_captions_files, !lookup_insert_ne by assumption. reflexivity.
  - repeat split; auto.
  - repeat split; auto. intros p Hp. rewrite log_files. auto.
  - repeat split; auto. intros p Hp.
    destruct (not_an_output _ _ Hp) as (_ & _ & _ & N4).
    rewrite write_file_files, lookup_insert_ne by assumption.
    rewrite log_files. auto.
Qed.

(** X7. Whatever its outcome, a run leaves the credential, the clock and
    the service as they are, makes no directory but [out], and touches no
    file but those whose path starts with [out/<stem>-<timestamp>]; the
    prompt store is among the files it leaves alone. *)
Theorem run_touches_only_its_outputs path summarize template w :
  let w' := (transcribe_file (Some path) summarize template w).2 in
  w_env_key w' = w_env_key w /\ w_now w' = w_now w /\ w_openai w' = w_openai w /\
  (w_dirs w' = w_dirs w \/ w_dirs w' = {[ OUT_DIR ]} ∪ w_dirs w) /\
  (forall p, String.prefix (out_path (base_name_of path w)) p = false ->
             w_files w' !! p = w_files w !! p) /\
  w_files w' !! PROMPTS_PATH = w_files w !! PROMPTS_PATH.
Proof.
  intros w'.
  destruct (reached_frame w path summarize w' (run_reached path summarize template w))
    as (H1 & H2 & H3 & H4 & H5).
  repeat split; auto.
Qed.

Lemma reached_events w path summarize w' :
  reached w path summarize w' ->
  exists audio t lines prompt text evs,
    added_events w w' evs /\
    evs `prefix_of`
      run_events summarize audio t (base_name_of path w) lines prompt text.
Proof.
  intros H.
  destruct H as [|audio|audio t|audio t lines|audio t lines prompt Hs
                |audio t lines prompt text Hs].
  - exists (Audio []), bare_transcription, [], "", "", [].
    split; [apply added_nothing | eexists; reflexivity].
  - exists audio, bare_transcription, [], "", "", [EvTranscribe TRANSCRIPTION_MODEL audio].
    split; [reflexivity | eexists; reflexivity].
  - exists audio, t, [], "", "". eexists.
    split; [apply before_captions_added | eexists; reflexivity].
  - exists audio, t, lines, "", "". eexists.
    split; [apply artifact_events_added | eexists; reflexivity].
  - subst summarize. exists audio, t, lines, prompt, "". eexists.
    split; [apply artifacts_then; reflexivity|].
    unfold run_events. eexists. rewrite <- app_assoc. reflexivity.
  - subst summarize. exists audio, t, lines, prompt, text. eexists.
    split; [apply artifacts_then; unfold added_events; rewrite write_file_trace;
            cbn [log w_trace]; rewrite <- app_assoc; reflexivity|].
    exists []. unfold run_events. now rewrite app_nil_r.
Qed.

(** X8. The effects of any run, complete or not, are an initial part of
    one sequence: the transcription call, the directory, the transcript,
    the raw record, the captions and, with summarization only, the
    completion call and the summary file. So each collaborator is called
    at most once, nothing is written before the transcription is there,
    and the completion collaborator is called only after the three
    artifacts are written. *)
Theorem run_effects_in_order path summarize template w :
  exists audio t lines prompt text evs,
    added_events w (transcribe_file (Some path) summarize template w).2 evs /\
    evs `prefix_of`
      run_events summarize audio t (base_name_of path w) lines prompt text.
Proof. apply reached_events, run_reached. Qed.


(** X9. Two uploads with the same stem that are processed within one
    second get the same base name: the second run returns the paths of
    the first and replaces its transcript, so the files of the first run
    are lost. *)
Theorem same_stem_same_second_overwrites w path1 path2 key audio1 audio2 t1 t2
    template1 template2 :
  w_env_key w = Some key -> key <> "" ->
  w_files w !! path1 = Some audio1 ->
  w_files w !! path2 = Some audio2 ->
  String.prefix "out/" path2 = false ->
  path_stem path1 = path_stem path2 ->
  transcriptions_create (w_openai w key) TRANSCRIPTION_MODEL audio1 = Ok t1 ->
  transcriptions_create (w_openai w key) TRANSCRIPTION_MODEL audio2 = Ok t2 ->
  Forall segment_formattable (segments_or_empty t1) ->
  Forall segment_formattable (segments_or_empty t2) ->
  let run1 := transcribe_file (Some path1) false template1 w in
  let run2 := transcribe_file (Some path2) false template2 run1.2 in
  exists o1 o2,
    run1.1 = Ok o1 /\ run2.1 = Ok o2 /\
    txt_path o2 = txt_path o1 /\ srt_path o2 = srt_path o1 /\
    json_path o2 = json_path o1 /\
    w_files run1.2 !! txt_path_of (base_name_of path1 w) =
      Some (Text (PyStr.strip (default "" (tr_text t1)) ++ nl)) /\
    w_files run2.2 !! txt_path_of (base_name_of path1 w) =
      Some (Text (PyStr.strip (default "" (tr_text t2)) ++ nl)) /\
    w_files run2.2 !! json_path_of (base_name_of path1 w) =
      Some (Json (transcription_to_json t2)).
Proof.
  intros Hk Hne Hf1 Hf2 Hout Hstem Ht1 Ht2 Hs1 Hs2 run1 run2.
  destruct (srt_loop_total _ Hs1 1 []) as [lines1 Hl1].
  destruct (srt_loop_total _ Hs2 1 []) as [lines2 Hl2].
  assert (run1 = (Ok (outputs_of t1 (base_name_of path1 w) false ""),
                  after_outputs t1 (base_name_of path1 w) lines1
                    (log (EvTranscribe TRANSCRIPTION_MODEL audio1) w))) as E1.
  { subst run1. rewrite (run_steps w path1 key audio1 false template1 Hk Hne Hf1).
    cbv zeta. now rewrite Ht1, Hl1. }
  set (w1 := after_outputs t1 (base_name_of path1 w) lines1
               (log (EvTranscribe TRANSCRIPTION_MODEL audio1) w)) in *.
  assert (base_name_of path2 w1 = base_name_of path1 w) as Hbase.
  { unfold base_name_of. now rewrite Hstem. }
  assert (w_files w1 !! path2 = Some audio2) as Hf2'.
  { subst w1. rewrite after_outputs_files, log_files.
    assert (forall base ext, out_path (base ++ ext) <> path2) as Hne2.
    { intros base ext <-.
      change (out_path (base ++ ext)) with ("out/" ++ (base ++ ext)) in Hout.
      rewrite prefix_app in Hout. discriminate. }
    rewrite !lookup_insert_ne by apply Hne2. exact Hf2. }
  assert (run2 = (Ok (outputs_of t2 (base_name_of path1 w) false ""),
                  after_outputs t2 (base_name_of path1 w) lines2
                    (log (EvTranscribe TRANSCRIPTION_MODEL audio2) w1))) as E2.
  { subst run2. rewrite E1. cbn [snd].
    rewrite (run_steps w1 path2 key audio2 false template2 Hk Hne Hf2').
    cbv zeta. change (w_openai w1) with (w_openai w). rewrite Ht2, Hl2, Hbase.
    reflexivity. }
  exists (outputs_of t1 (base_name_of path1 w) false ""),
         (outputs_of t2 (base_name_of path1 w) false "").
  rewrite E1, E2. cbn [fst snd].
  destruct (artifacts_lookup audio1 t1 (base_name_of path1 w) lines1 w) as (L1 & _).
  destruct (artifacts_lookup audio2 t2 (base_name_of path1 w) lines2 w1) as (M1 & M2 & _).
  repeat split; assumption.
Qed.

Lemma same_stem_same_second_overwrites_witness :
  let run1 := transcribe_file (Some "uploads/meeting.mp3") false "" two_uploads_world in
  let run2 := transcribe_file (Some "inbox/meeting.wav") false "" run1.2 in
  w_files run1.2 !! "out/meeting-20240101-120000.txt" = Some (Text ("first recording" ++ nl)) /\
  w_files run2.2 !! "out/meeting-20240101-120000.txt" = Some (Text ("second recording" ++ nl)).
Proof.
  destruct (same_stem_same_second_overwrites two_uploads_world
              "uploads/meeting.mp3" "inbox/meeting.wav" "sk-test"
              (Audio []) (Audio ["a"%char])
              {| tr_text := Some "first recording"; tr_segments := SegMissing |}
              {| tr_text := Some "second recording"; tr_segments := SegMissing |}
              "" "")
    as (o1 & o2 & _ & _ & _ & _ & _ & H1 & H2 & _);
    [reflexivity | discriminate | reflexivity | reflexivity | reflexivity | reflexivity
    | reflexivity | reflexivity | constructor | constructor |].
  split; [exact H1 | exact H2].
Defined.

(** ** Artifact writer: a time the formatter turns down *)

Lemma unformattable_raises x :
  formattable x = false ->
  exists msg, seconds_to_srt_timestamp x = Raise (OverflowError msg) \/
              seconds_to_srt_timestamp x = Raise (ValueError msg).
Proof.
  unfold formattable, seconds_to_srt_timestamp.
  destruct (PyFloat.mul x (PyFloat.of_int 1000)) as [s|s| |s m e]; try discriminate;
    intros _; eexists; [left | right]; reflexivity.
Qed.

Lemma srt_loop_unformattable segments :
  Exists segment_unformattable segments ->
  forall idx srt_lines,
  exists msg, srt_loop idx segments srt_lines = Raise (OverflowError msg) \/
              srt_loop idx segments srt_lines = Raise (ValueError msg).
Proof.
  induction 1 as [s rest [Hs|He]|s rest _ IH]; intros idx acc; rewrite srt_loop_cons.
  - destruct (unformattable_raises _ Hs) as [msg [-> | ->]]; exists msg; auto.
  - destruct (seconds_to_srt_timestamp (segment_start s)) as [a|e] eqn:Ha.
    + destruct (unformattable_raises _ He) as [msg [-> | ->]]; exists msg; auto.
    + apply Bool.not_true_iff_false in He.
      destruct (formattable (segment_start s)) eqn:Hf.
      * apply formattable_timestamp in Hf as [ts Hts]. congruence.
      * destruct (unformattable_raises _ Hf) as [msg [H | H]];
          rewrite Ha in H; injection H as ->; exists msg; auto.
  - destruct (seconds_to_srt_timestamp (segment_start s)) as [a|e] eqn:Ha.
    + destruct (seconds_to_srt_timestamp (segment_end s)) as [b|e] eqn:Hb.
      * cbn [mbind result_bind]. destruct (PyStr.is_empty _); apply IH.
      * destruct (formattable (segment_end s)) eqn:Hf.
        -- apply formattable_timestamp in Hf as [ts Hts]. congruence.
        -- destruct (unformattable_raises _ Hf) as [msg [H | H]];
             rewrite Hb in H; injection H as ->; exists msg; auto.
    + destruct (formattable (segment_start s)) eqn:Hf.
      * apply formattable_timestamp in Hf as [ts Hts]. congruence.
      * destruct (unformattable_raises _ Hf) as [msg [H | H]];
          rewrite Ha in H; injection H as ->; exists msg; auto.
Qed.

(** X10. The writer formats the two times of every segment before it
    looks at the text: one segment with a time beyond the formatter's
    range makes the writer raise the formatter's [OverflowError] or
    [ValueError], even if that segment has no text. The transcript and the
    raw record are written by then; the caption file is not touched. *)
Theorem writer_raises_on_unformattable_time t base w :
  Exists segment_unformattable (segments_or_empty t) ->
  let run := write_transcription_outputs t base w in
  (exists msg, run.1 = Raise (OverflowError msg) \/ run.1 = Raise (ValueError msg)) /\
  w_files run.2 !! txt_path_of base =
    Some (Text (PyStr.strip (default "" (tr_text t)) ++ nl)) /\
  w_files run.2 !! json_path_of base = Some (Json (transcription_to_json t)) /\
  w_files run.2 !! srt_path_of base = w_files w !! srt_path_of base.
Proof.
  intros Hex run.
  destruct (srt_loop_unformattable _ Hex 1 []) as [msg Hl].
  destruct (out_paths_differ base) as (D1 & D2 & D3 & _).
  assert (exists e, srt_loop 1 (segments_or_empty t) [] = Raise e /\
                    (e = OverflowError msg \/ e = ValueError msg)) as (e & He & Hkind).
  { destruct Hl as [-> | ->]; eexists; split; eauto. }
  subst run. rewrite (write_outputs_raise t base w e He). cbn [fst snd].
  split; [exists msg; destruct Hkind as [-> | ->]; auto|].
  rewrite before_captions_files.
  split; [rewrite lookup_insert_ne by (intros E; apply D1; now symmetry);
          apply lookup_insert_eq|].
  split; [apply lookup_insert_eq|].
  rewrite !lookup_insert_ne by assumption. reflexivity.
Qed.

Lemma writer_raises_on_unformattable_time_witness :
  segment_text {| seg_start := Some f_1e306; seg_end := Some f_1e306; seg_text := Some "" |} = "" /\
  exists msg,
    (write_transcription_outputs overlong_transcription "talk" example_world).1 =
      Raise (OverflowError msg) \/
    (write_transcription_outputs overlong_transcription "talk" example_world).1 =
      Raise (ValueError msg).
Proof.
  split; [reflexivity|].
  apply (writer_raises_on_unformattable_time overlong_transcription "talk" example_world).
  constructor. left. vm_compute. reflexivity.
Defined.


(** ** Prompt library: first use, unreadable stores, repeated saves *)

Section PromptLibraryMore.

Variable str_of_json : json -> string.

Lemma store_exists w c : w_files w !! PROMPTS_PATH = Some c -> path_exists PROMPTS_PATH w = true.
Proof. apply path_exists_file. Qed.

Lemma ensure_existing w :
  path_exists PROMPTS_PATH w = true ->
  ensure_prompt_library str_of_json w = read_prompts str_of_json w.
Proof. intros H. unfold ensure_prompt_library, io_bind. now rewrite H. Qed.

Lemma read_prompts_world w : (read_prompts str_of_json w).2 = w.
Proof.
  unfold read_prompts.
  destruct (w_files w !! PROMPTS_PATH) as [[s|[]|b]|]; reflexivity.
Qed.

(** What a save leaves in the world where the library [lib] was read. *)
Lemma save_prompt_eq w lib w1 prompt_name prompt_text :
  ensure_prompt_library str_of_json w = (Ok lib, w1) ->
  save_prompt str_of_json prompt_name prompt_text w =
  (Ok tt,
   (write_file PROMPTS_PATH
      (Json (prompts_to_json (<[ prompt_name := prompt_text ]> lib))) w1).2).
Proof. intros He. unfold save_prompt, io_bind. now rewrite He. Qed.

Lemma ensure_after_write lib w :
  dict_wf lib ->
  let w' := (write_file PROMPTS_PATH (Json (prompts_to_json lib)) w).2 in
  ensure_prompt_library str_of_json w' = (Ok lib, w').
Proof.
  intros Hwf w'. apply read_written_prompts; [exact Hwf|]. subst w'.
  rewrite write_file_files. apply lookup_insert_eq.
Qed.

(** A key without a value is not among the keys. *)
Lemma get_item_none key (items : list (string * string)) :
  get_item key items = None -> key ∉ items.*1.
Proof.
  induction items as [|[k v] rest IH]; csimpl; [intros _; apply not_elem_of_nil|].
  destruct (String.eqb k key) eqn:E; [discriminate|].
  intros H. apply not_elem_of_cons. split; [|now apply IH].
  apply String.eqb_neq in E. congruence.
Qed.

(** A library that was read is read again as it is. *)
Lemma ensure_ok_again w lib w1 :
  ensure_prompt_library str_of_json w = (Ok lib, w1) ->
  ensure_prompt_library str_of_json w1 = (Ok lib, w1).
Proof.
  intros He. destruct (path_exists PROMPTS_PATH w) eqn:Hex.
  - rewrite (ensure_existing w Hex) in He.
    pose proof (read_prompts_world w) as Hw. rewrite He in Hw. cbn [snd] in Hw.
    subst w1. now rewrite (ensure_existing w Hex).
  - rewrite (ensure_creates_defaults str_of_json w Hex) in He.
    pose proof (f_equal fst He) as H1. pose proof (f_equal snd He) as H2.
    cbn [fst snd] in H1, H2. assert (DEFAULT_PROMPTS = lib) as <- by congruence.
    subst w1. apply ensure_after_write, default_prompts_wf.
Qed.

(** A store that holds no JSON object cannot be read, and is not written. *)
Lemma unreadable_store_raises w c :
  w_files w !! PROMPTS_PATH = Some c ->
  (forall items, c <> Json (JObj items)) ->
  exists e, ensure_prompt_library str_of_json w = (Raise e, w).
Proof.
  intros Hf Hc.
  rewrite (ensure_existing w (store_exists w c Hf)). unfold read_prompts. rewrite Hf.
  destruct c as [s|[]|b]; eauto. now destruct (Hc fields).
Qed.

(** X11. A second call of [ensure_prompt_library] changes nothing and
    returns what the first returned, whether the first created the store,
    read it, or raised. *)
Theorem ensure_prompt_library_idempotent w :
  let first := ensure_prompt_library str_of_json w in
  ensure_prompt_library str_of_json first.2 = (first.1, first.2).
Proof.
  intros first. subst first.
  destruct (path_exists PROMPTS_PATH w) eqn:Hex.
  - rewrite (ensure_existing w Hex), read_prompts_world, (ensure_existing w Hex).
    pose proof (read_prompts_world w) as Hw.
    destruct (read_prompts str_of_json w) as [r w']. cbn [fst snd] in *. now subst w'.
  - rewrite (ensure_creates_defaults str_of_json w Hex). cbn [fst snd].
    apply ensure_after_write, default_prompts_wf.
Qed.

(** X12. A store that exists but does not hold a JSON object (text that
    is no JSON, or a JSON value of another kind) makes the three library
    functions raise; none of them writes: the store is neither repaired
    nor replaced by the defaults, and a save is lost. *)
Theorem unreadable_store_is_left_alone w c prompt_name prompt_text :
  w_files w !! PROMPTS_PATH = Some c ->
  (forall items, c <> Json (JObj items)) ->
  exists e,
    ensure_prompt_library str_of_json w = (Raise e, w) /\
    load_prompt_text str_of_json prompt_name w = (Raise e, w) /\
    save_prompt str_of_json prompt_name prompt_text w = (Raise e, w).
Proof.
  intros Hf Hc.
  destruct (unreadable_store_raises w c Hf Hc) as [e He].
  exists e. unfold load_prompt_text, save_prompt, io_bind. now rewrite He.
Qed.

(** X13. The first save into a world without a store writes the defaults
    and then the library with the new entry: the defaults are kept, the
    store is written twice, and the new text replaces a default of the
    same name. *)
Theorem first_save_keeps_defaults w prompt_name prompt_text :
  path_exists PROMPTS_PATH w = false ->
  let run := save_prompt str_of_json prompt_name prompt_text w in
  run.1 = Ok tt /\
  added_events w run.2
    [EvWrite PROMPTS_PATH (Json (prompts_to_json DEFAULT_PROMPTS));
     EvWrite PROMPTS_PATH
       (Json (prompts_to_json (<[ prompt_name := prompt_text ]> DEFAULT_PROMPTS)))] /\
  ensure_prompt_library str_of_json run.2 =
    (Ok (<[ prompt_name := prompt_text ]> DEFAULT_PROMPTS), run.2) /\
  forall other,
    other <> prompt_name ->
    load_prompt_text str_of_json other run.2 =
      (Ok (default "" (DEFAULT_PROMPTS !! other)), run.2).
Proof.
  intros Hex run. subst run.
  rewrite (save_prompt_eq w _ _ prompt_name prompt_text
             (ensure_creates_defaults str_of_json w Hex)).
  cbn [fst snd].
  split; [reflexivity|].
  split; [unfold added_events; rewrite !write_file_trace; now rewrite <- app_assoc|].
  assert (dict_wf (<[ prompt_name := prompt_text ]> DEFAULT_PROMPTS)) as Hwf
    by apply dict_insert_wf, default_prompts_wf.
  split; [apply ensure_after_write, Hwf|].
  intros other Hne. unfold load_prompt_text, io_bind, io_ret.
  rewrite ensure_after_write by exact Hwf.
  now rewrite dict_lookup_insert_ne by congruence.
Qed.

(** X14. Two saves under different names give the same library in
    either order: every name loads the same text afterwards. The store
    lists a new name after the names it had, so for two names that are
    both new the two orders leave different files. Two saves under one
    name leave the text of the second. *)
Theorem saves_commute_up_to_order w lib w1 name1 text1 name2 text2 :
  ensure_prompt_library str_of_json w = (Ok lib, w1) ->
  let after (first second : string * string) :=
    (save_prompt str_of_json second.1 second.2
       (save_prompt str_of_json first.1 first.2 w).2).2 in
  (name1 <> name2 ->
   forall name,
     (load_prompt_text str_of_json name (after (name1, text1) (name2, text2))).1 =
     (load_prompt_text str_of_json name (after (name2, text2) (name1, text1))).1) /\
  (name1 <> name2 -> lib !! name1 = None -> lib !! name2 = None ->
   w_files (after (name1, text1) (name2, text2)) !! PROMPTS_PATH <>
   w_files (after (name2, text2) (name1, text1)) !! PROMPTS_PATH) /\
  w_files (after (name1, text1) (name1, text2)) !! PROMPTS_PATH =
    Some (Json (prompts_to_json (<[ name1 := text2 ]> lib))).
Proof.
  intros He after.
  pose proof (ensure_ok_wf str_of_json w lib w1 He) as Hwf.
  assert (forall n1 t1 n2 t2,
            ensure_prompt_library str_of_json (after (n1, t1) (n2, t2)) =
              (Ok (<[ n2 := t2 ]> (<[ n1 := t1 ]> lib)), after (n1, t1) (n2, t2)) /\
            w_files (after (n1, t1) (n2, t2)) !! PROMPTS_PATH =
              Some (Json (prompts_to_json (<[ n2 := t2 ]> (<[ n1 := t1 ]> lib)))))
    as Hafter.
  { intros n1 t1 n2 t2. subst after. cbn [fst snd].
    assert (dict_wf (<[ n1 := t1 ]> lib)) as Hwf1 by now apply dict_insert_wf.
    rewrite (save_prompt_eq w lib w1 n1 t1 He). cbn [snd].
    rewrite (save_prompt_eq _ _ _ n2 t2 (ensure_after_write (<[ n1 := t1 ]> lib) w1 Hwf1)).
    cbn [snd]. split.
    - apply ensure_after_write. now apply dict_insert_wf.
    - rewrite write_file_files. apply lookup_insert_eq. }
  split; [|split].
  - intros Hne name. unfold load_prompt_text, io_bind, io_ret.
    rewrite (proj1 (Hafter name1 text1 name2 text2)),
            (proj1 (Hafter name2 text2 name1 text1)).
    cbn [fst]. do 2 f_equal.
    destruct (decide (name = name1)) as [->|N1].
    + rewrite dict_lookup_insert_ne, !dict_lookup_insert_eq by congruence. reflexivity.
    + destruct (decide (name = name2)) as [->|N2].
      * rewrite dict_lookup_insert_eq, dict_lookup_insert_ne, dict_lookup_insert_eq
          by congruence. reflexivity.
      * rewrite !dict_lookup_insert_ne by congruence. reflexivity.
  - intros Hne H1 H2.
    rewrite (proj2 (Hafter name1 text1 name2 text2)),
            (proj2 (Hafter name2 text2 name1 text1)).
    apply get_item_none in H1, H2.
    unfold prompts_to_json, insert, dict_insert. cbn [dict_items].
    rewrite (set_item_fresh name1 text1), (set_item_fresh name2 text2 (dict_items lib))
      by assumption.
    rewrite !set_item_fresh
      by (rewrite fmap_app, elem_of_app; intros [Hin|Hin]; [contradiction|];
          apply list_elem_of_singleton in Hin; simpl in Hin; congruence).
    rewrite <- !app_assoc, !fmap_app. intros Heq.
    injection Heq as Heq. apply app_inv_head in Heq.
    injection Heq as Heq _. contradiction.
  - rewrite (proj2 (Hafter name1 text1 name1 text2)).
    now rewrite dict_insert_insert_eq.
Qed.

End PromptLibraryMore.

Lemma unreadable_store_is_left_alone_witness :
  let w := (write_file PROMPTS_PATH (Text "{ not json") example_world).2 in
  exists e,
    ensure_prompt_library (fun _ => "") w = (Raise e, w) /\
    load_prompt_text (fun _ => "") "General Summary" w = (Raise e, w) /\
    save_prompt (fun _ => "") "Mine" "Sum up" w = (Raise e, w).
Proof.
  apply (unreadable_store_is_left_alone (fun _ => "")
           (write_file PROMPTS_PATH (Text "{ not json") example_world).2
           (Text "{ not json") "General Summary" "Sum up").
  - reflexivity.
  - discriminate.
Defined.

Lemma first_save_keeps_defaults_witness :
  let run := save_prompt (fun _ => "") "Mine" "Sum up" example_world in
  run.1 = Ok tt /\
  load_prompt_text (fun _ => "") "LB Update (one line)" run.2 =
    (Ok (default "" (DEFAULT_PROMPTS !! "LB Update (one line)")), run.2).
Proof.
  destruct (first_save_keeps_defaults (fun _ => "") example_world "Mine" "Sum up")
    as (H1 & _ & _ & H4); [reflexivity|].
  split; [exact H1 | apply H4; discriminate].
Defined.

Lemma saves_commute_up_to_order_witness :
  let after (first second : string * string) :=
    (save_prompt (fun _ => "") second.1 second.2
       (save_prompt (fun _ => "") first.1 first.2 example_world).2).2 in
  w_files (after ("Mine", "Sum up") ("Yours", "List")) !! PROMPTS_PATH <>
  w_files (after ("Yours", "List") ("Mine", "Sum up")) !! PROMPTS_PATH /\
  w_files (after ("Mine", "Sum up") ("Mine", "Sum up again")) !! PROMPTS_PATH =
    Some (Json (prompts_to_json (<[ "Mine" := "Sum up again" ]> DEFAULT_PROMPTS))).
Proof.
  destruct (saves_commute_up_to_order (fun _ => "") example_world DEFAULT_PROMPTS
              (write_file PROMPTS_PATH (Json (prompts_to_json DEFAULT_PROMPTS)) example_world).2
              "Mine" "Sum up" "Yours" "List") as (_ & Hdiffer & _);
    [apply ensure_creates_defaults; reflexivity|].
  destruct (saves_commute_up_to_order (fun _ => "") example_world DEFAULT_PROMPTS
              (write_file PROMPTS_PATH (Json (prompts_to_json DEFAULT_PROMPTS)) example_world).2
              "Mine" "Sum up" "Mine" "Sum up again") as (_ & _ & Hlast);
    [apply ensure_creates_defaults; reflexivity|].
  split; [apply Hdiffer; [discriminate | reflexivity | reflexivity] | exact Hlast].
Defined.


(** ** Interface handlers *)

Section HandlerFacts.

Variable str_of_json : json -> string.
Variable str_of_exn : exn -> string.

(** X15. The transcription handler never raises: its effects are those of
    the pipeline, and when the pipeline fails, or nothing is uploaded, it
    returns one message with empty previews and no download path. The
    name of the prompt has no influence on what it does. *)
Theorem transcribe_from_ui_never_raises audio_file summarize prompt_name prompt_text w :
  let run := transcribe_from_ui str_of_exn audio_file summarize prompt_name prompt_text w in
  let inner := transcribe_file audio_file summarize prompt_text w in
  is_ok run.1 = true /\
  run.2 = inner.2 /\
  (is_ok inner.1 = false -> exists message, run.1 = Ok (ui_message message)) /\
  (forall e name, audio_file = Some name -> inner.1 = Raise e ->
     run.1 = Ok (ui_message (CROSS_MARK ++ " " ++ exn_text str_of_exn e))) /\
  forall other_name,
    transcribe_from_ui str_of_exn audio_file summarize other_name prompt_text w = run.
Proof.
  intros run inner. subst run inner.
  destruct audio_file as [name|].
  - unfold transcribe_from_ui.
    destruct (transcribe_file (Some name) summarize prompt_text w) as [[o|e] w'];
      cbn [fst snd is_ok]; repeat split; try discriminate; eauto.
    intros e' name' _ H. now injection H as ->.
  - cbn. repeat split; try discriminate; eauto.
Qed.

(** X16. Through the interface, summarization with a blank prompt shows
    the message of the empty prompt and offers no file, although the
    transcript, the raw record and the captions of the upload are on disk
    by then. *)
Theorem ui_blank_prompt_hides_artifacts w path key audio t prompt_name prompt_text :
  w_env_key w = Some key -> key <> "" ->
  w_files w !! path = Some audio ->
  transcriptions_create (w_openai w key) TRANSCRIPTION_MODEL audio = Ok t ->
  Forall segment_formattable (segments_or_empty t) ->
  PyStr.strip prompt_text = "" ->
  let base := base_name_of path w in
  let run := transcribe_from_ui str_of_exn (Some path) true prompt_name prompt_text w in
  run.1 = Ok (ui_message (CROSS_MARK ++ " " ++ MSG_EMPTY_PROMPT)) /\
  exists lines,
    srt_loop 1 (segments_or_empty t) [] = Ok lines /\
    w_files run.2 !! txt_path_of base =
      Some (Text (PyStr.strip (default "" (tr_text t)) ++ nl)) /\
    w_files run.2 !! json_path_of base = Some (Json (transcription_to_json t)) /\
    w_files run.2 !! srt_path_of base = Some (Text (srt_file_text lines)).
Proof.
  intros Hk Hne Hf Ht Hsegs Hblank base run.
  destruct (srt_loop_total _ Hsegs 1 []) as [lines Hl].
  subst run. unfold transcribe_from_ui.
  rewrite (blank_prompt_run w path key audio t lines prompt_text Hk Hne Hf Ht Hl Hblank).
  cbn [fst snd exn_text]. split; [reflexivity|]. exists lines. split; [exact Hl|].
  destruct (artifacts_lookup audio t base lines w) as (L1 & L2 & L3 & _).
  split; [exact L1|]. split; [exact L2 | exact L3].
Qed.

(** X17. The save handler turns down an empty name, and then a text that
    is blank, with a message: the store is not read, created or written. *)
Theorem on_prompt_save_rejects_blank prompt_name prompt_text w :
  prompt_name = "" \/ PyStr.strip prompt_text = "" ->
  on_prompt_save str_of_json prompt_name prompt_text w =
  (Ok (CROSS_MARK ++
       if PyStr.is_empty prompt_name then " Please provide a prompt name."
       else " Prompt text cannot be empty."), w).
Proof.
  intros H. unfold on_prompt_save.
  destruct (PyStr.is_empty prompt_name) eqn:Hn; [reflexivity|].
  destruct H as [-> | ->]; [discriminate | reflexivity].
Qed.

(** X18. A prompt saved through the handler is what selecting its name
    loads afterwards: the text comes back as it was typed, blanks around
    it included, with the note that names the prompt. *)
Theorem saved_prompt_is_selected w lib w1 prompt_name prompt_text :
  ensure_prompt_library str_of_json w = (Ok lib, w1) ->
  prompt_name <> "" ->
  PyStr.strip prompt_text <> "" ->
  exists w2,
    on_prompt_save str_of_json prompt_name prompt_text w =
      (Ok (CHECK_MARK ++ " Saved prompt '" ++ prompt_name ++ "'."), w2) /\
    on_prompt_selected str_of_json prompt_name w2 =
      (Ok (prompt_text, "Loaded prompt: **" ++ prompt_name ++ "**"), w2).
Proof.
  intros He Hn Ht. apply is_empty_false in Hn. pose proof Ht as Ht'.
  apply is_empty_false in Ht'.
  assert (PyStr.is_empty prompt_text = false) as Hne.
  { apply is_empty_false. intros ->. now apply Ht. }
  eexists. unfold on_prompt_save, on_prompt_selected, load_prompt_text, io_bind, io_ret.
  rewrite Hn, Ht', (save_prompt_eq str_of_json w lib w1 prompt_name prompt_text He).
  split; [reflexivity|].
  rewrite ensure_after_write
    by (apply dict_insert_wf; exact (ensure_ok_wf str_of_json w lib w1 He)).
  rewrite dict_lookup_insert_eq. cbn [default from_option id].
  now rewrite Hne.
Qed.

(** X19. With a store that does not hold a JSON object, saving and
    selecting a named prompt raise out of their handlers, which catch
    nothing, and leave the store as it is; selecting no prompt does not
    read the store and returns two empty texts. *)
Theorem prompt_handlers_raise_on_unreadable_store w c prompt_name prompt_text :
  w_files w !! PROMPTS_PATH = Some c ->
  (forall items, c <> Json (JObj items)) ->
  prompt_name <> "" ->
  PyStr.strip prompt_text <> "" ->
  (exists e,
     on_prompt_save str_of_json prompt_name prompt_text w = (Raise e, w) /\
     on_prompt_selected str_of_json prompt_name w = (Raise e, w)) /\
  on_prompt_selected str_of_json "" w = (Ok ("", ""), w).
Proof.
  intros Hf Hc Hn Ht. apply is_empty_false in Hn. apply is_empty_false in Ht.
  destruct (unreadable_store_raises str_of_json w c Hf Hc) as [e He].
  split; [|reflexivity].
  exists e. unfold on_prompt_save, on_prompt_selected, save_prompt, load_prompt_text, io_bind.
  now rewrite Hn, Ht, He.
Qed.

End HandlerFacts.

Lemma ui_blank_prompt_hides_artifacts_witness :
  let run := transcribe_from_ui (fun _ => "") (Some "uploads/meeting.mp3") true
               "General Summary" "   " example_world in
  run.1 = Ok (ui_message (CROSS_MARK ++ " " ++ MSG_EMPTY_PROMPT)) /\
  w_files run.2 !! "out/meeting-20240101-120000.txt" = Some (Text ("Hello World" ++ nl)).
Proof.
  destruct (ui_blank_prompt_hides_artifacts (fun _ => "") example_world
              "uploads/meeting.mp3" "sk-test" (Audio []) example_transcription
              "General Summary" "   ")
    as (H1 & lines & _ & H2 & _);
    [reflexivity | discriminate | reflexivity | reflexivity
    | exact example_segments_formattable | reflexivity |].
  split; [exact H1 | exact H2].
Defined.

Lemma on_prompt_save_rejects_blank_witness :
  on_prompt_save (fun _ => "") "Mine" "  " example_world =
  (Ok (CROSS_MARK ++ " Prompt text cannot be empty."), example_world).
Proof.
  apply (on_prompt_save_rejects_blank (fun _ => "") "Mine" "  " example_world).
  right. reflexivity.
Defined.

Lemma saved_prompt_is_selected_witness :
  exists w2,
    on_prompt_save (fun _ => "") "Mine" "  Sum up  " example_world =
      (Ok (CHECK_MARK ++ " Saved prompt 'Mine'."), w2) /\
    on_prompt_selected (fun _ => "") "Mine" w2 =
      (Ok ("  Sum up  ", "Loaded prompt: **Mine**"), w2).
Proof.
  apply (saved_prompt_is_selected (fun _ => "") example_world DEFAULT_PROMPTS
           (write_file PROMPTS_PATH (Json (prompts_to_json DEFAULT_PROMPTS)) example_world).2
           "Mine" "  Sum up  ").
  - apply ensure_creates_defaults. reflexivity.
  - discriminate.
  - vm_compute. discriminate.
Defined.

Lemma prompt_handlers_raise_on_unreadable_store_witness :
  (exists e,
     on_prompt_save (fun _ => "") "Mine" "Sum up" broken_store_world =
       (Raise e, broken_store_world) /\
     on_prompt_selected (fun _ => "") "Mine" broken_store_world =
       (Raise e, broken_store_world)) /\
  on_prompt_selected (fun _ => "") "" broken_store_world = (Ok ("", ""), broken_store_world).
Proof.
  apply (prompt_handlers_raise_on_unreadable_store (fun _ => "") broken_store_world
           (Text "{ not json") "Mine" "Sum up").
  - reflexivity.
  - discriminate.
  - discriminate.
  - vm_compute. discriminate.
Defined.

(** ** Command line *)

Section CommandLineFacts.

Variable str_of_json : json -> string.

(** A library that was read leaves a store behind. *)
Lemma ensure_ok_store w lib w1 :
  ensure_prompt_library str_of_json w = (Ok lib, w1) ->
  is_Some (w_files w1 !! PROMPTS_PATH).
Proof.
  intros He. destruct (path_exists PROMPTS_PATH w) eqn:Hex.
  - rewrite (ensure_existing str_of_json w Hex) in He. unfold read_prompts in He.
    destruct (w_files w !! PROMPTS_PATH) as [[s|[]|b]|] eqn:Hf; try discriminate.
    apply (f_equal snd) in He. cbn [snd] in He. subst w1. rewrite Hf. eauto.
  - rewrite (ensure_creates_defaults str_of_json w Hex) in He.
    apply (f_equal snd) in He. cbn [snd] in He. subst w1.
    rewrite write_file_files, lookup_insert_eq. eauto.
Qed.

(** The command line once the library is read. *)
Lemma main_steps w lib w1 audio_path summarize prompt_name prompt_text :
  ensure_prompt_library str_of_json w = (Ok lib, w1) ->
  TranscribeCloud.main str_of_json audio_path summarize prompt_name prompt_text w =
  match transcribe_file (Some audio_path) summarize
          (cli_template lib prompt_name prompt_text) w1 with
  | (Ok outputs, w') =>
      (Ok (app [status_markdown outputs;
                "Transcript: " ++ TranscribeCloud.show_path (txt_path outputs);
                "Captions: " ++ TranscribeCloud.show_path (srt_path outputs);
                "Verbose JSON: " ++ TranscribeCloud.show_path (json_path outputs)]
               match summary_path outputs with
               | Some summary => ["Summary: " ++ summary]
               | None => []
               end), w')
  | (Raise e, w') => (Raise e, w')
  end.
Proof.
  intros He.
  pose proof (ensure_ok_again str_of_json w lib w1 He) as He1.
  unfold TranscribeCloud.main, io_bind. rewrite He.
  destruct prompt_text as [text|]; cbn [cli_template].
  - unfold io_ret.
    destruct (transcribe_file (Some audio_path) summarize text w1) as [[o|e] w'];
      reflexivity.
  - unfold load_prompt_text, io_bind, io_ret. rewrite He1.
    destruct (transcribe_file _ _ _ w1) as [[o|e] w']; reflexivity.
Qed.

(** X20. On the command line a prompt name that the library does not
    have, and an empty [--prompt-text], which is used as given and does
    not fall back on the saved prompt, both give a blank template: with
    summarization the command then fails with the message of the empty
    prompt, after the recording is transcribed and the three artifacts are
    written. *)
Theorem cli_blank_template_fails_late w lib w1 path key audio t prompt_name prompt_text :
  ensure_prompt_library str_of_json w = (Ok lib, w1) ->
  PyStr.strip (cli_template lib prompt_name prompt_text) = "" ->
  w_env_key w1 = Some key -> key <> "" ->
  w_files w1 !! path = Some audio ->
  transcriptions_create (w_openai w1 key) TRANSCRIPTION_MODEL audio = Ok t ->
  Forall segment_formattable (segments_or_empty t) ->
  let base := base_name_of path w1 in
  let run := TranscribeCloud.main str_of_json path true prompt_name prompt_text w in
  run.1 = Raise (RuntimeError MSG_EMPTY_PROMPT) /\
  exists lines,
    srt_loop 1 (segments_or_empty t) [] = Ok lines /\
    added_events w1 run.2 (artifact_events audio t base lines) /\
    w_files run.2 !! txt_path_of base =
      Some (Text (PyStr.strip (default "" (tr_text t)) ++ nl)) /\
    w_files run.2 !! json_path_of base = Some (Json (transcription_to_json t)) /\
    w_files run.2 !! srt_path_of base = Some (Text (srt_file_text lines)).
Proof.
  intros He Hblank Hk Hne Hf Ht Hsegs base run.
  destruct (srt_loop_total _ Hsegs 1 []) as [lines Hl].
  subst run. rewrite (main_steps w lib w1 path true prompt_name prompt_text He).
  rewrite (blank_prompt_run w1 path key audio t lines _ Hk Hne Hf Ht Hl Hblank).
  cbn [fst snd]. split; [reflexivity|]. exists lines. split; [exact Hl|].
  split; [apply artifact_events_added|].
  destruct (artifacts_lookup audio t base lines w1) as (L1 & L2 & L3 & _).
  split; [exact L1|]. split; [exact L2 | exact L3].
Qed.

(** X21. The command line reads the prompt library before anything else,
    whatever its options: with a store that does not hold a JSON object
    it raises and does nothing, even when no summary is asked for or the
    prompt text is given on the command line. *)
Theorem cli_needs_readable_store w c path summarize prompt_name prompt_text :
  w_files w !! PROMPTS_PATH = Some c ->
  (forall items, c <> Json (JObj items)) ->
  exists e,
    TranscribeCloud.main str_of_json path summarize prompt_name prompt_text w =
    (Raise e, w).
Proof.
  intros Hf Hc.
  destruct (unreadable_store_raises str_of_json w c Hf Hc) as [e He].
  exists e. unfold TranscribeCloud.main, io_bind. now rewrite He.
Qed.

(** X22. Without summarization the command line echoes four lines, the
    status and the three artifact paths, and no summary line; the prompt
    options play no part in the outcome, and a world without a prompt
    store gets one as a side effect. *)
Theorem cli_transcription_only w lib w1 path key audio t prompt_name prompt_text :
  ensure_prompt_library str_of_json w = (Ok lib, w1) ->
  w_env_key w1 = Some key -> key <> "" ->
  w_files w1 !! path = Some audio ->
  transcriptions_create (w_openai w1 key) TRANSCRIPTION_MODEL audio = Ok t ->
  Forall segment_formattable (segments_or_empty t) ->
  let base := base_name_of path w1 in
  let run := TranscribeCloud.main str_of_json path false prompt_name prompt_text w in
  run.1 = Ok [CHECK_MARK ++ " Transcription complete.";
              "Transcript: " ++ txt_path_of base;
              "Captions: " ++ srt_path_of base;
              "Verbose JSON: " ++ json_path_of base] /\
  is_Some (w_files run.2 !! PROMPTS_PATH) /\
  exists lines, added_events w1 run.2 (artifact_events audio t base lines).
Proof.
  intros He Hk Hne Hf Ht Hsegs base run.
  destruct (srt_loop_total _ Hsegs 1 []) as [lines Hl].
  subst run. rewrite (main_steps w lib w1 path false prompt_name prompt_text He).
  rewrite (run_steps w1 path key audio false _ Hk Hne Hf). cbv zeta.
  rewrite Ht, Hl. fold base. cbn [fst snd outputs_of summary_path txt_path srt_path
    json_path status_markdown TranscribeCloud.show_path default from_option id app].
  split; [reflexivity|].
  split.
  - destruct (not_an_output base PROMPTS_PATH) as (N1 & N2 & N3 & _); [reflexivity|].
    rewrite after_outputs_files, !lookup_insert_ne, log_files by assumption.
    exact (ensure_ok_store w lib w1 He).
  - exists lines. apply artifact_events_added.
Qed.

End CommandLineFacts.

Lemma cli_blank_template_fails_late_witness :
  DEFAULT_PROMPTS !! "General Summary" <> None /\
  (TranscribeCloud.main (fun _ => "") "uploads/meeting.mp3" true "General Summary"
     (Some "") example_world).1 = Raise (RuntimeError MSG_EMPTY_PROMPT).
Proof.
  split; [vm_compute; discriminate|].
  destruct (cli_blank_template_fails_late (fun _ => "") example_world DEFAULT_PROMPTS
              (write_file PROMPTS_PATH (Json (prompts_to_json DEFAULT_PROMPTS)) example_world).2
              "uploads/meeting.mp3" "sk-test" (Audio []) example_transcription
              "General Summary" (Some "")) as (H & _).
  - apply ensure_creates_defaults. reflexivity.
  - reflexivity.
  - reflexivity.
  - discriminate.
  - rewrite write_file_files, lookup_insert_ne by discriminate. reflexivity.
  - reflexivity.
  - exact example_segments_formattable.
  - exact H.
Defined.

Lemma cli_needs_readable_store_witness :
  exists e,
    TranscribeCloud.main (fun _ => "") "uploads/meeting.mp3" false "General Summary"
      (Some "Sum up") broken_store_world = (Raise e, broken_store_world).
Proof.
  apply (cli_needs_readable_store (fun _ => "") broken_store_world (Text "{ not json")).
  - reflexivity.
  - discriminate.
Defined.

Lemma cli_transcription_only_witness :
  (TranscribeCloud.main (fun _ => "") "uploads/meeting.mp3" false "No such prompt" None
     example_world).1 =
  Ok [CHECK_MARK ++ " Transcription complete.";
      "Transcript: out/meeting-20240101-120000.txt";
      "Captions: out/meeting-20240101-120000.srt";
      "Verbose JSON: out/meeting-20240101-120000.json"].
Proof.
  destruct (cli_transcription_only (fun _ => "") example_world DEFAULT_PROMPTS
              (write_file PROMPTS_PATH (Json (prompts_to_json DEFAULT_PROMPTS)) example_world).2
              "uploads/meeting.mp3" "sk-test" (Audio []) example_transcription
              "No such prompt" None) as (H & _).
  - apply ensure_creates_defaults. reflexivity.
  - reflexivity.
  - discriminate.
  - rewrite write_file_files, lookup_insert_ne by discriminate. reflexivity.
  - reflexivity.
  - exact example_segments_formattable.
  - exact H.
Defined.

(** ** Timestamp formatter: its range *)

(** X23. On the offsets that are not negative the formatter has a sharp
    range: it answers every offset up to
    [4611686018427387 * 2 ^ 962] (about 1.797e305 seconds), and for every
    offset from the next float on, the infinity included, it raises
    [OverflowError], never [ValueError]. *)
Theorem formatter_range seconds :
  valid_binary PyFloat.prec PyFloat.emax seconds = true ->
  non_negative seconds = true ->
  (PyFloat.leb seconds LAST_FORMATTABLE = true ->
   exists ts, seconds_to_srt_timestamp seconds = Ok ts) /\
  (PyFloat.leb FIRST_OVERFLOWING seconds = true ->
   seconds_to_srt_timestamp seconds =
     Raise (OverflowError "cannot convert float infinity to integer")).
Proof.
  intros Hv Hnn. split; intros Hle.
  - apply formattable_timestamp, formattable_up_to_last; assumption.
  - apply overflow_from_first; assumption.
Qed.

Lemma formatter_range_witness :
  (exists ts, seconds_to_srt_timestamp f_4_25 = Ok ts) /\
  seconds_to_srt_timestamp f_1e306 =
    Raise (OverflowError "cannot convert float infinity to integer").
Proof.
  split.
  - apply (formatter_range f_4_25); reflexivity.
  - apply (formatter_range f_1e306); reflexivity.
Defined.

(** ** Timestamp formatter: offsets below zero *)

Lemma format_negative width z :
  z < 0 ->
  PyInt.format_zero_padded width z =
  "-" ++ PyInt.zeros (width - 1 - String.length (digits_of (- z))) ++ digits_of (- z).
Proof.
  intros Hz. unfold PyInt.format_zero_padded, digits_of.
  destruct (Z.ltb_spec z 0) as [_|]; [|lia].
  replace (Z.abs_N z) with (Z.to_N (- z)) by (destruct z; try lia; reflexivity).
  reflexivity.
Qed.

Lemma decimal_value_minus s : decimal_value (String "-" s) = None.
Proof.
  unfold decimal_value. cbn [PyStr.is_empty NilEmpty.uint_of_string].
  now destruct (NilEmpty.uint_of_string s).
Qed.

(** X24. An offset that rounds to a negative number of milliseconds is
    formatted, not refused: the hour field is a minus sign and the
    digits of the hours rounded down, and the minutes, seconds and
    milliseconds count upwards from that hour (minus one second reads
    -1:59:59,000). The text has no reading as a timestamp. *)
Theorem negative_offset_is_formatted seconds millis :
  millis_of seconds = Ok millis ->
  millis < 0 ->
  exists hours mm ss mmm h m s ms,
    seconds_to_srt_timestamp seconds =
      Ok ("-" ++ hours ++ ":" ++ mm ++ ":" ++ ss ++ "," ++ mmm) /\
    decimal_value hours = Some h /\ decimal_value mm = Some m /\
    decimal_value ss = Some s /\ decimal_value mmm = Some ms /\
    String.length mm = 2%nat /\ String.length ss = 2%nat /\ String.length mmm = 3%nat /\
    0 < h /\ 0 <= m < 60 /\ 0 <= s < 60 /\ 0 <= ms < 1000 /\
    millis = ((- h * 60 + m) * 60 + s) * 1000 + ms /\
    parse_srt_timestamp ("-" ++ hours ++ ":" ++ mm ++ ":" ++ ss ++ "," ++ mmm) = None.
Proof.
  intros Hm Hneg.
  set (h := millis / 3600000). set (r1 := millis mod 3600000).
  set (m := r1 / 60000). set (r2 := r1 mod 60000).
  set (s := r2 / 1000). set (ms := r2 mod 1000).
  assert (Hh : h < 0) by (apply Z.div_lt_upper_bound; lia).
  assert (Hr1 : 0 <= r1 < 3600000) by (apply Z.mod_pos_bound; lia).
  assert (Hmm : 0 <= m < 60)
    by (subst m; split; [apply Z.div_pos; lia | apply Z.div_lt_upper_bound; lia]).
  assert (Hr2 : 0 <= r2 < 60000) by (apply Z.mod_pos_bound; lia).
  assert (Hs : 0 <= s < 60)
    by (subst s; split; [apply Z.div_pos; lia | apply Z.div_lt_upper_bound; lia]).
  assert (Hms : 0 <= ms < 1000) by (apply Z.mod_pos_bound; lia).
  set (hours := PyInt.zeros (2 - 1 - String.length (digits_of (- h))) ++ digits_of (- h)).
  exists hours, (PyInt.format_zero_padded 2 m), (PyInt.format_zero_padded 2 s),
    (PyInt.format_zero_padded 3 ms), (- h), m, s, ms.
  assert (Hdigits : all_digits hours = true).
  { subst hours. rewrite all_digits_app, zeros_digits. apply string_of_uint_digits. }
  split.
  { rewrite (timestamp_of_millis _ _ Hm). fold h r1 m r2 s ms.
    rewrite (format_negative 2 h Hh). fold hours.
    now rewrite !string_app_assoc. }
  split; [apply decimal_value_padded; lia|].
  rewrite !decimal_value_format by lia.
  rewrite (format_length_2 m), (format_length_2 s), (format_length_3 ms) by lia.
  repeat (split; [reflexivity || lia|]).
  split.
  { subst h m s ms r2 r1.
    pose proof (Z.div_mod millis 3600000 ltac:(lia)).
    pose proof (Z.div_mod (millis mod 3600000) 60000 ltac:(lia)).
    pose proof (Z.div_mod (millis mod 3600000 mod 60000) 1000 ltac:(lia)).
    lia. }
  unfold parse_srt_timestamp.
  change ("-" ++ hours ++ ":" ++ ?r) with (String "-" hours ++ String ":" r).
  rewrite !app_char.
  rewrite split_first_app
    by (cbn [has_char]; rewrite (digits_have_no ":" hours); [reflexivity.. | exact Hdigits]).
  rewrite split_first_app by (apply digits_have_no; [reflexivity | apply format_digits; lia]).
  rewrite split_first_app by (apply digits_have_no; [reflexivity | apply format_digits; lia]).
  rewrite decimal_value_minus.
  now destruct (_ && _).
Qed.

Lemma negative_offset_is_formatted_witness :
  exists hours mm ss mmm,
    seconds_to_srt_timestamp (SFopp (PyFloat.of_int 1)) =
      Ok ("-" ++ hours ++ ":" ++ mm ++ ":" ++ ss ++ "," ++ mmm) /\
    parse_srt_timestamp ("-" ++ hours ++ ":" ++ mm ++ ":" ++ ss ++ "," ++ mmm) = None.
Proof.
  destruct (negative_offset_is_formatted (SFopp (PyFloat.of_int 1)) (-1000))
    as (hours & mm & ss & mmm & h & m & s & ms & Hts & H);
    [reflexivity | lia |].
  exists hours, mm, ss, mmm. split; [exact Hts | apply H].
Defined.

(** ** Summarizer *)

(** X25. The summarizer's only effect is one call of the completion
    collaborator: it writes nothing, returns the response trimmed, so
    that trimming its result changes nothing, and passes an exception of
    the collaborator on. A missing template counts as the empty one, for
    which the prompt is two line feeds, the heading and the trimmed
    transcript; a transcript trimmed beforehand gives the same run. *)
Theorem summarizer_outcome client template transcript w :
  let prompt := prompt_of (default "" template) transcript in
  let run := summarize_transcript client template transcript w in
  run.2 = log (EvComplete SUMMARY_MODEL prompt) w /\
  w_files run.2 = w_files w /\
  (forall response, responses_create client SUMMARY_MODEL prompt = Ok response ->
     run.1 = Ok (PyStr.strip response)) /\
  (forall e, responses_create client SUMMARY_MODEL prompt = Raise e -> run.1 = Raise e) /\
  (forall summary, run.1 = Ok summary -> PyStr.strip summary = summary) /\
  (default "" template = "" ->
     prompt = nl ++ nl ++ "Transcript:" ++ nl ++ PyStr.strip transcript) /\
  summarize_transcript client template (PyStr.strip transcript) w = run.
Proof.
  intros prompt run.
  assert (forall tr, summarize_transcript client template tr w =
            (r ← responses_create client SUMMARY_MODEL (prompt_of (default "" template) tr);
             Ok (PyStr.strip r),
             log (EvComplete SUMMARY_MODEL (prompt_of (default "" template) tr)) w)) as Heq.
  { intros tr. destruct template as [tpl|]; [apply summarize_prompt_of|].
    apply (summarize_prompt_of client "" tr w). }
  assert (prompt_of (default "" template) (PyStr.strip transcript) = prompt) as Hstrip.
  { subst prompt. unfold prompt_of. now rewrite strip_idem. }
  subst run. rewrite !Heq, Hstrip. fold prompt. cbn [fst snd].
  split; [reflexivity|]. split; [reflexivity|].
  split; [intros r ->; reflexivity|]. split; [intros e ->; reflexivity|].
  split.
  { intros summary. destruct (responses_create client SUMMARY_MODEL prompt) as [r|e];
      cbn [mbind result_bind]; [|discriminate].
    intros H. injection H as <-. apply strip_idem. }
  split; [|reflexivity].
  intros Hempty. subst prompt. rewrite Hempty. reflexivity.
Qed.


(** ** Interface and command line: a complete run *)

(** X26. After a complete run with summary the interface shows what is
    on disk: each of the four paths it offers names a file of the world
    after the run, the transcript file holds the transcript preview and
    one line feed, and the summary file holds the summary preview and one
    line feed. *)
Theorem ui_offers_written_files (str_of_exn : exn -> string) w path key audio t
    prompt_name prompt_text response :
  w_env_key w = Some key -> key <> "" ->
  w_files w !! path = Some audio ->
  transcriptions_create (w_openai w key) TRANSCRIPTION_MODEL audio = Ok t ->
  Forall segment_formattable (segments_or_empty t) ->
  PyStr.strip prompt_text <> "" ->
  responses_create (w_openai w key) SUMMARY_MODEL
    (prompt_of prompt_text (PyStr.strip (default "" (tr_text t)))) = Ok response ->
  let run := transcribe_from_ui str_of_exn (Some path) true prompt_name prompt_text w in
  exists out txt srt raw summary captions,
    run.1 = Ok out /\
    ui_status out = CHECK_MARK ++ " Transcription and summary complete." /\
    ui_txt out = Some txt /\ ui_srt out = Some srt /\ ui_json out = Some raw /\
    ui_summary_file out = Some summary /\
    w_files run.2 !! txt = Some (Text (ui_transcript out ++ nl)) /\
    w_files run.2 !! summary = Some (Text (ui_summary out ++ nl)) /\
    w_files run.2 !! srt = Some (Text captions) /\
    w_files run.2 !! raw = Some (Json (transcription_to_json t)).
Proof.
  intros Hk Hne Hf Ht Hsegs Htpl Hr run.
  destruct (srt_loop_total _ Hsegs 1 []) as [lines Hl].
  subst run. unfold transcribe_from_ui.
  rewrite (run_steps w path key audio true prompt_text Hk Hne Hf). cbv zeta.
  apply is_empty_false in Htpl. rewrite Ht, Hl, Htpl, Hr.
  set (base := base_name_of path w).
  destruct (out_paths_differ base) as (_ & _ & _ & D1 & D2 & D3).
  destruct (artifacts_lookup audio t base lines w) as (L1 & L2 & L3 & _).
  eexists _, _, _, _, _, _. cbn [fst snd].
  split; [reflexivity|].
  cbn [outputs_of ui_status ui_txt ui_srt ui_json ui_summary_file ui_transcript ui_summary
       status_markdown txt_path srt_path json_path summary_path transcript_text summary_text].
  repeat (split; [reflexivity|]).
  rewrite write_file_files, log_files.
  split; [rewrite lookup_insert_ne by assumption; exact L1|].
  split; [apply lookup_insert_eq|].
  split; [rewrite lookup_insert_ne by assumption; exact L3|].
  rewrite lookup_insert_ne by assumption; exact L2.
Qed.

Lemma ui_offers_written_files_witness :
  let run := transcribe_from_ui (fun _ => "") (Some "uploads/meeting.mp3") true
               "General Summary" "Sum up: {transcript}" example_world in
  exists out txt summary,
    run.1 = Ok out /\ ui_txt out = Some txt /\ ui_summary_file out = Some summary /\
    w_files run.2 !! txt = Some (Text (ui_transcript out ++ nl)) /\
    w_files run.2 !! summary = Some (Text (ui_summary out ++ nl)).
Proof.
  destruct (ui_offers_written_files (fun _ => "") example_world "uploads/meeting.mp3"
              "sk-test" (Audio []) example_transcription "General Summary"
              "Sum up: {transcript}" "Summary of: Sum up: Hello World")
    as (out & txt & srt & raw & summary & captions & H1 & _ & H2 & _ & _ & H3 & H4 & H5 & _);
    [reflexivity | discriminate | reflexivity | reflexivity
    | exact example_segments_formattable | vm_compute; discriminate
    | vm_compute; reflexivity |].
  exists out, txt, summary. repeat split; assumption.
Defined.

(** X27. On the command line without [--prompt-text], a saved prompt
    whose text is not blank is the template of the summary: the
    completion collaborator gets the prompt built from the saved text and
    the trimmed transcript, and the command echoes five lines, the status,
    the three artifact paths and the path of the summary. *)
Theorem cli_uses_saved_prompt (str_of_json : json -> string) w lib w1 path key audio t
    prompt_name template response :
  ensure_prompt_library str_of_json w = (Ok lib, w1) ->
  lib !! prompt_name = Some template ->
  PyStr.strip template <> "" ->
  w_env_key w1 = Some key -> key <> "" ->
  w_files w1 !! path = Some audio ->
  transcriptions_create (w_openai w1 key) TRANSCRIPTION_MODEL audio = Ok t ->
  Forall segment_formattable (segments_or_empty t) ->
  responses_create (w_openai w1 key) SUMMARY_MODEL
    (prompt_of template (PyStr.strip (default "" (tr_text t)))) = Ok response ->
  let base := base_name_of path w1 in
  let run := TranscribeCloud.main str_of_json path true prompt_name None w in
  run.1 = Ok [CHECK_MARK ++ " Transcription and summary complete.";
              "Transcript: " ++ txt_path_of base;
              "Captions: " ++ srt_path_of base;
              "Verbose JSON: " ++ json_path_of base;
              "Summary: " ++ summary_path_of base] /\
  w_files run.2 !! summary_path_of base = Some (Text (PyStr.strip response ++ nl)) /\
  exists lines,
    added_events w1 run.2
      (artifact_events audio t base lines ++ summary_events t base template response).
Proof.
  intros He Hlib Htpl Hk Hne Hf Ht Hsegs Hr base run.
  destruct (srt_loop_total _ Hsegs 1 []) as [lines Hl].
  subst run. rewrite (main_steps str_of_json w lib w1 path true prompt_name None He).
  cbn [cli_template]. rewrite Hlib. cbn [default from_option id].
  rewrite (run_steps w1 path key audio true template Hk Hne Hf). cbv zeta.
  apply is_empty_false in Htpl. rewrite Ht, Hl, Htpl, Hr. fold base.
  cbn [fst snd outputs_of summary_path txt_path srt_path json_path status_markdown
       TranscribeCloud.show_path default from_option id app].
  split; [reflexivity|].
  rewrite write_file_files.
  split; [apply lookup_insert_eq|].
  exists lines. apply artifacts_then. unfold added_events.
  rewrite write_file_trace. cbn [log w_trace]. now rewrite <- app_assoc.
Qed.

Lemma cli_uses_saved_prompt_witness :
  exists template,
    DEFAULT_PROMPTS !! "General Summary" = Some template /\
    (TranscribeCloud.main (fun _ => "") "uploads/meeting.mp3" true "General Summary" None
       example_world).1 =
    Ok [CHECK_MARK ++ " Transcription and summary complete.";
        "Transcript: out/meeting-20240101-120000.txt";
        "Captions: out/meeting-20240101-120000.srt";
        "Verbose JSON: out/meeting-20240101-120000.json";
        "Summary: out/meeting-20240101-120000-summary.txt"].
Proof.
  destruct (DEFAULT_PROMPTS !! "General Summary") as [template|] eqn:Hlib;
    [|vm_compute in Hlib; discriminate].
  exists template. split; [reflexivity|].
  destruct (cli_uses_saved_prompt (fun _ => "") example_world DEFAULT_PROMPTS
              (write_file PROMPTS_PATH (Json (prompts_to_json DEFAULT_PROMPTS)) example_world).2
              "uploads/meeting.mp3" "sk-test" (Audio []) example_transcription
              "General Summary" template
              ("Summary of: " ++ prompt_of template "Hello World")) as (H & _).
  - apply ensure_creates_defaults. reflexivity.
  - exact Hlib.
  - vm_compute in Hlib. injection Hlib as <-. vm_compute. discriminate.
  - reflexivity.
  - discriminate.
  - rewrite write_file_files, lookup_insert_ne by discriminate. reflexivity.
  - reflexivity.
  - exact example_segments_formattable.
  - reflexivity.
  - exact H.
Defined.


(** * The claims as worded, at a time beyond the formatter's range *)

Lemma overlong_loop :
  srt_loop 1 (segments_or_empty overlong_transcription) [] =
  Raise (OverflowError "cannot convert float infinity to integer").
Proof. vm_compute. reflexivity. Qed.

Lemma spoken_overlong_loop :
  srt_loop 1 (segments_or_empty spoken_overlong_transcription) [] =
  Raise (OverflowError "cannot convert float infinity to integer").
Proof. vm_compute. reflexivity. Qed.

Lemma textless_overlong_loop :
  srt_loop 1 (segments_or_empty textless_overlong_transcription) [] =
  Raise (OverflowError "cannot convert float infinity to integer").
Proof. vm_compute. reflexivity. Qed.

(** What the writer leaves of the caption file when the loop raises. *)
Lemma no_captions_when_loop_raises t base w e :
  srt_loop 1 (segments_or_empty t) [] = Raise e ->
  write_transcription_outputs t base w = (Raise e, before_captions t base w) /\
  w_files (before_captions t base w) !! srt_path_of base = w_files w !! srt_path_of base.
Proof.
  intros Hl. split; [exact (write_outputs_raise t base w e Hl)|].
  destruct (out_paths_differ base) as (_ & D2 & D3 & _).
  rewrite before_captions_files, !lookup_insert_ne by assumption. reflexivity.
Qed.

(** Against C2 as it is worded.  The service answers with a record whose
    one segment has no text and starts at 1e306: the transcription has
    succeeded, but the run with a blank prompt stops in the writer with
    [OverflowError], not on the prompt, and there is no caption file. *)
Lemma blank_prompt_run_stops_in_writer :
  let w := world_with overlong_client in
  let run := transcribe_file (Some "uploads/meeting.mp3") true "   " w in
  transcriptions_create (w_openai w "sk-test") TRANSCRIPTION_MODEL (Audio []) =
    Ok overlong_transcription /\
  run.1 = Raise (OverflowError "cannot convert float infinity to integer") /\
  w_files run.2 !! srt_path_of (base_name_of "uploads/meeting.mp3" w) = None /\
  ~ blank_prompt_always_fails_after_artifacts.
Proof.
  intros w run.
  assert (run = (Raise (OverflowError "cannot convert float infinity to integer"),
                 before_captions overlong_transcription
                   (base_name_of "uploads/meeting.mp3" w)
                   (log (EvTranscribe TRANSCRIPTION_MODEL (Audio [])) w))) as Hrun.
  { subst run.
    rewrite (run_steps w "uploads/meeting.mp3" "sk-test" (Audio []) true "   "
               eq_refl ltac:(discriminate) eq_refl).
    cbv zeta. change (transcriptions_create (w_openai w "sk-test") TRANSCRIPTION_MODEL (Audio []))
      with (@Ok Transcription overlong_transcription).
    cbv iota beta. now rewrite overlong_loop. }
  split; [reflexivity|]. rewrite Hrun. cbn [fst snd].
  split; [reflexivity|].
  split.
  { rewrite (proj2 (no_captions_when_loop_raises overlong_transcription _ _ _ overlong_loop)).
    reflexivity. }
  intros H.
  destruct (H w "uploads/meeting.mp3" "sk-test" (Audio []) overlong_transcription "   "
              eq_refl ltac:(discriminate) eq_refl eq_refl eq_refl)
    as (w' & lines & Hfail & _).
  fold run in Hfail. rewrite Hrun in Hfail. discriminate.
Qed.

(** Against C3 as it is worded.  For the record whose one segment says
    "Hello" and starts at 1e306 the writer raises [OverflowError] and
    leaves no caption file, so that not every record gets its blocks. *)
Lemma spoken_segment_without_caption :
  List.filter spoken (numbered_from 1 (segments_or_empty spoken_overlong_transcription)) <> [] /\
  (write_transcription_outputs spoken_overlong_transcription "talk" example_world).1 =
    Raise (OverflowError "cannot convert float infinity to integer") /\
  w_files (write_transcription_outputs spoken_overlong_transcription "talk" example_world).2
    !! srt_path_of "talk" = None /\
  ~ captions_for_every_record.
Proof.
  destruct (no_captions_when_loop_raises spoken_overlong_transcription "talk" example_world
              _ spoken_overlong_loop) as [Hrun Hsrt].
  split; [vm_compute; discriminate|]. rewrite Hrun. cbn [fst snd].
  split; [reflexivity|]. split; [rewrite Hsrt; reflexivity|].
  intros H. destruct (H spoken_overlong_transcription "talk" example_world)
    as (out & w' & cs & Hok & _).
  rewrite Hrun in Hok. discriminate.
Qed.

(** Against C4 as it is worded.  The one segment of the record has no
    text, but it starts at 1e306 and is formatted before its text is
    looked at: the writer raises [OverflowError] and writes no caption
    file, where the claim has an empty one. *)
Lemma blank_segment_without_caption_file :
  Forall (fun s => segment_text s = "") (segments_or_empty overlong_transcription) /\
  (write_transcription_outputs overlong_transcription "talk" example_world).1 =
    Raise (OverflowError "cannot convert float infinity to integer") /\
  w_files (write_transcription_outputs overlong_transcription "talk" example_world).2
    !! srt_path_of "talk" = None /\
  ~ empty_captions_for_every_blank_record.
Proof.
  assert (Forall (fun s => segment_text s = "") (segments_or_empty overlong_transcription))
    as Hblank by (repeat constructor).
  destruct (no_captions_when_loop_raises overlong_transcription "talk" example_world
              _ overlong_loop) as [Hrun Hsrt].
  split; [exact Hblank|]. rewrite Hrun. cbn [fst snd].
  split; [reflexivity|]. split; [rewrite Hsrt; reflexivity|].
  intros H. destruct (H overlong_transcription "talk" example_world Hblank)
    as (out & w' & Hok & _).
  rewrite Hrun in Hok. discriminate.
Qed.

(** Against C9 as it is worded.  The record has no ["text"] key, and its
    one segment, which has no text either, starts at 1e306: the writer
    writes the transcript file with its line end and then raises
    [OverflowError], so that it does not return the empty transcript for
    every record without the key. *)
Lemma textless_record_raises :
  tr_text textless_overlong_transcription = None /\
  (write_transcription_outputs textless_overlong_transcription "talk" example_world).1 =
    Raise (OverflowError "cannot convert float infinity to integer") /\
  w_files (write_transcription_outputs textless_overlong_transcription "talk" example_world).2
    !! txt_path_of "talk" = Some (Text nl) /\
  ~ writer_total_on_missing_fields.
Proof.
  destruct (no_captions_when_loop_raises textless_overlong_transcription "talk" example_world
              _ textless_overlong_loop) as [Hrun _].
  split; [reflexivity|]. rewrite Hrun. cbn [fst snd].
  split; [reflexivity|].
  split.
  { destruct (out_paths_differ "talk") as (D1 & _).
    rewrite before_captions_files, lookup_insert_ne by congruence.
    apply lookup_insert_eq. }
  intros [H _].
  destruct (H textless_overlong_transcription "talk" example_world eq_refl) as (w' & Hok & _).
  rewrite Hrun in Hok. discriminate.
Qed.
